(** * Patient-Booking-System: slot availability, booking conflicts, reminders

    A shallow embedding of the server-side core of the clinic booking
    system and the properties of its specification:

    - [server/routes/slots.ts]        : [getAvailableSlots]
    - [server/routes/appointments.ts] : [bookAppointment]
    - [server/errorHandler.ts]        : [validateNotEmpty], [validateEmail2],
                                        [validatePhone2], [validateDateRange]
    - [server/routes/admin.ts]        : [updateAppointmentStatus],
                                        [rescheduleAppointment]
    - [server/scheduler.ts]           : [scheduleReminder], [cancelReminder],
                                        [checkDueReminders], [sendReminder]

    Modelling conventions.

    - An instant ([Date]) is its [getTime()] value: milliseconds since the
      epoch, a [Z].  Timestamps are stored as ISO-8601 strings in the
      canonical [toISOString] form, on which the string comparisons of the
      store's [$lt]/[$gt]/[$gte]/[$lte] filters coincide with the comparison
      of instants; the model stores the instant.  Arithmetic stays in the
      range where JavaScript numbers are exact integers.
    - Local time is UTC shifted by a fixed offset [tz] (milliseconds, no
      daylight-saving change inside the day at hand).
    - The document store is the list of the documents of the [appointments]
      collection, in insertion order; [findOne] is the first match.
    - [async]/[await] is sequential here: every handler runs to completion
      on the state it is given.  Notification sends and audit logging write
      to other collections and are left out. *)

From Stdlib Require Import ZArith List Bool Ascii String Lia Permutation.
From stdpp Require Import gmap strings list pretty.

Open Scope Z_scope.

(* ================================================================== *)
(** * Time *)
(* ================================================================== *)

Module Time.

Definition msPerSecond : Z := 1000.
Definition msPerMinute : Z := 60000.
Definition msPerHour : Z := 60 * 60 * 1000.
Definition msPerDay : Z := 24 * 60 * 60 * 1000.

(** Local midnight of the local calendar day that contains [t]. *)
Definition localMidnight (tz t : Z) : Z :=
  let loc := t + tz in loc - loc mod msPerDay - tz.

(** [d.setHours(h, m, s, ms)] followed by [d.getTime()]. *)
Definition setHours (tz t h m s ms : Z) : Z :=
  localMidnight tz t + h * msPerHour + m * msPerMinute + s * msPerSecond + ms.

(** [d.getDay()]: 0 is Sunday; 1 January 1970 was a Thursday. *)
Definition getDay (tz t : Z) : Z := ((t + tz) / msPerDay + 4) mod 7.

(** The UTC calendar date of [t], as a day number: what
    [d.toISOString().split("T")[0]] denotes. *)
Definition utcDate (t : Z) : Z := t / msPerDay.

End Time.

(** A timestamp as a request carries it. *)
Inductive TimeField :=
| TimeMissing             (* undefined, null or the empty string *)
| TimeBlank               (* white space only *)
| TimeGarbage             (* other text for which [new Date] is Invalid Date *)
| TimeAt (t : Z).         (* text that [new Date] parses to the instant [t] *)

(** An integer parameter as a query carries it, read by [parseInt]. *)
Inductive NumField :=
| NumMissing              (* undefined or the empty string *)
| NumNaN                  (* text for which [parseInt] is NaN *)
| NumInt (n : Z).

(** [new Date(s).getTime()]: [None] is NaN. *)
Definition newDate (f : TimeField) : option Z :=
  match f with TimeAt t => Some t | _ => None end.

(* ================================================================== *)
(** * Data model *)
(* ================================================================== *)

Inductive Status := pending | confirmed | completed | cancelled.

Definition Status_eqb (a b : Status) : bool :=
  match a, b with
  | pending, pending | confirmed, confirmed
  | completed, completed | cancelled, cancelled => true
  | _, _ => false
  end.

(** [status: { $in: ["confirmed", "pending"] }] *)
Definition isActive (s : Status) : bool :=
  Status_eqb s confirmed || Status_eqb s pending.

(** [["pending","confirmed","completed","cancelled"].includes(status)] *)
Definition parseStatus (s : string) : option Status :=
  if String.eqb s "pending" then Some pending
  else if String.eqb s "confirmed" then Some confirmed
  else if String.eqb s "completed" then Some completed
  else if String.eqb s "cancelled" then Some cancelled
  else None.

(** ** Document ids

    The driver's [ObjectId] is not part of the repository.  Its constructor
    is modelled on the 24-hex-character form the system uses: it throws on
    any other string, and two strings denote the same id when they agree up
    to the case of the hex digits. *)

Record ObjectId := mkObjectId { oid_hex : string }.

Definition isHexDigit (c : ascii) : bool :=
  let n := N_of_ascii c in
  ((48 <=? n) && (n <=? 57) || (65 <=? n) && (n <=? 70) || (97 <=? n) && (n <=? 102))%N.

Definition lowerHex (c : ascii) : ascii :=
  let n := N_of_ascii c in
  if ((65 <=? n) && (n <=? 70))%N then ascii_of_N (n + 32) else c.

Fixpoint string_forallb (p : ascii -> bool) (s : string) : bool :=
  match s with
  | EmptyString => true
  | String c r => p c && string_forallb p r
  end.

Fixpoint string_map (f : ascii -> ascii) (s : string) : string :=
  match s with
  | EmptyString => EmptyString
  | String c r => String (f c) (string_map f r)
  end.

(** [new ObjectId(s)]: [None] stands for the exception it throws. *)
Definition newObjectId (s : string) : option ObjectId :=
  if (String.length s =? 24)%nat && string_forallb isHexDigit s
  then Some (mkObjectId (string_map lowerHex s))
  else None.

(** [oid.toString()] *)
Definition ObjectId_toString (o : ObjectId) : string := oid_hex o.

Definition ObjectId_eqb (a b : ObjectId) : bool :=
  String.eqb (oid_hex a) (oid_hex b).

(** The [_id] of a stored document: generated by the driver, or a plain
    string when the document was written with one. *)
Inductive DocId :=
| IdObject (o : ObjectId)
| IdString (s : string).

Definition DocId_eqb (a b : DocId) : bool :=
  match a, b with
  | IdObject x, IdObject y => ObjectId_eqb x y
  | IdString x, IdString y => String.eqb x y
  | _, _ => false
  end.

(** ** Appointments ([shared/types], plus the fields the handlers add) *)

Record Appointment := mkAppointment {
  apt_id : DocId;
  apt_patientName : string;
  apt_patientEmail : string;
  apt_patientPhone : string;
  apt_serviceId : string;
  apt_providerId : string;
  apt_startTime : Z;
  apt_endTime : Z;
  apt_customFieldValues : list (string * string);
  apt_status : Status;
  apt_createdAt : Z;
  apt_updatedAt : Z;
  apt_rescheduleReason : option string;
  apt_reminderSent : bool;
  apt_reminderSentAt : option Z
}.

(** ** Provider availability *)

(** A time of day ["HH:mm"], after [split(":").map(Number)]. *)
Record TimeOfDay := mkTimeOfDay { tod_hour : Z; tod_min : Z }.

Record BusinessHours := mkBusinessHours {
  bh_dayOfWeek : Z;
  bh_startTime : TimeOfDay;
  bh_endTime : TimeOfDay;
  bh_isOpen : bool
}.

(** [blockedDates] holds ["YYYY-MM-DD"] strings compared by exact match with
    the UTC date of the request; each is kept as the day number it names.
    [None] is an absent (falsy) field. *)
Record ProviderAvailability := mkProviderAvailability {
  av_providerId : string;
  av_businessHours : list BusinessHours;
  av_blockedDates : option (list Z)
}.

Record TimeSlot := mkTimeSlot {
  slot_startTime : Z;
  slot_endTime : Z;
  slot_isAvailable : bool
}.

(* ================================================================== *)
(** * HTTP responses *)
(* ================================================================== *)

Inductive ErrorCode :=
| INVALID_INPUT | MISSING_REQUIRED_FIELD | INVALID_EMAIL | INVALID_PHONE
| UNAUTHORIZED | FORBIDDEN | INVALID_CREDENTIALS | TOKEN_EXPIRED
| NOT_FOUND | CONFLICT | ALREADY_EXISTS
| SLOT_UNAVAILABLE | DOUBLE_BOOKING | INVALID_STATUS_TRANSITION
| PROVIDER_UNAVAILABLE
| INTERNAL_SERVER_ERROR | DATABASE_ERROR | EXTERNAL_SERVICE_ERROR.

Record AppError := mkAppError {
  err_code : ErrorCode;
  err_message : string;
  err_statusCode : Z
}.

Inductive Body :=
| BSlots (slots : list TimeSlot)          (* a JSON array of slots *)
| BBooked (appointmentId : string)        (* { success: true, appointmentId, .. } *)
| BAppError (code : ErrorCode) (message : string)
                                          (* { success: false, error: { code, message, .. } } *)
| BFailure (message : string)             (* { success: false, message } *)
| BError (error : string)                 (* { error } *)
| BSuccess (message : string).            (* { success: true, message } *)

Record Response := mkResponse { res_status : Z; res_body : Body }.

(** [sendErrorResponse(res, error)] for an [AppError]. *)
Definition sendErrorResponse (e : AppError) : Response :=
  mkResponse (err_statusCode e) (BAppError (err_code e) (err_message e)).

(** What a [try] block can end with: an [AppError], or any other exception
    ([RangeError] of [toISOString], the driver's error on a bad id, ...). *)
Inductive Thrown :=
| ThrowApp (e : AppError)
| ThrowOther.

Definition Exc (A : Type) : Type := Thrown + A.

Definition ret {A} (a : A) : Exc A := inr a.
Definition throw {A} (t : Thrown) : Exc A := inl t.
Definition bind {A B} (m : Exc A) (k : A -> Exc B) : Exc B :=
  match m with
  | inl t => inl t
  | inr a => k a
  end.

Declare Scope exc_scope.
Delimit Scope exc_scope with exc.
Notation "'let!' x ':=' m 'in' k" := (bind m (fun x => k))
  (at level 10, x name, m at level 100, k at level 200) : exc_scope.
Notation "'do!' m 'in' k" := (bind m (fun _ => k))
  (at level 10, m at level 100, k at level 200) : exc_scope.

(* ================================================================== *)
(** * The interval-overlap test *)
(* ================================================================== *)

(** [aStart < bEnd && aEnd > bStart], the test written out in the slot
    generator (slot against appointment) and in the conflict queries
    (stored appointment against requested interval). *)
Definition overlaps (aStart aEnd bStart bEnd : Z) : bool :=
  (aStart <? bEnd) && (aEnd >? bStart).

(* ================================================================== *)
(** * The appointments collection *)
(* ================================================================== *)

Module Store.

Definition Collection := list Appointment.

(** [findOne(filter)] *)
Definition findOne (p : Appointment -> bool) (c : Collection) : option Appointment :=
  List.find p c.

(** [find(filter).toArray()] *)
Definition findAll (p : Appointment -> bool) (c : Collection) : list Appointment :=
  List.filter p c.

(** [insertOne(doc)]; the driver supplies the new [_id]. *)
Definition insertOne (doc : Appointment) (c : Collection) : Collection :=
  c ++ [doc].

(** [updateOne(filter, { $set })]: the first match is updated; the result
    carries [matchedCount]. *)
Fixpoint updateOne (p : Appointment -> bool) (set : Appointment -> Appointment)
         (c : Collection) : Z * Collection :=
  match c with
  | [] => (0, [])
  | a :: r =>
      if p a then (1, set a :: r)
      else let '(n, r') := updateOne p set r in (n, a :: r')
  end.

(** [{ _id: new ObjectId(id) }] *)
Definition byObjectId (o : ObjectId) (a : Appointment) : bool :=
  DocId_eqb (apt_id a) (IdObject o).

(** [{ _id: id }] with a string *)
Definition byStringId (s : string) (a : Appointment) : bool :=
  DocId_eqb (apt_id a) (IdString s).

End Store.

(* ================================================================== *)
(** * Availability resolver ([routes/slots.ts]) *)
(* ================================================================== *)

(** [allSlots.sort(() => Math.random() - 0.5)]: the comparator is random,
    so the order [sort] leaves is engine-defined; all that is known of the
    result is that it holds the same slots. *)
Class SortEngine := {
  shuffle : list TimeSlot -> list TimeSlot;
  shuffle_perm : forall l, Permutation l (shuffle l)
}.

Module Slots.
Import Time Store.

(** [req.query] *)
Record SlotsQuery := mkSlotsQuery {
  q_providerId : string;        (* the empty string when absent *)
  q_date : TimeField;
  q_duration : NumField
}.

(** The [find] filter of the handler: this provider's confirmed or pending
    appointments whose [startTime] lies in the local calendar day. *)
Definition bookedFilter (providerId : string) (startOfDay endOfDay : Z)
           (a : Appointment) : bool :=
  String.eqb (apt_providerId a) providerId
  && (startOfDay <=? apt_startTime a) && (apt_startTime a <=? endOfDay)
  && isActive (apt_status a).

(** [bookedAppointments.some(...)] for the slot [slotStart, slotEndTime). *)
Definition isConflict (bookedAppointments : list Appointment)
           (slotStart slotEndTime : Z) : bool :=
  existsb (fun apt =>
             let aptStart := apt_startTime apt in
             let aptEnd := apt_endTime apt in
             overlaps slotStart slotEndTime aptStart aptEnd)
          bookedAppointments.

(** The [while] loop, with [step = durationMinutes * 60000].  Each unit of
    fuel pays for one evaluation of the guard; [None] means that the loop
    was still running when the fuel ran out. *)
Fixpoint slotLoop (fuel : nat) (bookedAppointments : list Appointment)
         (endDateTime step currentSlot : Z) : option (list TimeSlot) :=
  match fuel with
  | O => None
  | S fuel' =>
      if currentSlot + step <=? endDateTime then
        let slotEnd := currentSlot + step in
        match slotLoop fuel' bookedAppointments endDateTime step (currentSlot + step) with
        | None => None
        | Some rest =>
            if isConflict bookedAppointments currentSlot slotEnd
            then Some rest
            else Some (mkTimeSlot currentSlot slotEnd true :: rest)
        end
      else Some []
  end.

(** The loop for the parsed [duration]: with NaN the guard is false at
    once. *)
Definition generateSlots (fuel : nat) (bookedAppointments : list Appointment)
           (startDateTime endDateTime : Z) (duration : NumField)
  : option (list TimeSlot) :=
  match duration with
  | NumInt durationMinutes =>
      slotLoop fuel bookedAppointments endDateTime
               (durationMinutes * msPerMinute) startDateTime
  | _ => Some []
  end.

Definition startOfDayOf (tz selectedDate : Z) : Z := setHours tz selectedDate 0 0 0 0.
Definition endOfDayOf (tz selectedDate : Z) : Z := setHours tz selectedDate 23 59 59 999.

Definition startDateTimeOf (tz selectedDate : Z) (bh : BusinessHours) : Z :=
  setHours tz selectedDate (tod_hour (bh_startTime bh)) (tod_min (bh_startTime bh)) 0 0.
Definition endDateTimeOf (tz selectedDate : Z) (bh : BusinessHours) : Z :=
  setHours tz selectedDate (tod_hour (bh_endTime bh)) (tod_min (bh_endTime bh)) 0 0.

(** [availability.businessHours.find(bh => bh.dayOfWeek === dayOfWeek)] *)
Definition findBusinessHours (av : ProviderAvailability) (dayOfWeek : Z)
  : option BusinessHours :=
  List.find (fun bh => bh_dayOfWeek bh =? dayOfWeek) (av_businessHours av).

(** [availability.blockedDates && availability.blockedDates.includes(dateString)] *)
Definition isBlocked (av : ProviderAvailability) (selectedDate : Z) : bool :=
  match av_blockedDates av with
  | None => false
  | Some l => existsb (Z.eqb (utcDate selectedDate)) l
  end.

Definition isMissingTime (f : TimeField) : bool :=
  match f with TimeMissing => true | _ => false end.
Definition isMissingNum (f : NumField) : bool :=
  match f with NumMissing => true | _ => false end.

(** The handler.  [None]: the slot loop did not finish within [fuel]. *)
Definition getAvailableSlots `{SortEngine} (fuel : nat) (tz : Z)
           (availabilities : list ProviderAvailability)
           (appointments : Collection) (q : SlotsQuery) : option Response :=
  if String.eqb (q_providerId q) "" || isMissingTime (q_date q)
     || isMissingNum (q_duration q)
  then Some (mkResponse 400
               (BError "Missing required parameters: providerId, date, duration"))
  else
    match List.find (fun av => String.eqb (av_providerId av) (q_providerId q))
                    availabilities with
    | None => Some (mkResponse 404 (BError "Provider availability not found"))
    | Some availability =>
        match newDate (q_date q) with
        | None =>
            (* startOfDay.toISOString() throws RangeError *)
            Some (mkResponse 500 (BError "Failed to fetch available slots"))
        | Some selectedDate =>
            let startOfDay := startOfDayOf tz selectedDate in
            let endOfDay := endOfDayOf tz selectedDate in
            let bookedAppointments :=
              findAll (bookedFilter (q_providerId q) startOfDay endOfDay)
                      appointments in
            let dayOfWeek := getDay tz selectedDate in
            match findBusinessHours availability dayOfWeek with
            | None => Some (mkResponse 200 (BSlots []))
            | Some businessHours =>
                if negb (bh_isOpen businessHours)
                then Some (mkResponse 200 (BSlots []))
                else if isBlocked availability selectedDate
                then Some (mkResponse 200 (BSlots []))
                else
                  let startDateTime := startDateTimeOf tz selectedDate businessHours in
                  let endDateTime := endDateTimeOf tz selectedDate businessHours in
                  match generateSlots fuel bookedAppointments
                                      startDateTime endDateTime (q_duration q) with
                  | None => None
                  | Some allSlots =>
                      let shuffled := shuffle allSlots in
                      let selectedSlots := firstn 8 shuffled in
                      Some (mkResponse 200 (BSlots selectedSlots))
                  end
            end
        end
    end.

End Slots.

(* ================================================================== *)
(** * Validation helpers ([errorHandler.ts]) *)
(* ================================================================== *)

Module Validation.

Open Scope exc_scope.

(** Strings are taken over the code units 0..255.  [isSpace] is the white
    space of [trim] and of the pattern class [\s] in that range. *)
Definition isSpace (c : ascii) : bool :=
  let n := N_of_ascii c in
  ((9 <=? n) && (n <=? 13) || (n =? 32) || (n =? 160))%N.

(** [\d] *)
Definition isDigit (c : ascii) : bool :=
  let n := N_of_ascii c in ((48 <=? n) && (n <=? 57))%N.

(** [value.trim() === ""] (true of the empty string too) *)
Definition isBlank (s : string) : bool := string_forallb isSpace s.

(** [!value || (typeof value === "string" && value.trim() === "")], for
    the kinds of value the handlers pass. *)
Class Emptiable (A : Type) := isEmptyValue : A -> bool.
#[export] Instance Emptiable_string : Emptiable string := isBlank.
#[export] Instance Emptiable_time : Emptiable TimeField :=
  fun f => match f with TimeMissing | TimeBlank => true | _ => false end.

Definition validateNotEmpty {A} `{Emptiable A} (value : A) (fieldName : string)
  : Exc unit :=
  if isEmptyValue value
  then throw (ThrowApp (mkAppError MISSING_REQUIRED_FIELD
                                   (fieldName ++ " is required") 400))
  else ret tt.

(** [[^\s@]] *)
Definition isEmailChar (c : ascii) : bool :=
  negb (isSpace c) && negb (Ascii.eqb c "@").

(** The text before the first ["@"] and the text after it. *)
Fixpoint splitAt (s : string) : option (string * string) :=
  match s with
  | EmptyString => None
  | String c r =>
      if Ascii.eqb c "@" then Some (EmptyString, r)
      else match splitAt r with
           | Some (a, b) => Some (String c a, b)
           | None => None
           end
  end.

(** A ["."] that is neither the first nor the last character. *)
Fixpoint hasInnerDotFrom (s : string) : bool :=
  match s with
  | EmptyString => false
  | String c EmptyString => false
  | String c r => Ascii.eqb c "." || hasInnerDotFrom r
  end.
Definition hasInnerDot (s : string) : bool :=
  match s with
  | EmptyString => false
  | String _ r => hasInnerDotFrom r
  end.

(** [/^[^\s@]+@[^\s@]+\.[^\s@]+$/.test(email)] *)
Definition validateEmail (email : string) : bool :=
  match splitAt email with
  | None => false
  | Some (localPart, domain) =>
      negb (String.eqb localPart "")
      && string_forallb isEmailChar localPart
      && string_forallb isEmailChar domain
      && hasInnerDot domain
  end.

Fixpoint countDigits (s : string) : Z :=
  match s with
  | EmptyString => 0
  | String c r => (if isDigit c then 1 else 0) + countDigits r
  end.

(** [[\d\s\-\+\(\)]] *)
Definition isPhoneChar (c : ascii) : bool :=
  isDigit c || isSpace c || Ascii.eqb c "-" || Ascii.eqb c "+"
  || Ascii.eqb c "(" || Ascii.eqb c ")".

(** [/^[\d\s\-\+\(\)]+$/.test(phone) && phone.replace(/\D/g, "").length >= 10] *)
Definition validatePhone (phone : string) : bool :=
  negb (String.eqb phone "") && string_forallb isPhoneChar phone
  && (countDigits phone >=? 10).

Definition validateEmail2 (email : string) (fieldName : string) : Exc unit :=
  if negb (validateEmail email)
  then throw (ThrowApp (mkAppError INVALID_EMAIL (fieldName ++ " is not valid") 400))
  else ret tt.

Definition validatePhone2 (phone : string) (fieldName : string) : Exc unit :=
  if negb (validatePhone phone)
  then throw (ThrowApp (mkAppError INVALID_PHONE
                                   (fieldName ++ " must be a valid phone number") 400))
  else ret tt.

(** [a >= b] and [a < b] on [Date]s: false as soon as one side is NaN. *)
Definition dateGe (a b : option Z) : bool :=
  match a, b with Some x, Some y => x >=? y | _, _ => false end.
Definition dateLt (a b : option Z) : bool :=
  match a, b with Some x, Some y => x <? y | _, _ => false end.

Definition endBeforeStart : AppError :=
  mkAppError INVALID_INPUT "End time must be after start time" 400.
Definition inThePast : AppError :=
  mkAppError INVALID_INPUT "Appointment cannot be scheduled in the past" 400.
Definition invalidDateFormat : AppError :=
  mkAppError INVALID_INPUT "Invalid date format" 400.

(** [validateDateRange], with its own [try]/[catch]: an [AppError] is
    thrown on, anything else becomes "Invalid date format". *)
Definition validateDateRange (now : Z) (startDate endDate : TimeField) : Exc unit :=
  let body : Exc unit :=
    let start := newDate startDate in
    let end_ := newDate endDate in
    if dateGe start end_ then throw (ThrowApp endBeforeStart)
    else if dateLt start (Some now) then throw (ThrowApp inThePast)
    else ret tt in
  match body with
  | inl (ThrowApp e) => throw (ThrowApp e)
  | inl ThrowOther => throw (ThrowApp invalidDateFormat)
  | inr u => ret u
  end.

End Validation.

(* ================================================================== *)
(** * Booking ([routes/appointments.ts]) *)
(* ================================================================== *)

Module Booking.
Import Store Validation.

Open Scope exc_scope.

(** [req.body], a [BookAppointmentRequest]; absent strings are empty. *)
Record BookAppointmentRequest := mkBookAppointmentRequest {
  req_patientName : string;
  req_patientEmail : string;
  req_patientPhone : string;
  req_serviceId : string;
  req_providerId : string;
  req_startTime : TimeField;
  req_endTime : TimeField;
  req_customFieldValues : list (string * string)
}.

(** [d.toISOString()]: throws [RangeError] on an Invalid Date. *)
Definition toISOString (d : option Z) : Exc Z :=
  match d with
  | Some t => ret t
  | None => throw ThrowOther
  end.

(** The filter of the double-booking query. *)
Definition bookingConflictFilter (providerId : string) (startTime endTime : Z)
           (a : Appointment) : bool :=
  String.eqb (apt_providerId a) providerId
  && isActive (apt_status a)
  && overlaps (apt_startTime a) (apt_endTime a) startTime endTime.

Definition doubleBooking : AppError :=
  mkAppError DOUBLE_BOOKING
    "This time slot is no longer available. Please select another slot." 409.

(** The ten validation calls that open the handler. *)
Definition validateBooking (now : Z) (appointmentData : BookAppointmentRequest)
  : Exc unit :=
  do! validateNotEmpty (req_patientName appointmentData) "Patient name" in
  do! validateNotEmpty (req_patientEmail appointmentData) "Patient email" in
  do! validateNotEmpty (req_patientPhone appointmentData) "Patient phone" in
  do! validateNotEmpty (req_serviceId appointmentData) "Service ID" in
  do! validateNotEmpty (req_providerId appointmentData) "Provider ID" in
  do! validateNotEmpty (req_startTime appointmentData) "Start time" in
  do! validateNotEmpty (req_endTime appointmentData) "End time" in
  do! validateEmail2 (req_patientEmail appointmentData) "Patient email" in
  do! validatePhone2 (req_patientPhone appointmentData) "Patient phone" in
  validateDateRange now (req_startTime appointmentData) (req_endTime appointmentData).

(** The body of the handler's [try] block, up to the insertion; nothing
    after [insertOne] throws (the later lookups sit in their own
    [try]/[catch], the notification promise has its [catch]).
    [now] is the clock reading, [fresh] the [_id] the driver assigns. *)
Definition bookAppointmentTry (now : Z) (fresh : ObjectId) (db : Collection)
           (appointmentData : BookAppointmentRequest) : Exc (Response * Collection) :=
  do! validateBooking now appointmentData in
  let startTime := newDate (req_startTime appointmentData) in
  let endTime := newDate (req_endTime appointmentData) in
  let! endIso := toISOString endTime in
  let! startIso := toISOString startTime in
  let existingBooking :=
    findOne (bookingConflictFilter (req_providerId appointmentData) startIso endIso)
            db in
  match existingBooking with
  | Some _ => throw (ThrowApp doubleBooking)
  | None =>
      let appointment :=
        {| apt_id := IdObject fresh;
           apt_patientName := req_patientName appointmentData;
           apt_patientEmail := req_patientEmail appointmentData;
           apt_patientPhone := req_patientPhone appointmentData;
           apt_serviceId := req_serviceId appointmentData;
           apt_providerId := req_providerId appointmentData;
           apt_startTime := startIso;
           apt_endTime := endIso;
           apt_customFieldValues := req_customFieldValues appointmentData;
           apt_status := pending;
           apt_createdAt := now;
           apt_updatedAt := now;
           apt_rescheduleReason := None;
           apt_reminderSent := false;
           apt_reminderSentAt := None |} in
      let db' := insertOne appointment db in
      let appointmentId := ObjectId_toString fresh in
      ret (mkResponse 201 (BBooked appointmentId), db')
  end.

(** The handler with its [catch]: the response and the collection after. *)
Definition bookAppointment (now : Z) (fresh : ObjectId) (db : Collection)
           (appointmentData : BookAppointmentRequest) : Response * Collection :=
  match bookAppointmentTry now fresh db appointmentData with
  | inr r => r
  | inl (ThrowApp e) => (sendErrorResponse e, db)
  | inl ThrowOther => (mkResponse 500 (BFailure "Failed to book appointment"), db)
  end.

End Booking.

(* ================================================================== *)
(** * Staff operations ([routes/admin.ts]) *)
(* ================================================================== *)

Module Admin.
Import Store.

Inductive Role := admin | provider | staff.

(** [req.user], the token payload set by [authMiddleware]. *)
Record User := mkUser {
  user_role : Role;
  user_providerId : option string
}.

(** [req.user?.role === "provider" && appointment.providerId !== req.user.providerId] *)
Definition notOwnAppointment (user : option User) (appointment : Appointment) : bool :=
  match user with
  | Some u =>
      match user_role u with
      | provider =>
          match user_providerId u with
          | Some p => negb (String.eqb (apt_providerId appointment) p)
          | None => true
          end
      | _ => false
      end
  | None => false
  end.

(** [updateAppointmentStatus]: the response and the collection after.
    The handler reads and writes the [appointments] collection only. *)
Definition updateAppointmentStatus (now : Z) (db : Collection) (user : option User)
           (appointmentId : string) (status : string) : Response * Collection :=
  match parseStatus status with
  | None => (mkResponse 400 (BError "Invalid status"), db)
  | Some newStatus =>
      match newObjectId appointmentId with
      | None =>
          (* new ObjectId(appointmentId) throws, outside any inner try *)
          (mkResponse 500 (BError "Failed to update appointment"), db)
      | Some oid =>
          match findOne (byObjectId oid) db with
          | None => (mkResponse 404 (BError "Appointment not found"), db)
          | Some appointment =>
              if notOwnAppointment user appointment
              then (mkResponse 403 (BError "You can only modify your own appointments"), db)
              else
                let '(matchedCount, db') :=
                  updateOne (byObjectId oid)
                    (fun a =>
                       {| apt_id := apt_id a;
                          apt_patientName := apt_patientName a;
                          apt_patientEmail := apt_patientEmail a;
                          apt_patientPhone := apt_patientPhone a;
                          apt_serviceId := apt_serviceId a;
                          apt_providerId := apt_providerId a;
                          apt_startTime := apt_startTime a;
                          apt_endTime := apt_endTime a;
                          apt_customFieldValues := apt_customFieldValues a;
                          apt_status := newStatus;
                          apt_createdAt := apt_createdAt a;
                          apt_updatedAt := now;
                          apt_rescheduleReason := apt_rescheduleReason a;
                          apt_reminderSent := apt_reminderSent a;
                          apt_reminderSentAt := apt_reminderSentAt a |})
                    db in
                if matchedCount =? 0
                then (mkResponse 404 (BError "Appointment not found"), db')
                else
                  (* the service lookup: new ObjectId(appointment.serviceId) *)
                  match newObjectId (apt_serviceId appointment) with
                  | None => (mkResponse 500 (BError "Failed to update appointment"), db')
                  | Some _ => (mkResponse 200 (BSuccess "Appointment updated"), db')
                  end
          end
      end
  end.

(** The filter of the reschedule conflict query. *)
Definition rescheduleConflictFilter (oid : ObjectId) (providerId : string)
           (newStartTime newEndTime : Z) (a : Appointment) : bool :=
  negb (byObjectId oid a)
  && String.eqb (apt_providerId a) providerId
  && isActive (apt_status a)
  && overlaps (apt_startTime a) (apt_endTime a) newStartTime newEndTime.

(** [if (reason)] *)
Definition truthy (reason : option string) : bool :=
  match reason with
  | Some r => negb (String.eqb r "")
  | None => false
  end.

(** [{ $set: updateData }] *)
Definition applyReschedule (now newStartTime newEndTime : Z) (reason : option string)
           (a : Appointment) : Appointment :=
  {| apt_id := apt_id a;
     apt_patientName := apt_patientName a;
     apt_patientEmail := apt_patientEmail a;
     apt_patientPhone := apt_patientPhone a;
     apt_serviceId := apt_serviceId a;
     apt_providerId := apt_providerId a;
     apt_startTime := newStartTime;
     apt_endTime := newEndTime;
     apt_customFieldValues := apt_customFieldValues a;
     apt_status := apt_status a;
     apt_createdAt := apt_createdAt a;
     apt_updatedAt := now;
     apt_rescheduleReason :=
       if truthy reason then reason else apt_rescheduleReason a;
     apt_reminderSent := apt_reminderSent a;
     apt_reminderSentAt := apt_reminderSentAt a |}.

(** [rescheduleAppointment]: the response and the collection after.  The
    new times are the body's strings, compared and stored as they are. *)
Definition rescheduleAppointment (now : Z) (db : Collection) (user : option User)
           (appointmentId : string) (newStartTime newEndTime : Z)
           (reason : option string) : Response * Collection :=
  let appointment :=
    match newObjectId appointmentId with
    | Some oid => findOne (byObjectId oid) db
    | None => findOne (byStringId appointmentId) db      (* the catch branch *)
    end in
  match appointment with
  | None => (mkResponse 404 (BError "Appointment not found"), db)
  | Some appointment =>
      if notOwnAppointment user appointment
      then (mkResponse 403 (BError "You can only reschedule your own appointments"), db)
      else
        match newObjectId appointmentId with
        | None =>
            (* the conflict query builds new ObjectId(appointmentId) unguarded *)
            (mkResponse 500 (BError "Failed to reschedule appointment"), db)
        | Some oid =>
            let conflict :=
              findOne (rescheduleConflictFilter oid (apt_providerId appointment)
                                                newStartTime newEndTime) db in
            match conflict with
            | Some _ =>
                (mkResponse 409 (BError "Time slot conflicts with another appointment"), db)
            | None =>
                let '(matchedCount, db') :=
                  updateOne (byObjectId oid)
                            (applyReschedule now newStartTime newEndTime reason) db in
                if matchedCount =? 0
                then (mkResponse 404 (BError "Appointment not found"), db')
                else (mkResponse 200 (BSuccess "Appointment rescheduled successfully"), db')
            end
        end
  end.

End Admin.

(* ================================================================== *)
(** * Reminder scheduler ([scheduler.ts]) *)
(* ================================================================== *)

Module Scheduler.
Import Store.

Inductive ReminderType := email | sms | both.

(** A [NodeJS.Timeout] created by [scheduleReminder]: what its callback
    will do and when, and whether it is still armed ([clearTimeout]
    disarms it; the handle stays wherever it is referenced). *)
Record Timeout := mkTimeout {
  to_appointmentId : string;
  to_type : ReminderType;
  to_fireAt : Z;
  to_armed : bool
}.

Inductive LogStatus := sent | failed.

Record ReminderLog := mkReminderLog {
  log_appointmentId : ObjectId;
  log_type : ReminderType;
  log_sentAt : Z;
  log_status : LogStatus
}.

(** The [settings] document, as far as the scheduler reads it. *)
Record Settings := mkSettings {
  set_reminderHoursBefore : option Z;
  set_emailNotificationsEnabled : bool;
  set_smsNotificationsEnabled : bool
}.

(** The process: the store and the module-level [scheduledReminders]. *)
Record Server := mkServer {
  appointments : Collection;
  reminderLogs : list ReminderLog;
  scheduledReminders : gmap string Timeout
}.

Definition clearTimeout (t : Timeout) : Timeout :=
  {| to_appointmentId := to_appointmentId t; to_type := to_type t;
     to_fireAt := to_fireAt t; to_armed := false |}.

(** [`${appointmentId}_${sendTime.getTime()}`] *)
Definition reminderKey (appointmentId : string) (sendTime : Z) : string :=
  appointmentId +:+ "_" +:+ pretty sendTime.

(** [scheduleReminder(appointmentId, sendTime, type)] at clock [now]. *)
Definition scheduleReminder (now : Z) (appointmentId : string) (sendTime : Z)
           (type : ReminderType) (timers : gmap string Timeout)
  : gmap string Timeout :=
  let key := reminderKey appointmentId sendTime in
  let timers1 :=
    match timers !! key with
    | Some t => <[key := clearTimeout t]> timers
    | None => timers
    end in
  let delayMs := sendTime - now in
  if delayMs >? 0
  then <[key := mkTimeout appointmentId type sendTime true]> timers1
  else timers1.

(** [cancelReminder(appointmentId)]: every key that starts with the id is
    cleared and deleted. *)
Definition cancelReminder (appointmentId : string) (timers : gmap string Timeout)
  : gmap string Timeout :=
  filter (fun kv => ¬ Is_true (String.prefix appointmentId (fst kv))) timers.

(** [apt._id.toString()] *)
Definition idToString (i : DocId) : string :=
  match i with
  | IdObject o => ObjectId_toString o
  | IdString s => s
  end.

(** The query shared by the start-up scan and the sweep: [startTime] in
    [[from, to]], status confirmed or pending, [reminderSent] not true. *)
Definition needsReminder (from to : Z) (a : Appointment) : bool :=
  (from <=? apt_startTime a) && (apt_startTime a <=? to)
  && isActive (apt_status a)
  && negb (apt_reminderSent a).

(** [scheduleExistingAppointments] at clock [now]. *)
Definition scheduleExistingAppointments (now : Z) (s : Server) : Server :=
  let thirtyDaysFromNow := now + 30 * 24 * 60 * 60 * 1000 in
  let found := findAll (needsReminder now thirtyDaysFromNow) (appointments s) in
  let timers :=
    fold_left
      (fun timers apt =>
         let reminderTime := apt_startTime apt - 24 * 60 * 60 * 1000 in
         if reminderTime >? now
         then scheduleReminder now (idToString (apt_id apt)) reminderTime both timers
         else timers)
      found (scheduledReminders s) in
  mkServer (appointments s) (reminderLogs s) timers.

Definition markReminderSent (now : Z) (a : Appointment) : Appointment :=
  {| apt_id := apt_id a;
     apt_patientName := apt_patientName a;
     apt_patientEmail := apt_patientEmail a;
     apt_patientPhone := apt_patientPhone a;
     apt_serviceId := apt_serviceId a;
     apt_providerId := apt_providerId a;
     apt_startTime := apt_startTime a;
     apt_endTime := apt_endTime a;
     apt_customFieldValues := apt_customFieldValues a;
     apt_status := apt_status a;
     apt_createdAt := apt_createdAt a;
     apt_updatedAt := apt_updatedAt a;
     apt_rescheduleReason := apt_rescheduleReason a;
     apt_reminderSent := true;
     apt_reminderSentAt := Some now |}.

(** [sendReminder(appointmentId, type)] at clock [now]: the store and the
    log after.  The status of the appointment is not looked at. *)
Definition sendReminder (now : Z) (appointmentId : string) (type : ReminderType)
           (db : Collection) (logs : list ReminderLog)
  : Collection * list ReminderLog :=
  match newObjectId appointmentId with
  | None => (db, logs)       (* throws; so does the logging in the catch *)
  | Some oid =>
      match findOne (byObjectId oid) db with
      | None => (db, logs)
      | Some appointment =>
          match newObjectId (apt_serviceId appointment),
                newObjectId (apt_providerId appointment) with
          | Some _, Some _ =>
              let '(_, db') := updateOne (byObjectId oid) (markReminderSent now) db in
              (db', logs ++ [mkReminderLog oid type now sent])
          | _, _ =>
              (db, logs ++ [mkReminderLog oid type now failed])
          end
      end
  end.

(** The callback of an armed timer: send, then drop the key. *)
Definition fireTimer (now : Z) (key : string) (s : Server) : Server :=
  match scheduledReminders s !! key with
  | Some t =>
      if to_armed t then
        let '(db', logs') :=
          sendReminder now (to_appointmentId t) (to_type t)
                       (appointments s) (reminderLogs s) in
        mkServer db' logs' (delete key (scheduledReminders s))
      else s
  | None => s
  end.

(** [settings?.reminderHoursBefore || 24] *)
Definition reminderHoursOf (settings : option Settings) : Z :=
  match settings with
  | Some st =>
      match set_reminderHoursBefore st with
      | Some h => if h =? 0 then 24 else h
      | None => 24
      end
  | None => 24
  end.

Definition reminderTypeOf (settings : option Settings) : ReminderType :=
  match settings with
  | Some st =>
      if set_emailNotificationsEnabled st && negb (set_smsNotificationsEnabled st)
      then email
      else if negb (set_emailNotificationsEnabled st) && set_smsNotificationsEnabled st
      then sms
      else both
  | None => both
  end.

(** The appointments the periodic sweep selects at clock [now]. *)
Definition appointmentsNeedingReminders (now : Z) (settings : option Settings)
           (db : Collection) : list Appointment :=
  let reminderHours := reminderHoursOf settings in
  let reminderTime := now + reminderHours * 60 * 60 * 1000 in
  findAll (needsReminder now reminderTime) db.

(** [checkDueReminders] at clock [now]. *)
Definition checkDueReminders (now : Z) (settings : option Settings) (s : Server)
  : Server :=
  let selected := appointmentsNeedingReminders now settings (appointments s) in
  let '(db', logs') :=
    fold_left
      (fun st apt =>
         sendReminder now (idToString (apt_id apt)) (reminderTypeOf settings)
                      (fst st) (snd st))
      selected (appointments s, reminderLogs s) in
  mkServer db' logs' (scheduledReminders s).

(** A staff request served by the process: [updateAppointmentStatus] runs
    on the store; the handler holds no reference to the scheduler. *)
Definition serveUpdateStatus (now : Z) (user : option Admin.User)
           (appointmentId status : string) (s : Server) : Response * Server :=
  let '(res, db') :=
    Admin.updateAppointmentStatus now (appointments s) user appointmentId status in
  (res, mkServer db' (reminderLogs s) (scheduledReminders s)).

End Scheduler.

(* ================================================================== *)
(** * Specification-side definitions *)
(* ================================================================== *)

(** The candidate slots of §4.1 step 5, independently of the loop: the
    [k]-th candidate starts [k] steps after the opening time, and there are
    as many as whole steps fit into the open window. *)
Module SlotSpec.
Import Slots.

Definition candidateCount (startDateTime endDateTime step : Z) : nat :=
  Z.to_nat ((endDateTime - startDateTime) / step).

Definition candidate (startDateTime step : Z) (k : nat) : TimeSlot :=
  mkTimeSlot (startDateTime + Z.of_nat k * step)
             (startDateTime + Z.of_nat k * step + step) true.

Definition candidates (startDateTime endDateTime step : Z) : list TimeSlot :=
  List.map (candidate startDateTime step)
           (seq 0 (candidateCount startDateTime endDateTime step)).

Definition nonConflicting (booked : list Appointment) (s : TimeSlot) : bool :=
  negb (isConflict booked (slot_startTime s) (slot_endTime s)).

Definition acceptedCandidates (booked : list Appointment)
           (startDateTime endDateTime step : Z) : list TimeSlot :=
  List.filter (nonConflicting booked) (candidates startDateTime endDateTime step).

(** Fuel that pays for every evaluation of the loop guard. *)
Definition walkFuel (startDateTime endDateTime step : Z) : nat :=
  S (candidateCount startDateTime endDateTime step).

(** The cursor after [k] iterations of the loop body. *)
Definition cursorAfter (startDateTime step : Z) (k : nat) : Z :=
  Nat.iter k (fun currentSlot => currentSlot + step) startDateTime.

(** What the loop promises of a slot it emits from cursor [cur] on. *)
Definition goodSlot (booked : list Appointment) (endDateTime step cur : Z)
           (s : TimeSlot) : Prop :=
  cur <= slot_startTime s
  /\ slot_startTime s < slot_endTime s
  /\ slot_endTime s <= endDateTime
  /\ slot_endTime s = slot_startTime s + step
  /\ isConflict booked (slot_startTime s) (slot_endTime s) = false.

(** The day's open window [[dayStart, dayEnd)) of §4.1 step 3: the start and
    end times of the business hours of the date's weekday, applied to the
    date. *)
Definition openWindow (tz : Z) (availabilities : list ProviderAvailability)
           (q : SlotsQuery) : option (Z * Z) :=
  match List.find (fun av => String.eqb (av_providerId av) (q_providerId q))
                  availabilities, newDate (q_date q) with
  | Some availability, Some selectedDate =>
      match findBusinessHours availability (Time.getDay tz selectedDate) with
      | Some bh => Some (startDateTimeOf tz selectedDate bh,
                         endDateTimeOf tz selectedDate bh)
      | None => None
      end
  | _, _ => None
  end.

(** The appointments the handler fetches for a request. *)
Definition fetched (tz : Z) (appointments : Store.Collection) (providerId : string)
           (selectedDate : Z) : list Appointment :=
  Store.findAll (bookedFilter providerId (startOfDayOf tz selectedDate)
                              (endOfDayOf tz selectedDate)) appointments.

End SlotSpec.

(** Two sort engines: one leaves the array as it is, one reverses it. *)
#[export] Instance identityEngine : SortEngine :=
  {| shuffle := fun l => l; shuffle_perm := @Permutation_refl TimeSlot |}.

#[export] Instance reverseEngine : SortEngine :=
  {| shuffle := @List.rev TimeSlot; shuffle_perm := @Permutation_rev TimeSlot |}.

(** The words of §4.2 and §7 about the conflict guard. *)
Module BookingSpec.
Import Booking Validation.



(** The request passes the handler's validation. *)
Definition passesValidation (now : Z) (appointmentData : BookAppointmentRequest) : Prop :=
  validateBooking now appointmentData = inr tt.

(** The checks that come before the date range: the seven required fields
    are there, the email and the phone number are well formed. *)
Definition fieldsValid (appointmentData : BookAppointmentRequest) : bool :=
  negb (isBlank (req_patientName appointmentData))
  && negb (isBlank (req_patientEmail appointmentData))
  && negb (isBlank (req_patientPhone appointmentData))
  && negb (isBlank (req_serviceId appointmentData))
  && negb (isBlank (req_providerId appointmentData))
  && negb (isEmptyValue (req_startTime appointmentData))
  && negb (isEmptyValue (req_endTime appointmentData))
  && validateEmail (req_patientEmail appointmentData)
  && validatePhone (req_patientPhone appointmentData).

End BookingSpec.

(** The words of §4.2 about rescheduling. *)
Module RescheduleSpec.

(** Every field but the start and end timestamps, [updatedAt] and the
    reschedule reason is the same in both documents. *)
Definition sameOutsideSchedule (a a' : Appointment) : Prop :=
  apt_id a' = apt_id a
  /\ apt_patientName a' = apt_patientName a
  /\ apt_patientEmail a' = apt_patientEmail a
  /\ apt_patientPhone a' = apt_patientPhone a
  /\ apt_serviceId a' = apt_serviceId a
  /\ apt_providerId a' = apt_providerId a
  /\ apt_customFieldValues a' = apt_customFieldValues a
  /\ apt_status a' = apt_status a
  /\ apt_createdAt a' = apt_createdAt a
  /\ apt_reminderSent a' = apt_reminderSent a
  /\ apt_reminderSentAt a' = apt_reminderSentAt a.

(** What a reschedule does to one document of the collection: nothing, or,
    for the document with the given id, new timestamps, a new [updatedAt],
    and the reason when one is given. *)
Definition rescheduled (oid : ObjectId) (now newStartTime newEndTime : Z)
           (reason : option string) (a a' : Appointment) : Prop :=
  a' = a
  \/ (apt_id a = IdObject oid
      /\ sameOutsideSchedule a a'
      /\ apt_startTime a' = newStartTime
      /\ apt_endTime a' = newEndTime
      /\ apt_updatedAt a' = now
      /\ apt_rescheduleReason a'
         = (if Admin.truthy reason then reason else apt_rescheduleReason a)).

End RescheduleSpec.

(** The words of §4.3 about cancellation. *)
Module SchedulerSpec.
Import Scheduler.

(** The timer map holds an armed timer keyed by the appointment id: a key
    that starts with the id, bound to a timer that has not been cleared. *)
Definition armedFor (appointmentId : string) (timers : gmap string Timeout) : Prop :=
  exists key t,
    timers !! key = Some t
    /\ String.prefix appointmentId key = true
    /\ to_armed t = true.

(** The sweep at clock [now] selects the appointment with this id. *)
Definition sweptAt (now : Z) (settings : option Settings) (db : Store.Collection)
           (oid : ObjectId) : Prop :=
  exists a, In a (appointmentsNeedingReminders now settings db)
            /\ apt_id a = IdObject oid.

End SchedulerSpec.

(* ================================================================== *)
(** * A small clinic, for the examples *)
(* ================================================================== *)

Module Clinic.
Import Time Slots.

(** 2024-01-15T00:00:00.000Z, a Monday; the server clock is UTC. *)
Definition monday : Z := 1705276800000.
Definition utc : Z := 0.

(** [h]:[m] on that Monday. *)
Definition clock (h m : Z) : Z := monday + h * msPerHour + m * msPerMinute.

Definition drLee : string := "65a4f0c2e1b2c3d4e5f6a001".
Definition checkup : string := "65a4f0c2e1b2c3d4e5f6b001".

Definition appointmentOf (id : string) (start end_ : Z) (status : Status) : Appointment :=
  {| apt_id := IdObject (mkObjectId id);
     apt_patientName := "Ada Park";
     apt_patientEmail := "ada@example.org";
     apt_patientPhone := "+1 (555) 010-2030";
     apt_serviceId := checkup;
     apt_providerId := drLee;
     apt_startTime := start;
     apt_endTime := end_;
     apt_customFieldValues := [];
     apt_status := status;
     apt_createdAt := monday - 7 * msPerDay;
     apt_updatedAt := monday - 7 * msPerDay;
     apt_rescheduleReason := None;
     apt_reminderSent := false;
     apt_reminderSentAt := None |}.

(** Open on Monday 09:00-17:00, closed on Sunday, nothing blocked. *)
Definition fullDay : ProviderAvailability :=
  mkProviderAvailability drLee
    [ mkBusinessHours 0 (mkTimeOfDay 9 0) (mkTimeOfDay 17 0) false;
      mkBusinessHours 1 (mkTimeOfDay 9 0) (mkTimeOfDay 17 0) true ]
    (Some []).

(** Open on Monday 09:00-12:00 only. *)
Definition morning : ProviderAvailability :=
  mkProviderAvailability drLee
    [ mkBusinessHours 1 (mkTimeOfDay 9 0) (mkTimeOfDay 12 0) true ]
    (Some []).

(** One confirmed appointment, Monday 10:00-10:30. *)
Definition tenOClock : Appointment :=
  appointmentOf "65a4f0c2e1b2c3d4e5f6c001" (clock 10 0) (clock 10 30) confirmed.

(** A confirmed overnight appointment, Sunday 22:00 to Monday 09:30. *)
Definition overnight : Appointment :=
  appointmentOf "65a4f0c2e1b2c3d4e5f6c002" (clock (-2) 0) (clock 9 30) confirmed.

(** [GET /api/slots?providerId=..&date=2024-01-15&duration=30] *)
Definition halfHours : SlotsQuery := mkSlotsQuery drLee (TimeAt monday) (NumInt 30).

Definition nineOClockSlot : TimeSlot := mkTimeSlot (clock 9 0) (clock 9 30) true.

(** Times to read the clock at: the Sunday before and the Tuesday after. *)
Definition sundayBefore : Z := monday - msPerDay.
Definition tuesday : Z := monday + msPerDay.

Definition freshId : ObjectId := mkObjectId "65a4f0c2e1b2c3d4e5f6d001".

Definition requestOf (patientName : string) (startTime endTime : TimeField)
  : Booking.BookAppointmentRequest :=
  Booking.mkBookAppointmentRequest patientName "ada@example.org" "+1 (555) 010-2030"
                                   checkup drLee startTime endTime [].

(** A request for Monday 10:15-10:45. *)
Definition quarterPastTen : Booking.BookAppointmentRequest :=
  requestOf "Ada Park" (TimeAt (clock 10 15)) (TimeAt (clock 10 45)).

(** A request whose end (09:00) is before its start (10:00). *)
Definition inverted : Booking.BookAppointmentRequest :=
  requestOf "Ada Park" (TimeAt (clock 10 0)) (TimeAt (clock 9 0)).

(** A request for Monday 10:15-10:45 without a patient name. *)
Definition nameless : Booking.BookAppointmentRequest :=
  requestOf "" (TimeAt (clock 10 15)) (TimeAt (clock 10 45)).

(** A request for the slot the resolver offers at 09:00. *)
Definition nineOClockRequest : Booking.BookAppointmentRequest :=
  requestOf "Ada Park" (TimeAt (clock 9 0)) (TimeAt (clock 9 30)).

Definition tenOClockId : string := "65a4f0c2e1b2c3d4e5f6c001".

(** A pending appointment on Thursday 10:00-10:30 and its reminder time. *)
Definition thursdayId : string := "65a4f0c2e1b2c3d4e5f6c003".
Definition thursdayVisit : Appointment :=
  appointmentOf thursdayId (clock (3 * 24 + 10) 0) (clock (3 * 24 + 10) 30) pending.
Definition thursdayReminder : Z := clock (2 * 24 + 10) 0.

Definition anAdmin : Admin.User := Admin.mkUser Admin.admin None.

End Clinic.

(* ================================================================== *)
(** * Further handlers *)
(* ================================================================== *)

(** ** Reading one appointment ([routes/appointments.ts]) *)

Module Patient.
Import Store.

Inductive AppointmentReply :=
| ReplyAppointment (appointment : Appointment)       (* 200, the document *)
| ReplyError (status : Z) (error : string).          (* { error } *)

(** [getAppointment]: by [ObjectId], or by the string itself when the id
    is not one. *)
Definition getAppointment (db : Collection) (id : string) : AppointmentReply :=
  let appointment :=
    match newObjectId id with
    | Some oid => findOne (byObjectId oid) db
    | None => findOne (byStringId id) db
    end in
  match appointment with
  | None => ReplyError 404 "Appointment not found"
  | Some a => ReplyAppointment a
  end.

End Patient.

(** ** Listing and counting for the staff ([routes/admin.ts]) *)

Module Reports.
Import Store Admin.

(** [req.user?.role === "provider" && req.user?.providerId]: the provider
    the user is bound to, if any. *)
Definition boundProvider (user : option User) : option string :=
  match user with
  | Some u =>
      match user_role u, user_providerId u with
      | provider, Some p => if String.eqb p "" then None else Some p
      | _, _ => None
      end
  | None => None
  end.

(** [req.query] of [getAppointments], without the paging parameters. *)
Record ListQuery := mkListQuery {
  lq_status : string;            (* the empty string when absent *)
  lq_providerId : string;        (* the empty string when absent *)
  lq_startDate : TimeField;
  lq_endDate : TimeField
}.

(** [if (x)] on a timestamp parameter: only an absent or empty one is falsy. *)
Definition givenTime (f : TimeField) : bool :=
  match f with TimeMissing => false | _ => true end.

(** The [providerId] clause of the query. *)
Definition providerClause (user : option User) (q : ListQuery) (a : Appointment) : bool :=
  match boundProvider user with
  | Some p => String.eqb (apt_providerId a) p
  | None =>
      if String.eqb (lq_providerId q) "" then true
      else String.eqb (apt_providerId a) (lq_providerId q)
  end.

(** The [status] clause: the stored status is the given string. *)
Definition statusClause (q : ListQuery) (a : Appointment) : bool :=
  if String.eqb (lq_status q) "" then true
  else match parseStatus (lq_status q) with
       | Some s => Status_eqb (apt_status a) s
       | None => false
       end.

(** One bound of the [startTime] clause: [new Date(x).toISOString()]
    throws on an Invalid Date. *)
Definition timeBound (f : TimeField) : Exc (option Z) :=
  if givenTime f then
    match newDate f with
    | Some t => ret (Some t)
    | None => throw ThrowOther
    end
  else ret None.

(** The filter [getAppointments] builds from the user and the query. *)
Definition buildQuery (user : option User) (q : ListQuery)
  : Exc (Appointment -> bool) :=
  (let! from := timeBound (lq_startDate q) in
   let! to := timeBound (lq_endDate q) in
   ret (fun a =>
          providerClause user q a
          && statusClause q a
          && match from with Some t => t <=? apt_startTime a | None => true end
          && match to with Some t => apt_startTime a <=? t | None => true end))%exc.

Record Stats := mkStats {
  totalAppointments : nat;
  pendingAppointments : nat;
  confirmedAppointments : nat;
  totalPatients : nat
}.

(** The [filter] of [getAppointmentStats]. *)
Definition statsFilter (user : option User) (a : Appointment) : bool :=
  match boundProvider user with
  | Some p => String.eqb (apt_providerId a) p
  | None => true
  end.

(** [distinct("patientEmail", filter)] *)
Definition distinctEmails (l : list Appointment) : list string :=
  nodup string_dec (List.map apt_patientEmail l).

(** [getAppointmentStats] *)
Definition getAppointmentStats (db : Collection) (user : option User) : Stats :=
  let selected := findAll (statsFilter user) db in
  {| totalAppointments := length selected;
     pendingAppointments :=
       length (findAll (fun a => statsFilter user a && Status_eqb (apt_status a) pending) db);
     confirmedAppointments :=
       length (findAll (fun a => statsFilter user a && Status_eqb (apt_status a) confirmed) db);
     totalPatients := length (distinctEmails selected) |}.

End Reports.

(** ** The invariants of the data model (§3) *)

Module Invariants.

(** Two appointments that may not coexist: same provider, both confirmed or
    pending, overlapping intervals. *)
Definition clash (a b : Appointment) : Prop :=
  apt_providerId a = apt_providerId b
  /\ isActive (apt_status a) = true
  /\ isActive (apt_status b) = true
  /\ overlaps (apt_startTime a) (apt_endTime a) (apt_startTime b) (apt_endTime b) = true.

(** No two documents of the collection clash. *)
Definition noDoubleBooking (db : Store.Collection) : Prop :=
  ForallOrdPairs (fun a b => ~ clash a b) db.

(** Document ids are unique. *)
Definition uniqueIds (db : Store.Collection) : Prop :=
  List.NoDup (List.map apt_id db).

End Invariants.

(** ** The document a booking creates *)

Module BookingSpec2.
Import Booking.

(** The document [bookAppointment] inserts at clock [now], with the id
    [fresh], for a request with the parsed times [startTime] and [endTime]. *)
Definition isBookedDocument (now : Z) (fresh : ObjectId)
           (appointmentData : BookAppointmentRequest)
           (startTime endTime : Z) (doc : Appointment) : Prop :=
  apt_id doc = IdObject fresh
  /\ apt_patientName doc = req_patientName appointmentData
  /\ apt_patientEmail doc = req_patientEmail appointmentData
  /\ apt_patientPhone doc = req_patientPhone appointmentData
  /\ apt_serviceId doc = req_serviceId appointmentData
  /\ apt_providerId doc = req_providerId appointmentData
  /\ apt_startTime doc = startTime
  /\ apt_endTime doc = endTime
  /\ apt_customFieldValues doc = req_customFieldValues appointmentData
  /\ apt_status doc = pending
  /\ apt_createdAt doc = now
  /\ apt_updatedAt doc = now
  /\ apt_reminderSent doc = false.

End BookingSpec2.

(** ** What a status update does to a document *)

Module AdminSpec.

(** [a'] is [a] with the status [newStatus] and [updatedAt] set to [now];
    every other field is the same. *)
Definition withStatus (now : Z) (newStatus : Status) (a a' : Appointment) : Prop :=
  apt_id a' = apt_id a
  /\ apt_patientName a' = apt_patientName a
  /\ apt_patientEmail a' = apt_patientEmail a
  /\ apt_patientPhone a' = apt_patientPhone a
  /\ apt_serviceId a' = apt_serviceId a
  /\ apt_providerId a' = apt_providerId a
  /\ apt_startTime a' = apt_startTime a
  /\ apt_endTime a' = apt_endTime a
  /\ apt_customFieldValues a' = apt_customFieldValues a
  /\ apt_createdAt a' = apt_createdAt a
  /\ apt_rescheduleReason a' = apt_rescheduleReason a
  /\ apt_reminderSent a' = apt_reminderSent a
  /\ apt_reminderSentAt a' = apt_reminderSentAt a
  /\ apt_status a' = newStatus
  /\ apt_updatedAt a' = now.

(** [db'] is [db] with its first document of id [oid] replaced by [X']. *)
Definition replacesFirst (oid : ObjectId) (X X' : Appointment)
           (db db' : Store.Collection) : Prop :=
  exists l1 l2,
    db = l1 ++ X :: l2
    /\ db' = l1 ++ X' :: l2
    /\ apt_id X = IdObject oid
    /\ forall a, In a l1 -> apt_id a <> IdObject oid.

(** A user bound to a provider other than the appointment's. *)
Definition foreignProvider (user : option Admin.User) (a : Appointment) : Prop :=
  exists u, user = Some u
            /\ Admin.user_role u = Admin.provider
            /\ Admin.user_providerId u <> Some (apt_providerId a).

End AdminSpec.

(** ** More of the clinic, for the examples *)

Module Ward.
Import Time.

Definition withService (serviceId : string) (a : Appointment) : Appointment :=
  {| apt_id := apt_id a;
     apt_patientName := apt_patientName a;
     apt_patientEmail := apt_patientEmail a;
     apt_patientPhone := apt_patientPhone a;
     apt_serviceId := serviceId;
     apt_providerId := apt_providerId a;
     apt_startTime := apt_startTime a;
     apt_endTime := apt_endTime a;
     apt_customFieldValues := apt_customFieldValues a;
     apt_status := apt_status a;
     apt_createdAt := apt_createdAt a;
     apt_updatedAt := apt_updatedAt a;
     apt_rescheduleReason := apt_rescheduleReason a;
     apt_reminderSent := apt_reminderSent a;
     apt_reminderSentAt := apt_reminderSentAt a |}.

Definition withId (id : DocId) (a : Appointment) : Appointment :=
  {| apt_id := id;
     apt_patientName := apt_patientName a;
     apt_patientEmail := apt_patientEmail a;
     apt_patientPhone := apt_patientPhone a;
     apt_serviceId := apt_serviceId a;
     apt_providerId := apt_providerId a;
     apt_startTime := apt_startTime a;
     apt_endTime := apt_endTime a;
     apt_customFieldValues := apt_customFieldValues a;
     apt_status := apt_status a;
     apt_createdAt := apt_createdAt a;
     apt_updatedAt := apt_updatedAt a;
     apt_rescheduleReason := apt_rescheduleReason a;
     apt_reminderSent := apt_reminderSent a;
     apt_reminderSentAt := apt_reminderSentAt a |}.

(** A cancelled appointment, Monday 12:00-12:30. *)
Definition noonId : string := "65a4f0c2e1b2c3d4e5f6c007".
Definition cancelledNoon : Appointment :=
  Clinic.appointmentOf noonId (Clinic.clock 12 0) (Clinic.clock 12 30) cancelled.

(** A pending appointment whose service is not named by an [ObjectId]. *)
Definition walkInId : string := "65a4f0c2e1b2c3d4e5f6c006".
Definition walkIn : Appointment :=
  withService "walk-in"
    (Clinic.appointmentOf walkInId (Clinic.clock 14 0) (Clinic.clock 14 30) pending).

(** A document written with a plain string as its id. *)
Definition legacy : Appointment :=
  withId (IdString "legacy-17")
    (Clinic.appointmentOf "" (Clinic.clock 15 0) (Clinic.clock 15 30) confirmed).

(** Two users bound to providers: Dr Lee, and Dr Kim. *)
Definition drKim : string := "65a4f0c2e1b2c3d4e5f6a002".
Definition drLeeUser : Admin.User := Admin.mkUser Admin.provider (Some Clinic.drLee).
Definition drKimUser : Admin.User := Admin.mkUser Admin.provider (Some drKim).

End Ward.

(** ** What the scheduler does to a document and to its timers *)

Module SchedulerSpec2.
Import Scheduler.

(** [a'] is [a] marked as reminded at [now]; every other field is the same. *)
Definition reminded (now : Z) (a a' : Appointment) : Prop :=
  apt_id a' = apt_id a
  /\ apt_patientName a' = apt_patientName a
  /\ apt_patientEmail a' = apt_patientEmail a
  /\ apt_patientPhone a' = apt_patientPhone a
  /\ apt_serviceId a' = apt_serviceId a
  /\ apt_providerId a' = apt_providerId a
  /\ apt_startTime a' = apt_startTime a
  /\ apt_endTime a' = apt_endTime a
  /\ apt_customFieldValues a' = apt_customFieldValues a
  /\ apt_status a' = apt_status a
  /\ apt_createdAt a' = apt_createdAt a
  /\ apt_updatedAt a' = apt_updatedAt a
  /\ apt_rescheduleReason a' = apt_rescheduleReason a
  /\ apt_reminderSent a' = true
  /\ apt_reminderSentAt a' = Some now.

(** The references [sendReminder] turns into [ObjectId]s. *)
Definition sendable (a : Appointment) : Prop :=
  newObjectId (apt_serviceId a) <> None /\ newObjectId (apt_providerId a) <> None.

(** The id is an [ObjectId] that its own text names. *)
Definition properId (a : Appointment) : Prop :=
  exists oid, apt_id a = IdObject oid
              /\ newObjectId (ObjectId_toString oid) = Some oid.


(** A document as the sweep at clock [now] may leave it: itself, or itself
    marked as reminded. *)
Definition leftBySweep (now : Z) (a a' : Appointment) : Prop :=
  a' = a \/ a' = markReminderSent now a.



End SchedulerSpec2.

(** ** The email pattern, read as a pattern *)

Module EmailSpec.
Import Validation.

(** A non-empty run of characters other than white space and ["@"]:
    [[^\s@]+]. *)
Definition emailWord (s : string) : Prop :=
  s <> ""%string /\ string_forallb isEmailChar s = true.

(** [^[^\s@]+@[^\s@]+\.[^\s@]+$]: a word, ["@"], a word, ["."], a word. *)
Definition matchesEmailPattern (email : string) : Prop :=
  exists localPart host suffix,
    email = localPart +:+ "@" +:+ host +:+ "." +:+ suffix
    /\ emailWord localPart /\ emailWord host /\ emailWord suffix.

End EmailSpec.

(* ================================================================== *)
(** * Facts about the overlap test and the slot loop *)
(* ================================================================== *)

Lemma overlaps_true_iff (a b c d : Z) :
  overlaps a b c d = true <-> a < d /\ c < b.
Proof.
  unfold overlaps. rewrite andb_true_iff, Z.gtb_ltb, !Z.ltb_lt. tauto.
Qed.

Lemma overlaps_false_iff (a b c d : Z) :
  overlaps a b c d = false <-> d <= a \/ b <= c.
Proof.
  unfold overlaps. rewrite andb_false_iff, Z.gtb_ltb, !Z.ltb_ge. tauto.
Qed.

Lemma overlaps_sym (a b c d : Z) : overlaps a b c d = overlaps c d a b.
Proof.
  unfold overlaps. rewrite !Z.gtb_ltb. apply andb_comm.
Qed.

Lemma In_firstn {A : Type} (n : nat) (l : list A) (x : A) :
  In x (firstn n l) -> In x l.
Proof.
  revert l. induction n as [ | n IH ]; intros [ | y l ] Hin; cbn in Hin; try contradiction.
  destruct Hin as [ -> | Hin ]; [ left; reflexivity | right; apply IH, Hin ].
Qed.

Section SlotLoop.
Import Slots SlotSpec.

Variable booked : list Appointment.
Variable endDateTime : Z.
Variable step : Z.

Lemma candidateCount_next (cur : Z) :
  0 < step -> cur + step <= endDateTime ->
  candidateCount cur endDateTime step
  = S (candidateCount (cur + step) endDateTime step).
Proof using Type.
  intros Hs Hle. unfold candidateCount.
  replace (endDateTime - cur) with ((endDateTime - (cur + step)) + 1 * step) by lia.
  rewrite Z.div_add by lia.
  rewrite Z2Nat.inj_add; [ | apply Z.div_pos; lia | lia ].
  change (Z.to_nat 1) with 1%nat. lia.
Qed.

Lemma candidateCount_done (cur : Z) :
  0 < step -> endDateTime < cur + step ->
  candidateCount cur endDateTime step = 0%nat.
Proof using Type.
  intros Hs Hlt. unfold candidateCount.
  assert ((endDateTime - cur) / step < 1)
    by (apply Z.div_lt_upper_bound; lia).
  lia.
Qed.

Lemma candidates_next (cur : Z) :
  0 < step -> cur + step <= endDateTime ->
  candidates cur endDateTime step
  = mkTimeSlot cur (cur + step) true :: candidates (cur + step) endDateTime step.
Proof using Type.
  intros Hs Hle. unfold candidates.
  rewrite (candidateCount_next cur Hs Hle). cbn [seq List.map].
  f_equal.
  - unfold candidate. f_equal; lia.
  - rewrite <- seq_shift, List.map_map. apply List.map_ext.
    intros k. unfold candidate. f_equal; lia.
Qed.

(** With a positive step and fuel for every guard evaluation, the loop
    returns exactly the accepted candidates, in walking order. *)
Lemma slotLoop_accepted (fuel : nat) :
  0 < step ->
  forall cur,
    (candidateCount cur endDateTime step < fuel)%nat ->
    slotLoop fuel booked endDateTime step cur
    = Some (acceptedCandidates booked cur endDateTime step).
Proof using Type.
  intros Hs. induction fuel as [ | fuel IH ]; intros cur Hfuel; [ lia | ].
  cbn [slotLoop]. destruct (Z.leb_spec (cur + step) endDateTime) as [Hle | Hgt].
  - rewrite IH by (rewrite (candidateCount_next cur Hs Hle) in Hfuel; lia).
    unfold acceptedCandidates. rewrite (candidates_next cur Hs Hle).
    cbn [List.filter].
    change (nonConflicting booked (mkTimeSlot cur (cur + step) true))
      with (negb (isConflict booked cur (cur + step))).
    destruct (isConflict booked cur (cur + step)); reflexivity.
  - unfold acceptedCandidates, candidates.
    rewrite (candidateCount_done cur Hs Hgt). reflexivity.
Qed.

(** With a step that is not positive the guard, once true, stays true:
    no amount of fuel lets the loop finish. *)
Lemma slotLoop_diverges (fuel : nat) :
  step <= 0 ->
  forall cur, cur + step <= endDateTime ->
              slotLoop fuel booked endDateTime step cur = None.
Proof using Type.
  intros Hs. induction fuel as [ | fuel IH ]; intros cur Hle; [ reflexivity | ].
  cbn [slotLoop]. destruct (Z.leb_spec (cur + step) endDateTime); [ | lia ].
  rewrite IH by lia. reflexivity.
Qed.

(** Whatever the loop returns lies in the window and was not rejected. *)
Lemma slotLoop_sound (fuel : nat) :
  forall cur l,
    slotLoop fuel booked endDateTime step cur = Some l ->
    Forall (goodSlot booked endDateTime step cur) l.
Proof using Type.
  induction fuel as [ | fuel IH ]; intros cur l Hrun; [ discriminate | ].
  cbn [slotLoop] in Hrun.
  destruct (Z.leb_spec (cur + step) endDateTime) as [Hle | Hgt].
  - destruct (Z.lt_ge_cases 0 step) as [Hpos | Hneg].
    + destruct (slotLoop fuel booked endDateTime step (cur + step)) as [rest | ] eqn:Hrest;
        [ | discriminate ].
      apply IH in Hrest.
      assert (Hweak : Forall (goodSlot booked endDateTime step cur) rest).
      { eapply List.Forall_impl; [ | exact Hrest ].
        intros s (H1 & H2 & H3 & H4 & H5). unfold goodSlot. repeat split; try assumption; lia. }
      destruct (isConflict booked cur (cur + step)) eqn:Hc; inversion Hrun; subst.
      * exact Hweak.
      * constructor; [ | exact Hweak ].
        unfold goodSlot; cbn. repeat split; try assumption; lia.
    + rewrite (slotLoop_diverges fuel Hneg (cur + step)) in Hrun by lia. discriminate.
  - inversion Hrun. constructor.
Qed.

Lemma cursorAfter_closed (startDateTime : Z) (k : nat) :
  cursorAfter startDateTime step k = startDateTime + Z.of_nat k * step.
Proof using Type.
  unfold cursorAfter. induction k as [ | k IH ]; [ cbn; lia | ].
  rewrite Nat.iter_succ, IH. lia.
Qed.

End SlotLoop.


(* ================================================================== *)
(** * The availability resolver *)
(* ================================================================== *)

Section Resolver.
Import Time Store Slots SlotSpec.

Context `{E : SortEngine}.

Variable tz : Z.
Variable availabilities : list ProviderAvailability.
Variable appointments : Collection.

(** On an open, unblocked day and with a positive duration the handler
    answers 200 with the first eight of the shuffled accepted candidates. *)
Lemma getAvailableSlots_open_day (fuel : nat) (q : SlotsQuery)
      (availability : ProviderAvailability) (selectedDate durationMinutes : Z)
      (bh : BusinessHours) :
  q_providerId q <> ""%string ->
  q_date q = TimeAt selectedDate ->
  q_duration q = NumInt durationMinutes ->
  0 < durationMinutes ->
  List.find (fun av => String.eqb (av_providerId av) (q_providerId q)) availabilities
  = Some availability ->
  findBusinessHours availability (getDay tz selectedDate) = Some bh ->
  bh_isOpen bh = true ->
  isBlocked availability selectedDate = false ->
  (walkFuel (startDateTimeOf tz selectedDate bh) (endDateTimeOf tz selectedDate bh)
            (durationMinutes * msPerMinute) <= fuel)%nat ->
  getAvailableSlots fuel tz availabilities appointments q
  = Some (mkResponse 200
            (BSlots (firstn 8
               (shuffle
                  (acceptedCandidates
                     (fetched tz appointments (q_providerId q) selectedDate)
                     (startDateTimeOf tz selectedDate bh)
                     (endDateTimeOf tz selectedDate bh)
                     (durationMinutes * msPerMinute)))))).
Proof using Type.
  intros Hp Hd Hn Hpos Hav Hbh Hopen Hblocked Hfuel.
  unfold getAvailableSlots.
  apply String.eqb_neq in Hp. rewrite Hp, Hd, Hn, Hav. cbn.
  rewrite Hbh, Hopen, Hblocked. cbn.
  rewrite slotLoop_accepted; [ reflexivity | unfold msPerMinute; lia | ].
  unfold walkFuel in Hfuel. lia.
Qed.

(** What stands behind a slot of a response. *)
Lemma getAvailableSlots_slot_inv (fuel : nat) (q : SlotsQuery) (r : Response)
      (slots : list TimeSlot) (s : TimeSlot) :
  getAvailableSlots fuel tz availabilities appointments q = Some r ->
  res_body r = BSlots slots ->
  In s slots ->
  exists availability selectedDate bh durationMinutes,
    List.find (fun av => String.eqb (av_providerId av) (q_providerId q)) availabilities
    = Some availability
    /\ q_date q = TimeAt selectedDate
    /\ q_duration q = NumInt durationMinutes
    /\ findBusinessHours availability (getDay tz selectedDate) = Some bh
    /\ goodSlot (fetched tz appointments (q_providerId q) selectedDate)
                (endDateTimeOf tz selectedDate bh)
                (durationMinutes * msPerMinute)
                (startDateTimeOf tz selectedDate bh) s.
Proof using Type.
  unfold getAvailableSlots. intros Hrun Hbody Hin.
  destruct (String.eqb (q_providerId q) "" || isMissingTime (q_date q)
            || isMissingNum (q_duration q)).
  { inversion Hrun; subst r. discriminate. }
  destruct (List.find _ availabilities) as [ availability | ];
    [ | inversion Hrun; subst r; discriminate ].
  destruct (q_date q) as [ | | | selectedDate ]; cbn in Hrun;
    try (inversion Hrun; subst r; discriminate).
  destruct (findBusinessHours availability (getDay tz selectedDate)) as [ bh | ] eqn:Hbh;
    [ | inversion Hrun; subst r; cbn in Hbody; inversion Hbody; subst slots; destruct Hin ].
  destruct (bh_isOpen bh); cbn in Hrun;
    [ | inversion Hrun; subst r; cbn in Hbody; inversion Hbody; subst slots; destruct Hin ].
  destruct (isBlocked availability selectedDate);
    [ inversion Hrun; subst r; cbn in Hbody; inversion Hbody; subst slots; destruct Hin | ].
  destruct (q_duration q) as [ | | durationMinutes ]; cbn in Hrun;
    try (inversion Hrun; subst r; cbn in Hbody; inversion Hbody; subst slots;
         exfalso; apply In_firstn in Hin;
         eapply Permutation_in in Hin; [ | apply Permutation_sym, shuffle_perm ];
         destruct Hin).
  destruct (slotLoop _ _ _ _ _) as [ allSlots | ] eqn:Hloop; [ | discriminate ].
  inversion Hrun; subst r; cbn in Hbody; inversion Hbody; subst slots.
  apply In_firstn in Hin.
  eapply Permutation_in in Hin; [ | apply Permutation_sym, shuffle_perm ].
  apply slotLoop_sound in Hloop.
  rewrite List.Forall_forall in Hloop.
  exists availability, selectedDate, bh, durationMinutes.
  repeat split; try reflexivity; try assumption; apply (Hloop s Hin).
Qed.


(** With a duration of at least one minute the handler answers: some
    amount of fuel is enough, and more fuel gives the same response. *)
Lemma getAvailableSlots_returns (q : SlotsQuery) (durationMinutes : Z) :
  q_duration q = NumInt durationMinutes ->
  1 <= durationMinutes ->
  exists enough r,
    forall fuel, (enough <= fuel)%nat ->
                 getAvailableSlots fuel tz availabilities appointments q = Some r.
Proof using Type.
  intros Hn Hpos. unfold getAvailableSlots.
  destruct (String.eqb (q_providerId q) "" || isMissingTime (q_date q)
            || isMissingNum (q_duration q));
    [ exists 0%nat; eexists; reflexivity | ].
  destruct (List.find _ availabilities) as [ availability | ];
    [ | exists 0%nat; eexists; reflexivity ].
  destruct (newDate (q_date q)) as [ selectedDate | ];
    [ | exists 0%nat; eexists; reflexivity ].
  destruct (findBusinessHours availability (getDay tz selectedDate)) as [ bh | ];
    [ | exists 0%nat; eexists; reflexivity ].
  destruct (negb (bh_isOpen bh)); [ exists 0%nat; eexists; reflexivity | ].
  destruct (isBlocked availability selectedDate);
    [ exists 0%nat; eexists; reflexivity | ].
  rewrite Hn. cbn [generateSlots].
  exists (walkFuel (startDateTimeOf tz selectedDate bh) (endDateTimeOf tz selectedDate bh)
                   (durationMinutes * msPerMinute)).
  eexists. intros fuel Hfuel.
  rewrite slotLoop_accepted; [ reflexivity | unfold msPerMinute; lia | ].
  unfold walkFuel in Hfuel. lia.
Qed.

End Resolver.

(* ================================================================== *)
(** * Properties of the availability resolver *)
(* ================================================================== *)

Import Slots.

(** C5 (P2, within hours).  Every slot of a response of [getAvailableSlots]
    is a non-empty interval inside the day's open window: it starts no
    earlier than the opening time and ends no later than the closing time
    of the business hours of the requested date's weekday. *)
Theorem returned_slots_within_open_window
        (E : SortEngine) (fuel : nat) (tz : Z)
        (availabilities : list ProviderAvailability) (appointments : Store.Collection)
        (q : Slots.SlotsQuery) (r : Response) (slots : list TimeSlot) (s : TimeSlot) :
  Slots.getAvailableSlots fuel tz availabilities appointments q = Some r ->
  res_body r = BSlots slots ->
  In s slots ->
  exists dayStart dayEnd,
    SlotSpec.openWindow tz availabilities q = Some (dayStart, dayEnd)
    /\ dayStart <= slot_startTime s
    /\ slot_startTime s < slot_endTime s
    /\ slot_endTime s <= dayEnd.
Proof.
  intros Hrun Hbody Hin.
  destruct (getAvailableSlots_slot_inv tz availabilities appointments
              fuel q r slots s Hrun Hbody Hin)
    as (av & d & bh & n & Hav & Hd & _ & Hbh & Hgood).
  exists (Slots.startDateTimeOf tz d bh), (Slots.endDateTimeOf tz d bh).
  unfold SlotSpec.openWindow. rewrite Hav, Hd. cbn. rewrite Hbh.
  destruct Hgood as (H1 & H2 & H3 & _).
  repeat split; assumption.
Qed.

Lemma returned_slots_within_open_window_witness :
  exists dayStart dayEnd,
    SlotSpec.openWindow Clinic.utc [Clinic.fullDay] Clinic.halfHours
    = Some (dayStart, dayEnd)
    /\ dayStart <= slot_startTime Clinic.nineOClockSlot
    /\ slot_startTime Clinic.nineOClockSlot < slot_endTime Clinic.nineOClockSlot
    /\ slot_endTime Clinic.nineOClockSlot <= dayEnd.
Proof.
  eapply (returned_slots_within_open_window identityEngine 20 Clinic.utc
            [Clinic.fullDay] [Clinic.tenOClock] Clinic.halfHours).
  - vm_compute. reflexivity.
  - reflexivity.
  - vm_compute. left. reflexivity.
Defined.



Example scenario_fifteen_candidates :
  length (SlotSpec.acceptedCandidates
            (SlotSpec.fetched Clinic.utc [Clinic.tenOClock] Clinic.drLee Clinic.monday)
            (Clinic.clock 9 0) (Clinic.clock 17 0) (30 * Time.msPerMinute)) = 15%nat
  /\ ~ In (mkTimeSlot (Clinic.clock 10 0) (Clinic.clock 10 30) true)
          (SlotSpec.acceptedCandidates
             (SlotSpec.fetched Clinic.utc [Clinic.tenOClock] Clinic.drLee Clinic.monday)
             (Clinic.clock 9 0) (Clinic.clock 17 0) (30 * Time.msPerMinute)).
Proof.
  split; [ vm_compute; reflexivity | ].
  vm_compute. intros H. repeat (destruct H as [ H | H ]; [ discriminate H | ]). exact H.
Qed.

(** C10 (termination of the slot walk).  With [durationMinutes >= 1] the
    loop finishes: there is a result that every run with fuel for
    [walkFuel] guard evaluations returns, the cursor advancing by the
    duration at each iteration.  With [durationMinutes <= 0] over a
    non-empty open window the loop never finishes, and the cursor never
    passes the end of the window. *)
Theorem slot_walk_terminates
        (booked : list Appointment) (startDateTime endDateTime durationMinutes : Z) :
  let step := durationMinutes * Time.msPerMinute in
  (1 <= durationMinutes ->
   (exists allSlots,
       forall fuel,
         (SlotSpec.walkFuel startDateTime endDateTime step <= fuel)%nat ->
         Slots.slotLoop fuel booked endDateTime step startDateTime = Some allSlots)
   /\ (forall k, SlotSpec.cursorAfter startDateTime step (S k)
                 = SlotSpec.cursorAfter startDateTime step k + step)
   /\ (forall k, (SlotSpec.candidateCount startDateTime endDateTime step <= k)%nat ->
                 endDateTime < SlotSpec.cursorAfter startDateTime step k + step))
  /\ (durationMinutes <= 0 -> startDateTime < endDateTime ->
      (forall fuel, Slots.slotLoop fuel booked endDateTime step startDateTime = None)
      /\ (forall k, SlotSpec.cursorAfter startDateTime step k <= startDateTime
                    /\ SlotSpec.cursorAfter startDateTime step k < endDateTime)).
Proof.
  intros step. split.
  - intros Hd.
    assert (Hstep : 0 < step) by (unfold step, Time.msPerMinute; lia).
    split; [ | split ].
    + exists (SlotSpec.acceptedCandidates booked startDateTime endDateTime step).
      intros fuel Hfuel. apply slotLoop_accepted; [ exact Hstep | ].
      unfold SlotSpec.walkFuel in Hfuel. lia.
    + intros k. reflexivity.
    + intros k Hk. rewrite cursorAfter_closed.
      unfold SlotSpec.candidateCount in Hk.
      destruct (Z.le_gt_cases startDateTime endDateTime) as [Hle | Hgt].
      * assert (Hq : (endDateTime - startDateTime) / step <= Z.of_nat k).
        { rewrite <- (Z2Nat.id ((endDateTime - startDateTime) / step))
            by (apply Z.div_pos; lia).
          lia. }
        pose proof (Z.mod_pos_bound (endDateTime - startDateTime) step Hstep).
        pose proof (Z.div_mod (endDateTime - startDateTime) step ltac:(lia)).
        nia.
      * nia.
  - intros Hd Hwin.
    assert (Hstep : step <= 0) by (unfold step, Time.msPerMinute; lia).
    split.
    + intros fuel. apply slotLoop_diverges; lia.
    + intros k. rewrite cursorAfter_closed. nia.
Qed.

Lemma slot_walk_terminates_witness :
  (exists allSlots,
      forall fuel,
        (SlotSpec.walkFuel (Clinic.clock 9 0) (Clinic.clock 17 0)
                           (30 * Time.msPerMinute) <= fuel)%nat ->
        Slots.slotLoop fuel [Clinic.tenOClock] (Clinic.clock 17 0)
                       (30 * Time.msPerMinute) (Clinic.clock 9 0) = Some allSlots)
  /\ (forall fuel,
         Slots.slotLoop fuel [Clinic.tenOClock] (Clinic.clock 17 0)
                        (0 * Time.msPerMinute) (Clinic.clock 9 0) = None).
Proof.
  split.
  - apply (proj1 (slot_walk_terminates [Clinic.tenOClock] (Clinic.clock 9 0)
                    (Clinic.clock 17 0) 30)).
    lia.
  - apply (proj2 (slot_walk_terminates [Clinic.tenOClock] (Clinic.clock 9 0)
                    (Clinic.clock 17 0) 0)).
    + lia.
    + vm_compute. reflexivity.
Defined.

(* ================================================================== *)
(** * Properties of the booking handler *)
(* ================================================================== *)

Section BookingFacts.
Import Store Validation Booking BookingSpec.

Variable now : Z.

Ltac case_checks :=
  repeat match goal with
         | |- context [ if ?c then _ else _ ] => destruct c eqn:?
         end.

(** Whatever the validation throws is an [AppError] with status 400. *)
Lemma validateBooking_thrown (appointmentData : BookAppointmentRequest) (t : Thrown) :
  validateBooking now appointmentData = inl t ->
  exists e, t = ThrowApp e /\ err_statusCode e = 400.
Proof using Type.
  unfold validateBooking, bind, validateNotEmpty, validateEmail2, validatePhone2,
    validateDateRange, throw, ret, endBeforeStart, inThePast.
  case_checks; intros H; inversion H; eexists; split; reflexivity.
Qed.

(** When the fields are valid the validation is that of the date range. *)
Lemma validateBooking_fieldsValid (appointmentData : BookAppointmentRequest) :
  fieldsValid appointmentData = true ->
  validateBooking now appointmentData
  = validateDateRange now (req_startTime appointmentData) (req_endTime appointmentData).
Proof using Type.
  unfold fieldsValid. rewrite !andb_true_iff, !negb_true_iff.
  intros ((((((((H1 & H2) & H3) & H4) & H5) & H6) & H7) & H8) & H9).
  unfold validateBooking, bind, validateNotEmpty, validateEmail2, validatePhone2,
    throw, ret.
  change (@isEmptyValue string Emptiable_string) with isBlank.
  rewrite H1, H2, H3, H4, H5, H6, H7, H8, H9. reflexivity.
Qed.

(** [findOne] finds a document exactly when one satisfies the filter. *)
Lemma findOne_some_iff (p : Appointment -> bool) (db : Collection) :
  (exists a, findOne p db = Some a) <-> (exists a, In a db /\ p a = true).
Proof using Type.
  unfold findOne. split.
  - intros [a Ha]. exists a. apply List.find_some in Ha. exact Ha.
  - intros [a [Hin Hp]]. destruct (List.find p db) as [ b | ] eqn:Hf; [ eauto | ].
    pose proof (List.find_none _ _ Hf a Hin) as Hn. congruence.
Qed.




(** A request rejected by the validation gets that error, with status 400. *)
Lemma bookAppointment_rejected (fresh : ObjectId) (db : Collection)
      (appointmentData : BookAppointmentRequest) (e : AppError) :
  validateBooking now appointmentData = inl (ThrowApp e) ->
  bookAppointment now fresh db appointmentData = (sendErrorResponse e, db).
Proof using Type.
  intros Hval. unfold bookAppointment, bookAppointmentTry. rewrite Hval. reflexivity.
Qed.

End BookingFacts.

Import Booking BookingSpec.



(** C9, as amended.  A booking request whose start is earlier than the
    current time is rejected with status 400 whatever the collection holds,
    and nothing is inserted; the error is INVALID_INPUT, "Appointment cannot
    be scheduled in the past", when the required fields, the email and the
    phone number are valid and the end does not parse or lies after the
    start.  A request whose start is not before its end is rejected with
    400 and nothing is inserted; the error is INVALID_INPUT, "End time must
    be after start time", when the fields are valid. *)
Theorem past_or_inverted_booking_rejected
        (now : Z) (fresh : ObjectId) (db : Store.Collection)
        (appointmentData : BookAppointmentRequest) (start : Z) :
  req_startTime appointmentData = TimeAt start ->
  (start < now ->
   res_status (fst (bookAppointment now fresh db appointmentData)) = 400
   /\ snd (bookAppointment now fresh db appointmentData) = db
   /\ (fieldsValid appointmentData = true ->
       (forall end_, req_endTime appointmentData = TimeAt end_ -> start < end_) ->
       fst (bookAppointment now fresh db appointmentData)
       = mkResponse 400 (BAppError INVALID_INPUT
                                   "Appointment cannot be scheduled in the past")))
  /\ (forall end_,
         req_endTime appointmentData = TimeAt end_ -> start >= end_ ->
         res_status (fst (bookAppointment now fresh db appointmentData)) = 400
         /\ snd (bookAppointment now fresh db appointmentData) = db
         /\ (fieldsValid appointmentData = true ->
             fst (bookAppointment now fresh db appointmentData)
             = mkResponse 400 (BAppError INVALID_INPUT
                                         "End time must be after start time"))).
Proof.
  intros Hstart.
  assert (Hrange_past :
            start < now ->
            exists e, Validation.validateDateRange now (req_startTime appointmentData)
                                                   (req_endTime appointmentData)
                      = inl (ThrowApp e)).
  { intros Hlt. unfold Validation.validateDateRange. rewrite Hstart. cbn.
    destruct (newDate (req_endTime appointmentData)) as [ e | ]; cbn.
    - destruct (start >=? e); [ eexists; reflexivity | ].
      assert (Hb : (start <? now) = true) by (apply Z.ltb_lt; lia).
      rewrite Hb. eexists; reflexivity.
    - assert (Hb : (start <? now) = true) by (apply Z.ltb_lt; lia).
      rewrite Hb. eexists; reflexivity. }
  assert (Hrejected :
            (exists t, validateBooking now appointmentData = inl t) ->
            res_status (fst (bookAppointment now fresh db appointmentData)) = 400
            /\ snd (bookAppointment now fresh db appointmentData) = db).
  { intros [t Ht].
    destruct (validateBooking_thrown now appointmentData t Ht) as (e & -> & He).
    rewrite (bookAppointment_rejected now fresh db appointmentData e Ht).
    split; [ exact He | reflexivity ]. }
  assert (Hthrows :
            forall e, Validation.validateDateRange now (req_startTime appointmentData)
                                                   (req_endTime appointmentData)
                      = inl (ThrowApp e) ->
                      exists t, validateBooking now appointmentData = inl t).
  { intros e He. unfold validateBooking, bind.
    repeat match goal with
           | |- context [ match ?c with inl _ => _ | inr _ => _ end ] =>
               destruct c as [ ? | [] ]; [ eexists; reflexivity | ]
           end.
    rewrite He. eexists; reflexivity. }
  split.
  - intros Hlt. destruct (Hrange_past Hlt) as [e He].
    destruct (Hrejected (Hthrows e He)) as [H400 Hdb].
    split; [ exact H400 | split; [ exact Hdb | ] ].
    intros Hfields Hend.
    pose proof (validateBooking_fieldsValid now appointmentData Hfields) as Hval.
    assert (Hpast : Validation.validateDateRange now (req_startTime appointmentData)
                                                 (req_endTime appointmentData)
                    = inl (ThrowApp Validation.inThePast)).
    { unfold Validation.validateDateRange. rewrite Hstart. cbn.
      destruct (req_endTime appointmentData) as [ | | | e' ] eqn:Hend'; cbn;
        try (assert (Hb : (start <? now) = true) by (apply Z.ltb_lt; lia);
             rewrite Hb; reflexivity).
      specialize (Hend e' eq_refl).
      assert (Hge : (start >=? e') = false) by (rewrite Z.geb_leb; apply Z.leb_gt; lia).
      assert (Hb : (start <? now) = true) by (apply Z.ltb_lt; lia).
      rewrite Hge, Hb. reflexivity. }
    rewrite Hpast in Hval.
    rewrite (bookAppointment_rejected now fresh db appointmentData _ Hval). reflexivity.
  - intros end_ Hend Hge.
    assert (Hinv : Validation.validateDateRange now (req_startTime appointmentData)
                                                (req_endTime appointmentData)
                   = inl (ThrowApp Validation.endBeforeStart)).
    { unfold Validation.validateDateRange. rewrite Hstart, Hend. cbn.
      assert (Hb : (start >=? end_) = true) by (rewrite Z.geb_leb; apply Z.leb_le; lia).
      rewrite Hb. reflexivity. }
    destruct (Hrejected (Hthrows _ Hinv)) as [H400 Hdb].
    split; [ exact H400 | split; [ exact Hdb | ] ].
    intros Hfields.
    pose proof (validateBooking_fieldsValid now appointmentData Hfields) as Hval.
    rewrite Hinv in Hval.
    rewrite (bookAppointment_rejected now fresh db appointmentData _ Hval). reflexivity.
Qed.

Lemma past_or_inverted_booking_rejected_witness :
  (res_status (fst (bookAppointment Clinic.tuesday Clinic.freshId [Clinic.tenOClock]
                                    Clinic.quarterPastTen)) = 400
   /\ snd (bookAppointment Clinic.tuesday Clinic.freshId [Clinic.tenOClock]
                           Clinic.quarterPastTen) = [Clinic.tenOClock]
   /\ fst (bookAppointment Clinic.tuesday Clinic.freshId [Clinic.tenOClock]
                           Clinic.quarterPastTen)
      = mkResponse 400 (BAppError INVALID_INPUT
                                  "Appointment cannot be scheduled in the past"))
  /\ res_status (fst (bookAppointment Clinic.sundayBefore Clinic.freshId [Clinic.tenOClock]
                                      Clinic.inverted)) = 400.
Proof.
  split.
  - destruct (proj1 (past_or_inverted_booking_rejected
                       Clinic.tuesday Clinic.freshId [Clinic.tenOClock]
                       Clinic.quarterPastTen (Clinic.clock 10 15) eq_refl))
      as (H400 & Hdb & Hmsg).
    + vm_compute. reflexivity.
    + split; [ exact H400 | split; [ exact Hdb | ] ].
      apply Hmsg.
      * vm_compute. reflexivity.
      * intros end_ Hend. inversion Hend. vm_compute. reflexivity.
  - apply (proj2 (past_or_inverted_booking_rejected
                    Clinic.sundayBefore Clinic.freshId [Clinic.tenOClock]
                    Clinic.inverted (Clinic.clock 10 0) eq_refl)
                 (Clinic.clock 9 0) eq_refl).
    vm_compute. discriminate.
Defined.

(** C9 as stated fails: a start in the past does not always get the
    "in the past" error.  On Tuesday, the request for Monday 10:00 that ends
    at 09:00 is answered "End time must be after start time", and the
    request without a patient name is answered MISSING_REQUIRED_FIELD. *)
Lemma past_booking_other_errors :
  req_startTime Clinic.inverted = TimeAt (Clinic.clock 10 0)
  /\ Clinic.clock 10 0 < Clinic.tuesday
  /\ fst (bookAppointment Clinic.tuesday Clinic.freshId [] Clinic.inverted)
     = mkResponse 400 (BAppError INVALID_INPUT "End time must be after start time")
  /\ fst (bookAppointment Clinic.tuesday Clinic.freshId [] Clinic.inverted)
     <> mkResponse 400 (BAppError INVALID_INPUT
                                  "Appointment cannot be scheduled in the past")
  /\ req_startTime Clinic.nameless = TimeAt (Clinic.clock 10 15)
  /\ Clinic.clock 10 15 < Clinic.tuesday
  /\ fst (bookAppointment Clinic.tuesday Clinic.freshId [] Clinic.nameless)
     = mkResponse 400 (BAppError MISSING_REQUIRED_FIELD "Patient name is required")
  /\ fst (bookAppointment Clinic.tuesday Clinic.freshId [] Clinic.nameless)
     <> mkResponse 400 (BAppError INVALID_INPUT
                                  "Appointment cannot be scheduled in the past").
Proof.
  repeat split; try (vm_compute; reflexivity); vm_compute; discriminate.
Qed.


(* ================================================================== *)
(** * The overlap test *)
(* ================================================================== *)

(** C8 (P6).  The overlap test [A.start < B.end && A.end > B.start] is
    symmetric, and true of a non-empty interval against itself; it is the
    test of the slot generator and of the conflict queries. *)
Theorem overlaps_symmetric_reflexive :
  (forall aStart aEnd bStart bEnd,
      overlaps aStart aEnd bStart bEnd = overlaps bStart bEnd aStart aEnd)
  /\ (forall aStart aEnd, aStart < aEnd -> overlaps aStart aEnd aStart aEnd = true)
  /\ (forall booked slotStart slotEnd,
         Slots.isConflict booked slotStart slotEnd
         = existsb (fun apt => overlaps slotStart slotEnd
                                        (apt_startTime apt) (apt_endTime apt)) booked)
  /\ (forall providerId newStart newEnd existing,
         bookingConflictFilter providerId newStart newEnd existing
         = String.eqb (apt_providerId existing) providerId
           && isActive (apt_status existing)
           && overlaps (apt_startTime existing) (apt_endTime existing) newStart newEnd)
  /\ (forall oid providerId newStart newEnd existing,
         Admin.rescheduleConflictFilter oid providerId newStart newEnd existing
         = negb (Store.byObjectId oid existing)
           && String.eqb (apt_providerId existing) providerId
           && isActive (apt_status existing)
           && overlaps (apt_startTime existing) (apt_endTime existing) newStart newEnd).
Proof.
  split; [ | split; [ | split; [ | split ] ] ].
  - intros. apply overlaps_sym.
  - intros aStart aEnd Hlt. apply overlaps_true_iff. lia.
  - reflexivity.
  - reflexivity.
  - reflexivity.
Qed.

Lemma overlaps_symmetric_reflexive_witness :
  overlaps (Clinic.clock 10 0) (Clinic.clock 10 30) (Clinic.clock 10 15) (Clinic.clock 10 45)
  = overlaps (Clinic.clock 10 15) (Clinic.clock 10 45) (Clinic.clock 10 0) (Clinic.clock 10 30)
  /\ overlaps (Clinic.clock 10 0) (Clinic.clock 10 30)
              (Clinic.clock 10 0) (Clinic.clock 10 30) = true.
Proof.
  split.
  - apply (proj1 overlaps_symmetric_reflexive).
  - apply (proj1 (proj2 overlaps_symmetric_reflexive)). vm_compute. reflexivity.
Defined.

(** Touching intervals do not overlap. *)
Example overlaps_touching :
  overlaps (Clinic.clock 10 0) (Clinic.clock 10 30)
           (Clinic.clock 10 30) (Clinic.clock 11 0) = false.
Proof. vm_compute. reflexivity. Qed.

(* ================================================================== *)
(** * An appointment that starts before the requested day *)
(* ================================================================== *)

(** C1 (P1, no overlap returned) fails on the code.  The provider is open
    on Monday 09:00-12:00 and has a confirmed appointment from Sunday 22:00
    to Monday 09:30.  The handler fetches the appointments that start on
    Monday only, so whatever the shuffle does the response offers the slot
    09:00-09:30, which overlaps that appointment; [bookAppointment], whose
    query has no such restriction, refuses the very same slot as a double
    booking. *)
Theorem overnight_appointment_slot_offered (E : SortEngine) :
  exists slots,
    getAvailableSlots 20 Clinic.utc [Clinic.morning] [Clinic.overnight] Clinic.halfHours
    = Some (mkResponse 200 (BSlots slots))
    /\ In Clinic.nineOClockSlot slots
    /\ apt_providerId Clinic.overnight = q_providerId Clinic.halfHours
    /\ isActive (apt_status Clinic.overnight) = true
    /\ SlotSpec.openWindow Clinic.utc [Clinic.morning] Clinic.halfHours
       = Some (Clinic.clock 9 0, Clinic.clock 12 0)
    /\ overlaps (apt_startTime Clinic.overnight) (apt_endTime Clinic.overnight)
                (Clinic.clock 9 0) (Clinic.clock 12 0) = true
    /\ overlaps (slot_startTime Clinic.nineOClockSlot) (slot_endTime Clinic.nineOClockSlot)
                (apt_startTime Clinic.overnight) (apt_endTime Clinic.overnight) = true
    /\ fst (bookAppointment Clinic.sundayBefore Clinic.freshId [Clinic.overnight]
                            Clinic.nineOClockRequest)
       = mkResponse 409
           (BAppError DOUBLE_BOOKING
              "This time slot is no longer available. Please select another slot.").
Proof.
  eexists. split; [ | split ].
  - apply (getAvailableSlots_open_day Clinic.utc [Clinic.morning] [Clinic.overnight]
             20 Clinic.halfHours Clinic.morning Clinic.monday 30
             (mkBusinessHours 1 (mkTimeOfDay 9 0) (mkTimeOfDay 12 0) true));
      try reflexivity; try discriminate; try lia.
    vm_compute. lia.
  - rewrite firstn_all2.
    + eapply Permutation_in; [ apply shuffle_perm | ].
      vm_compute. left. reflexivity.
    + rewrite <- (Permutation_length (shuffle_perm _)). vm_compute. lia.
  - repeat split; vm_compute; reflexivity.
Qed.

(* ================================================================== *)
(** * Properties of the staff operations *)
(* ================================================================== *)

Section StoreFacts.
Import Store.

Variable p : Appointment -> bool.
Variable set : Appointment -> Appointment.

(** [updateOne] rewrites the first match and nothing else. *)
Lemma updateOne_split (c : Collection) :
  (updateOne p set c = (0, c) /\ forall x, In x c -> p x = false)
  \/ (exists l1 a l2,
         c = l1 ++ a :: l2
         /\ (forall x, In x l1 -> p x = false)
         /\ p a = true
         /\ updateOne p set c = (1, l1 ++ set a :: l2)).
Proof using Type.
  induction c as [ | b c IH ].
  - left. split; [ reflexivity | intros x [] ].
  - cbn [updateOne]. destruct (p b) eqn:Hb.
    + right. exists [], b, c. repeat split; try assumption. intros x [].
    + destruct IH as [ [Hu Hnone] | (l1 & a & l2 & Hc & Hl1 & Ha & Hu) ].
      * left. rewrite Hu. split; [ reflexivity | ].
        intros x [ <- | Hx ]; [ exact Hb | apply Hnone, Hx ].
      * right. exists (b :: l1), a, l2. rewrite Hu. subst c.
        repeat split; try assumption.
        intros x [ <- | Hx ]; [ exact Hb | apply Hl1, Hx ].
Qed.

Lemma updateOne_Forall2 (c : Collection) :
  Forall2 (fun a a' => a' = a \/ (p a = true /\ a' = set a)) c (snd (updateOne p set c)).
Proof using Type.
  induction c as [ | b c IH ]; cbn [updateOne]; [ constructor | ].
  destruct (p b) eqn:Hb; cbn.
  - constructor; [ right; split; [ exact Hb | reflexivity ] | ].
    clear IH. induction c; constructor; [ left; reflexivity | assumption ].
  - destruct (updateOne p set c) as [n c']. cbn in *.
    constructor; [ left; reflexivity | exact IH ].
Qed.


End StoreFacts.

Lemma byObjectId_true_iff (oid : ObjectId) (a : Appointment) :
  Store.byObjectId oid a = true <-> apt_id a = IdObject oid.
Proof.
  unfold Store.byObjectId, DocId_eqb, ObjectId_eqb.
  destruct (apt_id a) as [ [h] | s ]; destruct oid as [h']; cbn.
  - rewrite String.eqb_eq. split; [ intros ->; reflexivity | intros H; inversion H; reflexivity ].
  - split; discriminate.
Qed.

Import Admin.



Import RescheduleSpec.

(** C7, as amended.  A successful [rescheduleAppointment] changes, in the
    appointment with the given id, the start and end timestamps and
    [updatedAt], and the reschedule reason when one is given; every other
    field of that document, in particular its status, and every other
    document of the collection are unchanged. *)
Theorem reschedule_frame
        (now : Z) (db db' : Store.Collection) (user : option User)
        (appointmentId : string) (newStartTime newEndTime : Z)
        (reason : option string) (res : Response) :
  rescheduleAppointment now db user appointmentId newStartTime newEndTime reason
  = (res, db') ->
  res_status res = 200 ->
  exists oid,
    newObjectId appointmentId = Some oid
    /\ Forall2 (rescheduled oid now newStartTime newEndTime reason) db db'.
Proof.
  unfold rescheduleAppointment. intros Hrun H200.
  destruct (newObjectId appointmentId) as [ oid | ].
  - exists oid. split; [ reflexivity | ].
    destruct (Store.findOne (Store.byObjectId oid) db) as [ X | ];
      [ | inversion Hrun; subst res; cbn in H200; lia ].
    destruct (notOwnAppointment user X);
      [ inversion Hrun; subst res; cbn in H200; lia | ].
    destruct (Store.findOne _ db);
      [ inversion Hrun; subst res; cbn in H200; lia | ].
    pose proof (updateOne_Forall2 (Store.byObjectId oid)
                  (applyReschedule now newStartTime newEndTime reason) db) as Hall.
    destruct (Store.updateOne _ _ db) as [n c]. cbn in Hall.
    destruct (n =? 0); inversion Hrun; subst res db'; [ cbn in H200; lia | ].
    eapply Forall2_impl; [ exact Hall | ].
    intros a a' [ -> | [Hp ->] ]; [ left; reflexivity | right ].
    apply byObjectId_true_iff in Hp.
    split; [ exact Hp | ]. unfold sameOutsideSchedule. cbn. repeat split.
  - destruct (Store.findOne _ db) as [ X | ];
      [ | inversion Hrun; subst res; cbn in H200; lia ].
    destruct (notOwnAppointment user X);
      inversion Hrun; subst res; cbn in H200; lia.
Qed.

Lemma reschedule_frame_witness :
  exists oid,
    newObjectId Clinic.tenOClockId = Some oid
    /\ Forall2 (rescheduled oid Clinic.sundayBefore (Clinic.clock 11 0) (Clinic.clock 11 30)
                            (Some "patient asked"%string))
               [Clinic.tenOClock]
               (snd (rescheduleAppointment Clinic.sundayBefore [Clinic.tenOClock]
                       (Some Clinic.anAdmin) Clinic.tenOClockId
                       (Clinic.clock 11 0) (Clinic.clock 11 30)
                       (Some "patient asked"%string))).
Proof.
  apply (reschedule_frame Clinic.sundayBefore [Clinic.tenOClock] _
           (Some Clinic.anAdmin) Clinic.tenOClockId (Clinic.clock 11 0)
           (Clinic.clock 11 30) (Some "patient asked"%string)
           (mkResponse 200 (BSuccess "Appointment rescheduled successfully"))).
  - vm_compute. reflexivity.
  - reflexivity.
Defined.

(** C7 as stated fails: [updatedAt] is not among the fields the claim lets
    change, and a successful reschedule sets it to the current time. *)
Lemma reschedule_sets_updatedAt :
  exists a',
    rescheduleAppointment Clinic.sundayBefore [Clinic.tenOClock] (Some Clinic.anAdmin)
                          Clinic.tenOClockId (Clinic.clock 11 0) (Clinic.clock 11 30) None
    = (mkResponse 200 (BSuccess "Appointment rescheduled successfully"), [a'])
    /\ apt_updatedAt a' = Clinic.sundayBefore
    /\ apt_updatedAt a' <> apt_updatedAt Clinic.tenOClock
    /\ apt_status a' = apt_status Clinic.tenOClock.
Proof.
  eexists. split; [ vm_compute; reflexivity | ].
  repeat split; try (vm_compute; reflexivity). vm_compute. discriminate.
Qed.

(* ================================================================== *)
(** * Properties of the reminder scheduler *)
(* ================================================================== *)

Import Scheduler SchedulerSpec.

(** [cancelReminder] leaves no timer keyed by the appointment id. *)
Lemma cancelReminder_clears (appointmentId : string) (timers : gmap string Timeout) :
  ~ armedFor appointmentId (cancelReminder appointmentId timers).
Proof.
  intros (key & t & Hlook & Hprefix & _).
  unfold cancelReminder in Hlook.
  apply map_lookup_filter_Some in Hlook. destruct Hlook as [_ Hkeep].
  cbn in Hkeep. apply Hkeep. rewrite Hprefix. exact I.
Qed.

(** A status update does not touch the timer map. *)
Lemma serveUpdateStatus_timers (now : Z) (user : option User)
      (appointmentId status : string) (s : Server) :
  scheduledReminders (snd (serveUpdateStatus now user appointmentId status s))
  = scheduledReminders s.
Proof.
  unfold serveUpdateStatus.
  destruct (updateAppointmentStatus now (appointments s) user appointmentId status).
  reflexivity.
Qed.

(** Once [updateAppointmentStatus] has stored "cancelled", no sweep selects
    the appointment any more (document ids being unique). *)
Lemma cancelled_not_swept (now : Z) (db db' : Store.Collection) (user : option User)
      (appointmentId : string) (oid : ObjectId) (res : Response)
      (later : Z) (settings : option Settings) :
  updateAppointmentStatus now db user appointmentId "cancelled" = (res, db') ->
  res_status res = 200 ->
  newObjectId appointmentId = Some oid ->
  List.NoDup (List.map apt_id db) ->
  ~ sweptAt later settings db' oid.
Proof.
  unfold updateAppointmentStatus. cbn [parseStatus String.eqb Ascii.eqb Bool.eqb].
  intros Hrun H200 Hid Hnodup (a & Hin & Ha).
  rewrite Hid in Hrun.
  destruct (Store.findOne (Store.byObjectId oid) db) as [ X | ];
    [ | inversion Hrun; subst res; cbn in H200; lia ].
  destruct (notOwnAppointment user X);
    [ inversion Hrun; subst res; cbn in H200; lia | ].
  match type of Hrun with
  | context [ Store.updateOne ?p ?f db ] =>
      destruct (updateOne_split p f db)
        as [ [Hu _] | (l1 & b & l2 & Hdb & Hl1 & Hb & Hu) ]; rewrite Hu in Hrun
  end.
  { cbn in Hrun. inversion Hrun; subst res; cbn in H200; lia. }
  cbn in Hrun.
  assert (Hdb' : db' = l1 ++ _ :: l2)
    by (destruct (newObjectId (apt_serviceId X)); inversion Hrun; reflexivity).
  clear Hrun.
  unfold appointmentsNeedingReminders, Store.findAll in Hin.
  apply List.filter_In in Hin. destruct Hin as [Hin Hsel].
  unfold needsReminder in Hsel. rewrite !andb_true_iff in Hsel.
  destruct Hsel as ((_ & Hact) & _).
  rewrite Hdb' in Hin. apply List.in_app_or in Hin.
  apply byObjectId_true_iff in Hb.
  rewrite Hdb, List.map_app in Hnodup. cbn in Hnodup.
  destruct Hin as [ Hin | [ <- | Hin ] ].
  - apply byObjectId_true_iff in Ha. rewrite (Hl1 a Hin) in Ha. discriminate.
  - cbn in Hact. discriminate.
  - apply List.NoDup_remove_2 in Hnodup. apply Hnodup.
    apply List.in_or_app. right. rewrite Hb, <- Ha. apply List.in_map, Hin.
Qed.

(** C3 fails on the code.  The server starts on Monday with a pending
    appointment on Thursday 10:00, and arms its reminder for Wednesday
    10:00.  An administrator cancels the appointment at 01:00 through
    [updateAppointmentStatus]: the answer is 200, the stored status is
    cancelled and the sweep no longer selects the appointment, but the
    timer is still in the map, armed.  When it fires, the reminder is sent
    and logged for the cancelled appointment.  [cancelReminder], which
    would have cleared the timer, is called by no handler. *)
Theorem cancelled_appointment_keeps_timer :
  let booted :=
    scheduleExistingAppointments Clinic.monday
      (mkServer [Clinic.thursdayVisit] [] ∅) in
  let served :=
    serveUpdateStatus (Clinic.clock 1 0) (Some Clinic.anAdmin)
                      Clinic.thursdayId "cancelled" booted in
  let key := reminderKey Clinic.thursdayId Clinic.thursdayReminder in
  fst served = mkResponse 200 (BSuccess "Appointment updated")
  /\ List.map apt_status (appointments (snd served)) = [cancelled]
  /\ scheduledReminders (snd served) !! key
     = Some (mkTimeout Clinic.thursdayId both Clinic.thursdayReminder true)
  /\ armedFor Clinic.thursdayId (scheduledReminders (snd served))
  /\ appointmentsNeedingReminders (Clinic.clock (3 * 24) 0) None (appointments booted)
     = [Clinic.thursdayVisit]
  /\ appointmentsNeedingReminders (Clinic.clock (3 * 24) 0) None (appointments (snd served))
     = []
  /\ reminderLogs (fireTimer Clinic.thursdayReminder key (snd served))
     = [mkReminderLog (mkObjectId Clinic.thursdayId) both Clinic.thursdayReminder sent]
  /\ ~ armedFor Clinic.thursdayId
       (cancelReminder Clinic.thursdayId (scheduledReminders (snd served))).
Proof.
  intros booted served key.
  assert (Hkey : scheduledReminders (snd served) !! key
                 = Some (mkTimeout Clinic.thursdayId both Clinic.thursdayReminder true))
    by (vm_compute; reflexivity).
  repeat split; try (vm_compute; reflexivity).
  - exists key, (mkTimeout Clinic.thursdayId both Clinic.thursdayReminder true).
    split; [ exact Hkey | split; vm_compute; reflexivity ].
  - apply cancelReminder_clears.
Qed.

(* ================================================================== *)
(** * More on the availability resolver *)
(* ================================================================== *)

Section ResolverMore.
Import Time Store SlotSpec.

Context `{E : SortEngine}.

Variable tz : Z.
Variable availabilities : list ProviderAvailability.

(** Whatever the loop returns is the list of accepted candidates. *)
Lemma slotLoop_is_accepted (booked : list Appointment) (endDateTime step : Z)
      (fuel : nat) :
  0 < step ->
  forall cur l,
    slotLoop fuel booked endDateTime step cur = Some l ->
    l = acceptedCandidates booked cur endDateTime step.
Proof using Type.
  intros Hs. induction fuel as [ | fuel IH ]; intros cur l Hrun; [ discriminate | ].
  cbn [slotLoop] in Hrun.
  destruct (Z.leb_spec (cur + step) endDateTime) as [Hle | Hgt].
  - destruct (slotLoop fuel booked endDateTime step (cur + step)) as [ rest | ] eqn:Hrest;
      [ | discriminate ].
    apply IH in Hrest. subst rest.
    unfold acceptedCandidates. rewrite (candidates_next endDateTime step cur Hs Hle).
    cbn [List.filter].
    change (nonConflicting booked (mkTimeSlot cur (cur + step) true))
      with (negb (isConflict booked cur (cur + step))).
    destruct (isConflict booked cur (cur + step)); inversion Hrun; reflexivity.
  - inversion Hrun. unfold acceptedCandidates, candidates.
    rewrite (candidateCount_done endDateTime step cur Hs Hgt). reflexivity.
Qed.

Lemma candidate_in (startDateTime endDateTime step : Z) (s : TimeSlot) :
  In s (candidates startDateTime endDateTime step) ->
  exists k, s = candidate startDateTime step k.
Proof using Type.
  unfold candidates. intros Hin. apply List.in_map_iff in Hin.
  destruct Hin as (k & <- & _). exists k. reflexivity.
Qed.

Lemma candidates_NoDup (startDateTime endDateTime step : Z) :
  0 < step -> List.NoDup (candidates startDateTime endDateTime step).
Proof using Type.
  intros Hs. unfold candidates.
  apply List.NoDup_map_inv with (f := fun s => Z.to_nat ((slot_startTime s - startDateTime) / step)).
  rewrite List.map_map.
  erewrite List.map_ext; [ rewrite List.map_id; apply List.seq_NoDup | ].
  intros k. cbn.
  replace (startDateTime + Z.of_nat k * step - startDateTime) with (Z.of_nat k * step) by lia.
  rewrite Z.div_mul by lia. apply Nat2Z.id.
Qed.

(** The slots of a response, seen from the grid: each is the [k]-th
    candidate for some [k], and the list has no repetition. *)
Lemma getAvailableSlots_on_grid (appointments : Collection) (fuel : nat)
      (q : SlotsQuery) (r : Response) (slots : list TimeSlot) :
  getAvailableSlots fuel tz availabilities appointments q = Some r ->
  res_body r = BSlots slots ->
  slots = []
  \/ exists startDateTime step,
      0 < step
      /\ List.NoDup slots
      /\ forall s, In s slots -> exists k, s = candidate startDateTime step k.
Proof using Type.
  unfold getAvailableSlots. intros Hrun Hbody.
  destruct (String.eqb (q_providerId q) "" || isMissingTime (q_date q)
            || isMissingNum (q_duration q));
    [ inversion Hrun; subst r; discriminate | ].
  destruct (List.find _ availabilities) as [ availability | ];
    [ | inversion Hrun; subst r; discriminate ].
  destruct (newDate (q_date q)) as [ selectedDate | ];
    [ | inversion Hrun; subst r; discriminate ].
  destruct (findBusinessHours availability (getDay tz selectedDate)) as [ bh | ];
    [ | inversion Hrun; subst r; inversion Hbody; left; reflexivity ].
  destruct (negb (bh_isOpen bh));
    [ inversion Hrun; subst r; inversion Hbody; left; reflexivity | ].
  destruct (isBlocked availability selectedDate);
    [ inversion Hrun; subst r; inversion Hbody; left; reflexivity | ].
  destruct (generateSlots _ _ _ _ _) as [ allSlots | ] eqn:Hgen; [ | discriminate ].
  inversion Hrun; subst r; cbn in Hbody; inversion Hbody; subst slots. clear Hrun Hbody.
  assert (Hnil : allSlots = [] -> firstn 8 (shuffle allSlots) = []).
  { intros ->. pose proof (shuffle_perm []) as Hp.
    apply Permutation_nil in Hp. rewrite Hp. reflexivity. }
  unfold generateSlots in Hgen.
  destruct (q_duration q) as [ | | durationMinutes ];
    try (left; apply Hnil; congruence).
  destruct (Z.lt_ge_cases 0 (durationMinutes * msPerMinute)) as [Hpos | Hneg].
  - right.
    exists (startDateTimeOf tz selectedDate bh), (durationMinutes * msPerMinute).
    apply slotLoop_is_accepted in Hgen; [ | exact Hpos ]. subst allSlots.
    split; [ exact Hpos | split ].
    + assert (Hnd : List.NoDup (shuffle
                       (acceptedCandidates
                          (findAll (bookedFilter (q_providerId q)
                                                 (startOfDayOf tz selectedDate)
                                                 (endOfDayOf tz selectedDate)) appointments)
                          (startDateTimeOf tz selectedDate bh)
                          (endDateTimeOf tz selectedDate bh)
                          (durationMinutes * msPerMinute)))).
      { eapply Permutation_NoDup; [ apply shuffle_perm | ].
        apply List.NoDup_filter, candidates_NoDup, Hpos. }
      rewrite <- (firstn_skipn 8) in Hnd. apply List.NoDup_app_remove_r in Hnd. exact Hnd.
    + intros s Hin. apply In_firstn in Hin.
      eapply Permutation_in in Hin; [ | apply Permutation_sym, shuffle_perm ].
      apply List.filter_In in Hin. eapply candidate_in, Hin.
  - left. apply Hnil.
    apply slotLoop_sound in Hgen.
    destruct allSlots as [ | s rest ]; [ reflexivity | exfalso ].
    inversion Hgen as [ | ? ? (_ & Hlt & _ & Heq & _) _ ]; subst. lia.
Qed.

End ResolverMore.

(** P3 and P4 of §8: on a weekday without business hours, on a closed
    weekday, or on a blocked date, the answer is 200 with no slot, whatever
    the duration and the appointments, and without entering the loop. *)
Theorem closed_or_blocked_day_has_no_slots
        (E : SortEngine) (fuel : nat) (tz : Z)
        (availabilities : list ProviderAvailability) (appointments : Store.Collection)
        (q : SlotsQuery) (availability : ProviderAvailability) (selectedDate : Z) :
  q_providerId q <> ""%string ->
  q_date q = TimeAt selectedDate ->
  q_duration q <> NumMissing ->
  List.find (fun av => String.eqb (av_providerId av) (q_providerId q)) availabilities
  = Some availability ->
  (findBusinessHours availability (Time.getDay tz selectedDate) = None
   \/ (exists bh, findBusinessHours availability (Time.getDay tz selectedDate) = Some bh
                  /\ bh_isOpen bh = false)
   \/ isBlocked availability selectedDate = true) ->
  getAvailableSlots fuel tz availabilities appointments q
  = Some (mkResponse 200 (BSlots [])).
Proof.
  intros Hp Hd Hn Hav Hday. unfold getAvailableSlots.
  apply String.eqb_neq in Hp. rewrite Hp, Hd, Hav. cbn.
  assert (Hm : isMissingNum (q_duration q) = false)
    by (destruct (q_duration q); [ contradiction Hn | | ]; reflexivity).
  rewrite Hm.
  destruct Hday as [ Hnone | [ (bh & Hbh & Hclosed) | Hblocked ] ].
  - rewrite Hnone. reflexivity.
  - rewrite Hbh, Hclosed. reflexivity.
  - destruct (findBusinessHours availability (Time.getDay tz selectedDate)) as [ bh | ];
      [ | reflexivity ].
    destruct (bh_isOpen bh); cbn; [ | reflexivity ].
    rewrite Hblocked. reflexivity.
Qed.

(** The Sunday before: the clinic is closed; asked for steps of 0 minutes. *)
Lemma closed_or_blocked_day_has_no_slots_witness :
  getAvailableSlots 0 Clinic.utc [Clinic.fullDay] [Clinic.tenOClock]
                    (mkSlotsQuery Clinic.drLee (TimeAt Clinic.sundayBefore) (NumInt 0))
  = Some (mkResponse 200 (BSlots [])).
Proof.
  apply (closed_or_blocked_day_has_no_slots reverseEngine 0 Clinic.utc [Clinic.fullDay]
           [Clinic.tenOClock] _ Clinic.fullDay Clinic.sundayBefore).
  - discriminate.
  - reflexivity.
  - discriminate.
  - reflexivity.
  - right. left. eexists. split; vm_compute; reflexivity.
Defined.

(** The errors of [getAvailableSlots], in the order the handler meets
    them: a missing parameter is a 400 whatever the rest; an unknown
    provider is a 404 even when the date does not parse; a date that does
    not parse, for a known provider, is a 500.  Only a 200 carries slots. *)
Theorem slots_request_errors
        (E : SortEngine) (fuel : nat) (tz : Z)
        (availabilities : list ProviderAvailability) (appointments : Store.Collection)
        (q : SlotsQuery) :
  (q_providerId q = ""%string \/ q_date q = TimeMissing \/ q_duration q = NumMissing ->
   getAvailableSlots fuel tz availabilities appointments q
   = Some (mkResponse 400
             (BError "Missing required parameters: providerId, date, duration")))
  /\ (q_providerId q <> ""%string -> q_date q <> TimeMissing ->
      q_duration q <> NumMissing ->
      (List.find (fun av => String.eqb (av_providerId av) (q_providerId q)) availabilities
       = None ->
       getAvailableSlots fuel tz availabilities appointments q
       = Some (mkResponse 404 (BError "Provider availability not found")))
      /\ (List.find (fun av => String.eqb (av_providerId av) (q_providerId q))
                    availabilities <> None ->
          newDate (q_date q) = None ->
          getAvailableSlots fuel tz availabilities appointments q
          = Some (mkResponse 500 (BError "Failed to fetch available slots"))))
  /\ (forall r slots,
         getAvailableSlots fuel tz availabilities appointments q = Some r ->
         res_body r = BSlots slots -> res_status r = 200).
Proof.
  split; [ | split ].
  - intros Hmiss. unfold getAvailableSlots.
    destruct Hmiss as [ -> | [ -> | -> ] ]; cbn; rewrite ?orb_true_r; reflexivity.
  - intros Hp Hd Hn. unfold getAvailableSlots.
    apply String.eqb_neq in Hp. rewrite Hp.
    assert (Hmd : isMissingTime (q_date q) = false)
      by (destruct (q_date q); [ contradiction Hd | | | ]; reflexivity).
    assert (Hmn : isMissingNum (q_duration q) = false)
      by (destruct (q_duration q); [ contradiction Hn | | ]; reflexivity).
    rewrite Hmd, Hmn. cbn. split.
    + intros ->. reflexivity.
    + intros Hsome Hdate.
      destruct (List.find _ availabilities); [ | contradiction Hsome; reflexivity ].
      rewrite Hdate. reflexivity.
  - unfold getAvailableSlots. intros r slots Hrun Hbody.
    repeat match type of Hrun with
           | context [ if ?c then _ else _ ] => destruct c
           | context [ match ?c with Some _ => _ | None => _ end ] => destruct c
           end;
      inversion Hrun; subst r; try discriminate; reflexivity.
Qed.

Lemma slots_request_errors_witness :
  getAvailableSlots 0 Clinic.utc [] [] (mkSlotsQuery "" TimeGarbage NumNaN)
  = Some (mkResponse 400
            (BError "Missing required parameters: providerId, date, duration"))
  /\ getAvailableSlots 0 Clinic.utc [] [] (mkSlotsQuery Clinic.drLee TimeGarbage NumNaN)
     = Some (mkResponse 404 (BError "Provider availability not found"))
  /\ getAvailableSlots 0 Clinic.utc [Clinic.fullDay] []
                       (mkSlotsQuery Clinic.drLee TimeGarbage NumNaN)
     = Some (mkResponse 500 (BError "Failed to fetch available slots")).
Proof.
  split; [ | split ].
  - apply (proj1 (slots_request_errors reverseEngine 0 Clinic.utc [] []
                    (mkSlotsQuery "" TimeGarbage NumNaN))).
    left. reflexivity.
  - apply (proj2 (slots_request_errors reverseEngine 0 Clinic.utc [] []
                    (mkSlotsQuery Clinic.drLee TimeGarbage NumNaN)));
      try discriminate. reflexivity.
  - apply (proj2 (slots_request_errors reverseEngine 0 Clinic.utc [Clinic.fullDay] []
                    (mkSlotsQuery Clinic.drLee TimeGarbage NumNaN)));
      try discriminate. reflexivity.
Defined.

(** The slots of one response never overlap each other, none is listed
    twice, each lasts exactly as long as its own duration, and each is
    marked available. *)
Theorem returned_slots_pairwise_disjoint
        (E : SortEngine) (fuel : nat) (tz : Z)
        (availabilities : list ProviderAvailability) (appointments : Store.Collection)
        (q : SlotsQuery) (r : Response) (slots : list TimeSlot) :
  getAvailableSlots fuel tz availabilities appointments q = Some r ->
  res_body r = BSlots slots ->
  List.NoDup slots
  /\ (forall s, In s slots -> slot_isAvailable s = true)
  /\ (forall s1 s2,
         In s1 slots -> In s2 slots -> s1 <> s2 ->
         slot_endTime s1 - slot_startTime s1 = slot_endTime s2 - slot_startTime s2
         /\ overlaps (slot_startTime s1) (slot_endTime s1)
                     (slot_startTime s2) (slot_endTime s2) = false).
Proof.
  intros Hrun Hbody.
  destruct (getAvailableSlots_on_grid tz availabilities appointments fuel q r slots
              Hrun Hbody) as [ -> | (start & step & Hpos & Hnd & Hgrid) ].
  - split; [ constructor | split ]; intros; contradiction.
  - split; [ exact Hnd | split ].
    + intros s Hin. destruct (Hgrid s Hin) as [k ->]. reflexivity.
    + intros s1 s2 H1 H2 Hne.
      destruct (Hgrid s1 H1) as [k1 ->]. destruct (Hgrid s2 H2) as [k2 ->].
      assert (Hk : k1 <> k2) by (intros ->; apply Hne; reflexivity).
      unfold SlotSpec.candidate. cbn. split; [ lia | ].
      apply overlaps_false_iff. nia.
Qed.

Lemma returned_slots_pairwise_disjoint_witness :
  exists slots,
    getAvailableSlots 20 Clinic.utc [Clinic.fullDay] [Clinic.tenOClock] Clinic.halfHours
    = Some (mkResponse 200 (BSlots slots))
    /\ length slots = 8%nat
    /\ List.NoDup slots
    /\ (forall s, In s slots -> slot_isAvailable s = true)
    /\ (forall s1 s2,
           In s1 slots -> In s2 slots -> s1 <> s2 ->
           slot_endTime s1 - slot_startTime s1 = slot_endTime s2 - slot_startTime s2
           /\ overlaps (slot_startTime s1) (slot_endTime s1)
                       (slot_startTime s2) (slot_endTime s2) = false).
Proof.
  eexists. split; [ vm_compute; reflexivity | ].
  split; [ reflexivity | ].
  eapply (returned_slots_pairwise_disjoint reverseEngine 20 Clinic.utc [Clinic.fullDay]
            [Clinic.tenOClock] Clinic.halfHours).
  - vm_compute. reflexivity.
  - reflexivity.
Defined.

(** Step 4 of §4.1: only the provider's own confirmed and pending
    appointments count.  The answer is the same on the whole collection and
    on the collection without the cancelled, the completed and the other
    providers' appointments. *)
Theorem only_active_own_appointments_block
        (E : SortEngine) (fuel : nat) (tz : Z)
        (availabilities : list ProviderAvailability) (appointments : Store.Collection)
        (q : SlotsQuery) :
  getAvailableSlots fuel tz availabilities appointments q
  = getAvailableSlots fuel tz availabilities
      (List.filter (fun a => String.eqb (apt_providerId a) (q_providerId q)
                             && isActive (apt_status a)) appointments)
      q.
Proof.
  unfold getAvailableSlots, Store.findAll.
  assert (Hf : forall lo hi,
             List.filter (bookedFilter (q_providerId q) lo hi)
               (List.filter (fun a => String.eqb (apt_providerId a) (q_providerId q)
                                      && isActive (apt_status a)) appointments)
             = List.filter (bookedFilter (q_providerId q) lo hi) appointments).
  { intros lo hi. induction appointments as [ | a l IH ]; [ reflexivity | ].
    cbn [List.filter]. unfold bookedFilter at 2 4.
    destruct (String.eqb (apt_providerId a) (q_providerId q)) eqn:Hp; cbn;
      [ | exact IH ].
    destruct (isActive (apt_status a)) eqn:Ha; cbn.
    - unfold bookedFilter at 1. rewrite Hp, Ha, IH. reflexivity.
    - rewrite !andb_false_r. exact IH. }
  repeat match goal with
         | |- context [ if ?c then _ else _ ] => destruct c
         | |- context [ match ?c with Some _ => _ | None => _ end ] =>
             lazymatch c with
             | generateSlots _ _ _ _ _ => fail
             | _ => destruct c
             end
         end; try reflexivity.
  rewrite Hf. reflexivity.
Qed.

(** A cancelled appointment on top of the 10:00 one changes nothing. *)
Example cancelled_appointment_does_not_block :
  getAvailableSlots 20 Clinic.utc [Clinic.fullDay]
    [Clinic.tenOClock;
     Clinic.appointmentOf "65a4f0c2e1b2c3d4e5f6c005" (Clinic.clock 9 0) (Clinic.clock 17 0)
                          cancelled]
    Clinic.halfHours
  = getAvailableSlots 20 Clinic.utc [Clinic.fullDay] [Clinic.tenOClock] Clinic.halfHours.
Proof. vm_compute. reflexivity. Qed.



(* ================================================================== *)
(** * More on the booking handler *)
(* ================================================================== *)

Section BookingMore.
Import Store Validation.

Variable now : Z.
Variable fresh : ObjectId.

(** What stands behind a 201. *)
Lemma bookAppointment_created (db : Collection) (appointmentData : BookAppointmentRequest) :
  res_status (fst (bookAppointment now fresh db appointmentData)) = 201 ->
  exists startTime endTime doc,
    validateBooking now appointmentData = inr tt
    /\ req_startTime appointmentData = TimeAt startTime
    /\ req_endTime appointmentData = TimeAt endTime
    /\ findOne (bookingConflictFilter (req_providerId appointmentData) startTime endTime) db
       = None
    /\ BookingSpec2.isBookedDocument now fresh appointmentData startTime endTime doc
    /\ bookAppointment now fresh db appointmentData
       = (mkResponse 201 (BBooked (ObjectId_toString fresh)), db ++ [doc]).
Proof using Type.
  unfold bookAppointment, bookAppointmentTry.
  destruct (validateBooking now appointmentData) as [ t | [] ] eqn:Hval.
  - destruct (validateBooking_thrown now appointmentData t Hval) as (e & -> & He).
    cbn. intros H. lia.
  - cbn [bind].
    destruct (req_endTime appointmentData) as [ | | | endTime ]; cbn; try discriminate.
    destruct (req_startTime appointmentData) as [ | | | startTime ]; cbn; try discriminate.
    destruct (findOne _ db) eqn:Hfind; cbn; [ discriminate | ].
    intros _. exists startTime, endTime. eexists.
    repeat split; try reflexivity. exact Hfind.
Qed.



End BookingMore.



Section ValidationFacts.
Import Validation.

Variable now : Z.

(** The date-range check passes exactly when no comparison it makes is
    true: comparisons with a date that does not parse are false. *)
Lemma validateDateRange_ok_iff (startDate endDate : TimeField) :
  validateDateRange now startDate endDate = inr tt
  <-> (forall s e, startDate = TimeAt s -> endDate = TimeAt e -> s < e)
      /\ (forall s, startDate = TimeAt s -> now <= s).
Proof using Type.
  unfold validateDateRange, dateGe, dateLt, throw, ret.
  destruct startDate as [ | | | s ], endDate as [ | | | e ]; cbn;
    try (split; [ intros _; split; intros; discriminate | reflexivity ]).
  - destruct (Z.ltb_spec s now); cbn.
    + split; [ discriminate | intros [_ H2]; specialize (H2 s eq_refl); lia ].
    + split; [ intros _; split; [ intros; discriminate | intros ? [= <-]; lia ]
             | reflexivity ].
  - destruct (Z.ltb_spec s now); cbn.
    + split; [ discriminate | intros [_ H2]; specialize (H2 s eq_refl); lia ].
    + split; [ intros _; split; [ intros; discriminate | intros ? [= <-]; lia ]
             | reflexivity ].
  - destruct (Z.ltb_spec s now); cbn.
    + split; [ discriminate | intros [_ H2]; specialize (H2 s eq_refl); lia ].
    + split; [ intros _; split; [ intros; discriminate | intros ? [= <-]; lia ]
             | reflexivity ].
  - rewrite Z.geb_leb. destruct (Z.leb_spec e s); cbn.
    + split; [ discriminate | intros [H1 _]; specialize (H1 s e eq_refl eq_refl); lia ].
    + destruct (Z.ltb_spec s now); cbn.
      * split; [ discriminate | intros [_ H2]; specialize (H2 s eq_refl); lia ].
      * split; [ intros _; split; [ intros ? ? [= <-] [= <-]; lia | intros ? [= <-]; lia ]
               | reflexivity ].
Qed.

(** A request with an invalid field is turned down before the dates are
    looked at. *)
Lemma validateBooking_fieldsInvalid (appointmentData : BookAppointmentRequest) :
  fieldsValid appointmentData = false ->
  exists t, validateBooking now appointmentData = inl t.
Proof using Type.
  unfold fieldsValid, validateBooking, bind, validateNotEmpty, validateEmail2,
    validatePhone2, throw, ret.
  change (@isEmptyValue string Emptiable_string) with isBlank.
  intros Hf.
  repeat match goal with
         | |- context [ if negb ?c then _ else _ ] =>
             let Hc := fresh "Hc" in
             destruct c eqn:Hc; cbn [negb]; [ rewrite ?Hc in Hf | eexists; reflexivity ]
         | |- context [ if ?c then _ else _ ] =>
             let Hc := fresh "Hc" in
             destruct c eqn:Hc; [ eexists; reflexivity | rewrite ?Hc in Hf ]
         end.
  cbn in Hf. discriminate.
Qed.

End ValidationFacts.

(** The requests [validateBooking] lets through: the seven required fields
    are there, the email and the phone number are well formed, the start is
    before the end when both parse, and the start is not in the past when
    it parses.  Times that do not parse are not an obstacle. *)
Theorem validation_accepts_iff (now : Z) (appointmentData : BookAppointmentRequest) :
  passesValidation now appointmentData
  <-> fieldsValid appointmentData = true
      /\ (forall s e, req_startTime appointmentData = TimeAt s ->
                      req_endTime appointmentData = TimeAt e -> s < e)
      /\ (forall s, req_startTime appointmentData = TimeAt s -> now <= s).
Proof.
  unfold passesValidation. split.
  - intros Hval.
    destruct (fieldsValid appointmentData) eqn:Hf.
    + split; [ reflexivity | ].
      rewrite (validateBooking_fieldsValid now appointmentData Hf) in Hval.
      apply validateDateRange_ok_iff, Hval.
    + destruct (validateBooking_fieldsInvalid now appointmentData Hf) as [t Ht].
      congruence.
  - intros (Hf & Hdates).
    rewrite (validateBooking_fieldsValid now appointmentData Hf).
    apply validateDateRange_ok_iff, Hdates.
Qed.

(** A start or an end written so that [new Date] cannot parse it is not a
    validation error: [validateDateRange] never answers "Invalid date
    format", and for a request with valid fields [bookAppointment] answers
    500 and inserts nothing, unless the date range is otherwise at fault. *)
Theorem unparseable_time_is_a_server_error
        (now : Z) (fresh : ObjectId) (db : Store.Collection)
        (appointmentData : BookAppointmentRequest) :
  (forall startDate endDate,
      Validation.validateDateRange now startDate endDate
      <> inl (ThrowApp Validation.invalidDateFormat))
  /\ (passesValidation now appointmentData ->
      newDate (req_startTime appointmentData) = None
      \/ newDate (req_endTime appointmentData) = None ->
      bookAppointment now fresh db appointmentData
      = (mkResponse 500 (BFailure "Failed to book appointment"), db)).
Proof.
  split.
  - intros startDate endDate. unfold Validation.validateDateRange.
    destruct (Validation.dateGe _ _); [ discriminate | ].
    destruct (Validation.dateLt _ _); discriminate.
  - intros Hval Hbad. unfold bookAppointment, bookAppointmentTry.
    unfold passesValidation in Hval. rewrite Hval. cbn [bind].
    destruct (newDate (req_endTime appointmentData)) as [ e | ]; cbn; [ | reflexivity ].
    destruct Hbad as [ -> | Habs ]; [ reflexivity | discriminate ].
Qed.

Lemma unparseable_time_is_a_server_error_witness :
  bookAppointment Clinic.sundayBefore Clinic.freshId [Clinic.tenOClock]
                  (Clinic.requestOf "Ada Park" TimeGarbage (TimeAt (Clinic.clock 11 0)))
  = (mkResponse 500 (BFailure "Failed to book appointment"), [Clinic.tenOClock]).
Proof.
  apply (proj2 (unparseable_time_is_a_server_error Clinic.sundayBefore Clinic.freshId
                  [Clinic.tenOClock]
                  (Clinic.requestOf "Ada Park" TimeGarbage (TimeAt (Clinic.clock 11 0))))).
  - vm_compute. reflexivity.
  - left. reflexivity.
Defined.

(* ================================================================== *)
(** * The booking invariant *)
(* ================================================================== *)

Section OrderedPairs.

Context {A : Type} (R : A -> A -> Prop).


Lemma ForallOrdPairs_app_inv (l1 l2 : list A) :
  ForallOrdPairs R (l1 ++ l2) ->
  ForallOrdPairs R l1 /\ ForallOrdPairs R l2
  /\ forall a b, In a l1 -> In b l2 -> R a b.
Proof using Type.
  induction l1 as [ | x l1 IH ]; cbn; intros H.
  - split; [ constructor | split; [ exact H | intros a b [] ] ].
  - inversion H as [ | ? ? Hx Hrest ]; subst.
    destruct (IH Hrest) as (H1 & H2 & H12).
    apply List.Forall_app in Hx. destruct Hx as [Hx1 Hx2].
    split; [ constructor; assumption | split; [ exact H2 | ] ].
    intros a b [ <- | Ha ] Hb.
    + rewrite List.Forall_forall in Hx2. apply Hx2, Hb.
    + apply H12; assumption.
Qed.

Lemma ForallOrdPairs_app (l1 l2 : list A) :
  ForallOrdPairs R l1 -> ForallOrdPairs R l2 ->
  (forall a b, In a l1 -> In b l2 -> R a b) ->
  ForallOrdPairs R (l1 ++ l2).
Proof using Type.
  induction 1 as [ | x l1 Hx Hl IH ]; cbn; intros H2 H12; [ exact H2 | ].
  constructor.
  - apply List.Forall_app. split; [ exact Hx | ].
    apply List.Forall_forall. intros b Hb. apply H12; [ left; reflexivity | exact Hb ].
  - apply IH; [ exact H2 | ]. intros a b Ha Hb. apply H12; [ right; exact Ha | exact Hb ].
Qed.

End OrderedPairs.

Import Invariants.



(* ================================================================== *)
(** * The resolver and the booking handler together *)
(* ================================================================== *)





(* ================================================================== *)
(** * Reading an appointment back *)
(* ================================================================== *)

Import Patient.

Lemma find_app_some {A : Type} (p : A -> bool) (l1 l2 : list A) (a : A) :
  List.find p l1 = Some a -> List.find p (l1 ++ l2) = Some a.
Proof.
  induction l1 as [ | x l1 IH ]; cbn; [ discriminate | ].
  destruct (p x); [ trivial | exact IH ].
Qed.

Lemma find_app_none {A : Type} (p : A -> bool) (l1 l2 : list A) :
  List.find p l1 = None -> List.find p (l1 ++ l2) = List.find p l2.
Proof.
  induction l1 as [ | x l1 IH ]; cbn; [ reflexivity | ].
  destruct (p x); [ discriminate | exact IH ].
Qed.

(** Insert, then look up: after a 201, [getAppointment] with the returned
    id answers with the document just created, provided the new id is a
    well-formed one not yet in use; and every appointment that could be
    read before can still be read, unchanged. *)
Theorem booked_appointment_can_be_read
        (now : Z) (fresh : ObjectId) (db db' : Store.Collection)
        (appointmentData : BookAppointmentRequest) (appointmentId : string) :
  bookAppointment now fresh db appointmentData
  = (mkResponse 201 (BBooked appointmentId), db') ->
  newObjectId (ObjectId_toString fresh) = Some fresh ->
  ~ In (IdObject fresh) (List.map apt_id db) ->
  (exists startTime endTime doc,
      getAppointment db' appointmentId = ReplyAppointment doc
      /\ req_startTime appointmentData = TimeAt startTime
      /\ req_endTime appointmentData = TimeAt endTime
      /\ BookingSpec2.isBookedDocument now fresh appointmentData startTime endTime doc)
  /\ (forall id a, getAppointment db id = ReplyAppointment a ->
                   getAppointment db' id = ReplyAppointment a).
Proof.
  intros Hrun Hwf Hfresh.
  assert (H201 : res_status (fst (bookAppointment now fresh db appointmentData)) = 201)
    by (rewrite Hrun; reflexivity).
  destruct (bookAppointment_created now fresh db appointmentData H201)
    as (s & e & doc & _ & Hs & He & _ & Hdoc & Hbook).
  rewrite Hbook in Hrun. inversion Hrun; subst appointmentId db'. clear Hrun.
  split.
  - exists s, e, doc. split; [ | repeat split; try assumption; apply Hdoc ].
    unfold getAppointment. rewrite Hwf. unfold Store.findOne.
    rewrite find_app_none.
    + cbn. destruct Hdoc as (Hid & _).
      assert (Hb : Store.byObjectId fresh doc = true)
        by (apply byObjectId_true_iff; exact Hid).
      rewrite Hb. reflexivity.
    + destruct (List.find (Store.byObjectId fresh) db) as [ hit | ] eqn:Hf;
        [ exfalso | reflexivity ].
      apply List.find_some in Hf. destruct Hf as [Hin Hb].
      apply byObjectId_true_iff in Hb. apply Hfresh. rewrite <- Hb.
      apply List.in_map, Hin.
  - intros id a. unfold getAppointment, Store.findOne.
    destruct (newObjectId id) as [ oid | ].
    + destruct (List.find (Store.byObjectId oid) db) eqn:Hf; [ | discriminate ].
      rewrite (find_app_some _ _ _ _ Hf). trivial.
    + destruct (List.find (Store.byStringId id) db) eqn:Hf; [ | discriminate ].
      rewrite (find_app_some _ _ _ _ Hf). trivial.
Qed.

Lemma booked_appointment_can_be_read_witness :
  exists doc,
    getAppointment
      (snd (bookAppointment Clinic.sundayBefore Clinic.freshId [Clinic.tenOClock]
                            Clinic.nineOClockRequest))
      "65a4f0c2e1b2c3d4e5f6d001"
    = ReplyAppointment doc
    /\ apt_status doc = pending.
Proof.
  destruct (proj1 (booked_appointment_can_be_read Clinic.sundayBefore Clinic.freshId
                     [Clinic.tenOClock] _ Clinic.nineOClockRequest
                     "65a4f0c2e1b2c3d4e5f6d001" eq_refl eq_refl
                     ltac:(vm_compute; intros [ H | [] ]; discriminate H)))
    as (s & e & doc & Hget & _ & _ & Hdoc).
  exists doc. split; [ exact Hget | apply Hdoc ].
Defined.

(** An id that names no document is a 404, whether or not it has the form
    of an [ObjectId]. *)
Example unknown_appointment_is_404 :
  getAppointment [Clinic.tenOClock] "by-email" = ReplyError 404 "Appointment not found"
  /\ getAppointment [Clinic.tenOClock] "65a4f0c2e1b2c3d4e5f6ffff"
     = ReplyError 404 "Appointment not found".
Proof. split; vm_compute; reflexivity. Qed.

(* ================================================================== *)
(** * More on the staff operations *)
(* ================================================================== *)

Import AdminSpec.

Section AdminMore.
Import Store.

Variable now : Z.

Lemma byObjectId_false_iff (oid : ObjectId) (a : Appointment) :
  byObjectId oid a = false <-> apt_id a <> IdObject oid.
Proof using Type.
  rewrite <- byObjectId_true_iff. destruct (byObjectId oid a); split; congruence.
Qed.

Lemma findOne_first (p : Appointment -> bool) (l1 l2 : list Appointment) (a : Appointment) :
  (forall x, In x l1 -> p x = false) -> p a = true ->
  findOne p (l1 ++ a :: l2) = Some a.
Proof using Type.
  intros Hl1 Ha. unfold findOne. rewrite find_app_none.
  - cbn. rewrite Ha. reflexivity.
  - destruct (List.find p l1) as [ hit | ] eqn:Hf; [ exfalso | reflexivity ].
    apply List.find_some in Hf. destruct Hf as [Hin Hp]. rewrite (Hl1 hit Hin) in Hp.
    discriminate.
Qed.

(** [updateOne] on the filter by id, seen as a replacement. *)
Lemma updateOne_replaces (oid : ObjectId) (set : Appointment -> Appointment)
      (db : Collection) (X : Appointment) :
  findOne (byObjectId oid) db = Some X ->
  updateOne (byObjectId oid) set db
  = (1, snd (updateOne (byObjectId oid) set db))
  /\ replacesFirst oid X (set X) db (snd (updateOne (byObjectId oid) set db)).
Proof using Type.
  intros Hfind.
  destruct (updateOne_split (byObjectId oid) set db)
    as [ [_ Hnone] | (l1 & a & l2 & Hdb & Hl1 & Ha & Hu) ].
  - unfold findOne in Hfind. apply List.find_some in Hfind.
    destruct Hfind as [Hin Hp]. rewrite (Hnone X Hin) in Hp. discriminate.
  - rewrite Hu. cbn [snd]. split; [ reflexivity | ].
    assert (a = X).
    { rewrite Hdb in Hfind. rewrite (findOne_first _ l1 l2 a Hl1 Ha) in Hfind.
      congruence. }
    subst a. exists l1, l2. repeat split; try assumption.
    + apply byObjectId_true_iff, Ha.
    + intros x Hx. apply byObjectId_false_iff, Hl1, Hx.
Qed.

(** Every run of [updateAppointmentStatus]: either nothing is written and
    the answer is an error, or the first document with the id gets the new
    status and the answer is 200, or 500 when the service lookup throws. *)
Lemma updateAppointmentStatus_inv (db db' : Collection) (user : option User)
      (appointmentId status : string) (res : Response) :
  updateAppointmentStatus now db user appointmentId status = (res, db') ->
  (db' = db /\ (res_status res = 400 \/ res_status res = 403
                \/ res_status res = 404 \/ res_status res = 500))
  \/ exists oid newStatus X X',
      parseStatus status = Some newStatus
      /\ newObjectId appointmentId = Some oid
      /\ findOne (byObjectId oid) db = Some X
      /\ notOwnAppointment user X = false
      /\ withStatus now newStatus X X'
      /\ replacesFirst oid X X' db db'
      /\ ((newObjectId (apt_serviceId X) <> None
           /\ res = mkResponse 200 (BSuccess "Appointment updated"))
          \/ (newObjectId (apt_serviceId X) = None
              /\ res = mkResponse 500 (BError "Failed to update appointment"))).
Proof using Type.
  unfold updateAppointmentStatus. intros Hrun.
  destruct (parseStatus status) as [ newStatus | ];
    [ | inversion Hrun; left; cbn; auto ].
  destruct (newObjectId appointmentId) as [ oid | ];
    [ | inversion Hrun; left; cbn; auto 6 ].
  destruct (findOne (byObjectId oid) db) as [ X | ] eqn:Hfind;
    [ | inversion Hrun; left; cbn; auto 6 ].
  destruct (notOwnAppointment user X) eqn:Hown;
    [ inversion Hrun; left; cbn; auto 6 | ].
  match type of Hrun with
  | context [ updateOne ?p ?f db ] =>
      destruct (updateOne_replaces oid f db X Hfind) as [Hu Hrep];
      rewrite Hu in Hrun; cbn in Hrun;
      set (db1 := snd (updateOne p f db)) in *
  end.
  right. exists oid, newStatus, X. eexists.
  split; [ reflexivity | split; [ reflexivity | split; [ exact Hfind | ] ] ].
  split; [ exact Hown | ].
  destruct (newObjectId (apt_serviceId X)) eqn:Hsvc; inversion Hrun; subst res db'.
  - split; [ | split; [ exact Hrep | left; split; [ discriminate | reflexivity ] ] ].
    unfold withStatus. cbn. repeat split.
  - split; [ | split; [ exact Hrep | right; split; reflexivity ] ].
    unfold withStatus. cbn. repeat split.
Qed.


End AdminMore.

Lemma replacesFirst_ids (oid : ObjectId) (X X' : Appointment) (db db' : Store.Collection) :
  replacesFirst oid X X' db db' -> apt_id X' = apt_id X ->
  List.map apt_id db' = List.map apt_id db.
Proof.
  intros (l1 & l2 & -> & -> & _) Hid. rewrite !List.map_app. cbn. rewrite Hid. reflexivity.
Qed.

(** What [updateAppointmentStatus] writes.  No run creates, deletes or
    renames a document.  A 400, 403 or 404 leaves the collection as it was.
    A 200 means: the status string is one of the four, the id is an
    [ObjectId], and the first document with that id now has the requested
    status and the current time as [updatedAt], all its other fields and
    all other documents being as before. *)
Theorem status_update_effect
        (now : Z) (db db' : Store.Collection) (user : option User)
        (appointmentId status : string) (res : Response) :
  updateAppointmentStatus now db user appointmentId status = (res, db') ->
  List.map apt_id db' = List.map apt_id db
  /\ (res_status res = 400 \/ res_status res = 403 \/ res_status res = 404 -> db' = db)
  /\ (res_status res = 200 ->
      exists oid newStatus X X',
        parseStatus status = Some newStatus
        /\ newObjectId appointmentId = Some oid
        /\ withStatus now newStatus X X'
        /\ replacesFirst oid X X' db db').
Proof.
  intros Hrun.
  destruct (updateAppointmentStatus_inv now db db' user appointmentId status res Hrun)
    as [ [-> Hst] | (oid & st & X & X' & Hp & Hid & Hfind & Hown & Hw & Hrep & Hres) ].
  - split; [ reflexivity | split; [ reflexivity | ] ].
    intros H200. lia.
  - split; [ eapply replacesFirst_ids; [ exact Hrep | apply Hw ] | split ].
    + intros Hst. destruct Hres as [ [_ ->] | [_ ->] ]; cbn in Hst; lia.
    + intros _. exists oid, st, X, X'. repeat split; try assumption; apply Hw.
Qed.

Lemma status_update_effect_witness :
  List.map apt_status
           (snd (updateAppointmentStatus Clinic.sundayBefore
                   [Clinic.tenOClock; Clinic.thursdayVisit] (Some Clinic.anAdmin)
                   Clinic.thursdayId "confirmed"))
  = [confirmed; confirmed]
  /\ List.map apt_id
              (snd (updateAppointmentStatus Clinic.sundayBefore
                      [Clinic.tenOClock; Clinic.thursdayVisit] (Some Clinic.anAdmin)
                      Clinic.thursdayId "confirmed"))
     = List.map apt_id [Clinic.tenOClock; Clinic.thursdayVisit].
Proof.
  split; [ vm_compute; reflexivity | ].
  apply (proj1 (status_update_effect Clinic.sundayBefore
                  [Clinic.tenOClock; Clinic.thursdayVisit] _ (Some Clinic.anAdmin)
                  Clinic.thursdayId "confirmed" _ (surjective_pairing _))).
Defined.

Lemma replacesFirst_findOne (oid : ObjectId) (X X' : Appointment)
      (db db' : Store.Collection) :
  replacesFirst oid X X' db db' -> apt_id X' = apt_id X ->
  Store.findOne (Store.byObjectId oid) db' = Some X'.
Proof.
  intros (l1 & l2 & _ & -> & HX & Hl1) Hid.
  apply findOne_first.
  - intros x Hx. apply byObjectId_false_iff, Hl1, Hx.
  - apply byObjectId_true_iff. congruence.
Qed.

(** The run of [updateAppointmentStatus] on an appointment that is found
    and that the user may touch. *)
Lemma updateAppointmentStatus_found
      (now : Z) (db : Store.Collection) (user : option User)
      (appointmentId status : string) (oid : ObjectId) (newStatus : Status)
      (X : Appointment) :
  parseStatus status = Some newStatus ->
  newObjectId appointmentId = Some oid ->
  Store.findOne (Store.byObjectId oid) db = Some X ->
  notOwnAppointment user X = false ->
  exists X',
    withStatus now newStatus X X'
    /\ replacesFirst oid X X' db
                     (snd (updateAppointmentStatus now db user appointmentId status))
    /\ fst (updateAppointmentStatus now db user appointmentId status)
       = match newObjectId (apt_serviceId X) with
         | Some _ => mkResponse 200 (BSuccess "Appointment updated")
         | None => mkResponse 500 (BError "Failed to update appointment")
         end.
Proof.
  intros Hp Hid Hfind Hown. unfold updateAppointmentStatus.
  rewrite Hp, Hid, Hfind, Hown.
  match goal with
  | |- context [ Store.updateOne ?p ?f db ] =>
      destruct (updateOne_replaces oid f db X Hfind) as [Hu Hrep]; rewrite Hu
  end.
  cbn. eexists. split; [ | split ];
    [ | destruct (newObjectId (apt_serviceId X)); exact Hrep
      | destruct (newObjectId (apt_serviceId X)); reflexivity ].
  unfold withStatus. cbn. repeat split.
Qed.

(** No status transition is refused: when the id names an appointment the
    user may touch, any of the four statuses is stored whatever the current
    one is.  The answer is 200 when the appointment's [serviceId] is an
    [ObjectId]; otherwise the service lookup throws after the write and the
    answer is 500, the new status being stored all the same. *)
Theorem status_update_is_unrestricted
        (now : Z) (db : Store.Collection) (user : option User)
        (appointmentId status : string) (oid : ObjectId) (newStatus : Status)
        (X : Appointment) :
  parseStatus status = Some newStatus ->
  newObjectId appointmentId = Some oid ->
  Store.findOne (Store.byObjectId oid) db = Some X ->
  notOwnAppointment user X = false ->
  exists X',
    Store.findOne (Store.byObjectId oid)
                  (snd (updateAppointmentStatus now db user appointmentId status))
    = Some X'
    /\ withStatus now newStatus X X'
    /\ fst (updateAppointmentStatus now db user appointmentId status)
       = match newObjectId (apt_serviceId X) with
         | Some _ => mkResponse 200 (BSuccess "Appointment updated")
         | None => mkResponse 500 (BError "Failed to update appointment")
         end.
Proof.
  intros Hp Hid Hfind Hown.
  destruct (updateAppointmentStatus_found now db user appointmentId status oid
              newStatus X Hp Hid Hfind Hown) as (X' & Hw & Hrep & Hres).
  exists X'. split; [ | split; assumption ].
  eapply replacesFirst_findOne; [ exact Hrep | apply Hw ].
Qed.

(** A cancelled appointment set back to pending (200), and a pending one
    with the service "walk-in" confirmed (500, and stored). *)
Lemma status_update_is_unrestricted_witness :
  (exists X',
      Store.findOne (Store.byObjectId (mkObjectId Ward.noonId))
        (snd (updateAppointmentStatus Clinic.sundayBefore [Ward.cancelledNoon]
                (Some Clinic.anAdmin) Ward.noonId "pending"))
      = Some X'
      /\ apt_status X' = pending
      /\ fst (updateAppointmentStatus Clinic.sundayBefore [Ward.cancelledNoon]
                (Some Clinic.anAdmin) Ward.noonId "pending")
         = mkResponse 200 (BSuccess "Appointment updated"))
  /\ (exists X',
         Store.findOne (Store.byObjectId (mkObjectId Ward.walkInId))
           (snd (updateAppointmentStatus Clinic.sundayBefore [Ward.walkIn]
                   (Some Clinic.anAdmin) Ward.walkInId "confirmed"))
         = Some X'
         /\ apt_status X' = confirmed
         /\ fst (updateAppointmentStatus Clinic.sundayBefore [Ward.walkIn]
                   (Some Clinic.anAdmin) Ward.walkInId "confirmed")
            = mkResponse 500 (BError "Failed to update appointment")).
Proof.
  split.
  - destruct (status_update_is_unrestricted Clinic.sundayBefore [Ward.cancelledNoon]
                (Some Clinic.anAdmin) Ward.noonId "pending" (mkObjectId Ward.noonId)
                pending Ward.cancelledNoon eq_refl eq_refl eq_refl eq_refl)
      as (X' & Hfind & Hw & Hres).
    exists X'. split; [ exact Hfind | split; [ apply Hw | exact Hres ] ].
  - destruct (status_update_is_unrestricted Clinic.sundayBefore [Ward.walkIn]
                (Some Clinic.anAdmin) Ward.walkInId "confirmed" (mkObjectId Ward.walkInId)
                confirmed Ward.walkIn eq_refl eq_refl eq_refl eq_refl)
      as (X' & Hfind & Hw & Hres).
    exists X'. split; [ exact Hfind | split; [ apply Hw | exact Hres ] ].
Defined.

(** A user bound to a provider cannot change another provider's
    appointment: both staff operations answer 403 and write nothing. *)
Theorem provider_cannot_touch_foreign_appointment
        (now : Z) (db : Store.Collection) (user : option User)
        (appointmentId : string) (oid : ObjectId) (X : Appointment) :
  newObjectId appointmentId = Some oid ->
  Store.findOne (Store.byObjectId oid) db = Some X ->
  foreignProvider user X ->
  (forall status newStatus,
      parseStatus status = Some newStatus ->
      updateAppointmentStatus now db user appointmentId status
      = (mkResponse 403 (BError "You can only modify your own appointments"), db))
  /\ (forall newStartTime newEndTime reason,
         rescheduleAppointment now db user appointmentId newStartTime newEndTime reason
         = (mkResponse 403 (BError "You can only reschedule your own appointments"), db)).
Proof.
  intros Hid Hfind (u & -> & Hrole & Hprov).
  assert (Hown : notOwnAppointment (Some u) X = true).
  { unfold notOwnAppointment. rewrite Hrole.
    destruct (user_providerId u) as [ p | ]; [ | reflexivity ].
    apply negb_true_iff, String.eqb_neq. congruence. }
  split.
  - intros status newStatus Hp. unfold updateAppointmentStatus.
    rewrite Hp, Hid, Hfind, Hown. reflexivity.
  - intros newStartTime newEndTime reason. unfold rescheduleAppointment.
    rewrite Hid, Hfind, Hown. reflexivity.
Qed.

Lemma provider_cannot_touch_foreign_appointment_witness :
  updateAppointmentStatus Clinic.sundayBefore [Clinic.tenOClock] (Some Ward.drKimUser)
                          Clinic.tenOClockId "cancelled"
  = (mkResponse 403 (BError "You can only modify your own appointments"),
     [Clinic.tenOClock])
  /\ rescheduleAppointment Clinic.sundayBefore [Clinic.tenOClock] (Some Ward.drKimUser)
                           Clinic.tenOClockId (Clinic.clock 11 0) (Clinic.clock 11 30) None
     = (mkResponse 403 (BError "You can only reschedule your own appointments"),
        [Clinic.tenOClock]).
Proof.
  destruct (provider_cannot_touch_foreign_appointment Clinic.sundayBefore
              [Clinic.tenOClock] (Some Ward.drKimUser) Clinic.tenOClockId
              (mkObjectId Clinic.tenOClockId) Clinic.tenOClock eq_refl eq_refl)
    as [Hstatus Hmove].
  - exists Ward.drKimUser. split; [ reflexivity | split; [ reflexivity | ] ].
    vm_compute. discriminate.
  - split; [ apply (Hstatus "cancelled" cancelled eq_refl) | apply Hmove ].
Defined.

(** The fallback lookup of [rescheduleAppointment] leads nowhere: with an
    id that is not an [ObjectId] the answer is 404 when no document has the
    string as its id, 403 or 500 when one has, and nothing is written. *)
Theorem reschedule_by_string_id_fails
        (now : Z) (db : Store.Collection) (user : option User)
        (appointmentId : string) (newStartTime newEndTime : Z) (reason : option string) :
  newObjectId appointmentId = None ->
  snd (rescheduleAppointment now db user appointmentId newStartTime newEndTime reason) = db
  /\ fst (rescheduleAppointment now db user appointmentId newStartTime newEndTime reason)
     = match Store.findOne (Store.byStringId appointmentId) db with
       | None => mkResponse 404 (BError "Appointment not found")
       | Some X =>
           if notOwnAppointment user X
           then mkResponse 403 (BError "You can only reschedule your own appointments")
           else mkResponse 500 (BError "Failed to reschedule appointment")
       end.
Proof.
  intros Hid. unfold rescheduleAppointment. rewrite Hid.
  destruct (Store.findOne (Store.byStringId appointmentId) db) as [ X | ];
    [ | split; reflexivity ].
  destruct (notOwnAppointment user X); split; reflexivity.
Qed.

Lemma reschedule_by_string_id_fails_witness :
  snd (rescheduleAppointment Clinic.sundayBefore [Ward.legacy] (Some Clinic.anAdmin)
                             "legacy-17" (Clinic.clock 16 0) (Clinic.clock 16 30) None)
  = [Ward.legacy]
  /\ fst (rescheduleAppointment Clinic.sundayBefore [Ward.legacy] (Some Clinic.anAdmin)
                                "legacy-17" (Clinic.clock 16 0) (Clinic.clock 16 30) None)
     = mkResponse 500 (BError "Failed to reschedule appointment").
Proof.
  apply (reschedule_by_string_id_fails Clinic.sundayBefore [Ward.legacy]
           (Some Clinic.anAdmin) "legacy-17" (Clinic.clock 16 0) (Clinic.clock 16 30) None).
  reflexivity.
Defined.

(** The same document can be read through [getAppointment]. *)
Example legacy_document_can_be_read :
  getAppointment [Ward.legacy] "legacy-17" = ReplyAppointment Ward.legacy.
Proof. reflexivity. Qed.



Lemma clash_sym (a b : Appointment) : clash a b -> clash b a.
Proof.
  intros (Hp & Ha & Hb & Hov). repeat split; try assumption; try congruence.
  rewrite overlaps_sym. exact Hov.
Qed.


Lemma replacesFirst_harmless (oid : ObjectId) (X X' : Appointment)
      (db db' : Store.Collection) :
  replacesFirst oid X X' db db' ->
  noDoubleBooking db ->
  (forall other, ~ clash other X') ->
  noDoubleBooking db'.
Proof.
  intros (l1 & l2 & -> & -> & _ & _) Hinv Hclear.
  unfold noDoubleBooking in *.
  apply ForallOrdPairs_app_inv in Hinv. destruct Hinv as (H1 & H2 & H12).
  inversion H2 as [ | ? ? _ Hl2 ]; subst.
  apply ForallOrdPairs_app; [ exact H1 | | ].
  - constructor; [ | exact Hl2 ].
    apply List.Forall_forall. intros b _ Hc. apply (Hclear b), clash_sym, Hc.
  - intros a b Ha [ <- | Hb ]; [ apply Hclear | ].
    apply H12; [ exact Ha | right; exact Hb ].
Qed.



(** Cancelling or completing an appointment keeps the invariant of §3.
    (Setting a status back to pending or confirmed is not checked against
    the other appointments.) *)
Theorem deactivation_keeps_no_double_booking
        (now : Z) (db : Store.Collection) (user : option User)
        (appointmentId status : string) :
  status = "cancelled"%string \/ status = "completed"%string ->
  noDoubleBooking db ->
  noDoubleBooking (snd (updateAppointmentStatus now db user appointmentId status)).
Proof.
  intros Hstatus Hinv.
  destruct (updateAppointmentStatus_inv now db _ user appointmentId status _
              (surjective_pairing _))
    as [ [-> _] | (oid & st & X & X' & Hp & Hid & Hfind & Hown & Hw & Hrep & Hres) ];
    [ exact Hinv | ].
  eapply replacesFirst_harmless; try eassumption.
  intros other (_ & _ & Hact & _).
  destruct Hw as (_ & _ & _ & _ & _ & _ & _ & _ & _ & _ & _ & _ & _ & Hst & _).
  rewrite Hst in Hact.
  destruct Hstatus as [ -> | -> ]; vm_compute in Hp; inversion Hp as [Hst'];
    rewrite <- Hst' in Hact; discriminate Hact.
Qed.

Lemma deactivation_keeps_no_double_booking_witness :
  noDoubleBooking
    (snd (updateAppointmentStatus Clinic.sundayBefore [Clinic.tenOClock]
            (Some Clinic.anAdmin) Clinic.tenOClockId "cancelled")).
Proof.
  apply (deactivation_keeps_no_double_booking Clinic.sundayBefore [Clinic.tenOClock]
           (Some Clinic.anAdmin) Clinic.tenOClockId "cancelled").
  - left. reflexivity.
  - constructor; constructor.
Defined.

(** Setting a cancelled appointment back to pending over a confirmed one:
    the answer is 200 and two active appointments of Dr Lee overlap. *)
Example reactivation_can_double_book :
  let db := [Clinic.tenOClock;
             Clinic.appointmentOf Ward.noonId (Clinic.clock 10 0) (Clinic.clock 10 30)
                                  cancelled] in
  noDoubleBooking db
  /\ fst (updateAppointmentStatus Clinic.sundayBefore db (Some Clinic.anAdmin)
                                  Ward.noonId "pending")
     = mkResponse 200 (BSuccess "Appointment updated")
  /\ ~ noDoubleBooking
       (snd (updateAppointmentStatus Clinic.sundayBefore db (Some Clinic.anAdmin)
                                     Ward.noonId "pending")).
Proof.
  cbv zeta. split; [ | split ].
  - constructor; [ | constructor; constructor ].
    constructor; [ | constructor ].
    intros (_ & _ & Hact & _). vm_compute in Hact. discriminate.
  - vm_compute. reflexivity.
  - intros Hinv. inversion Hinv as [ | ? ? Hfirst _ ]; subst.
    inversion Hfirst as [ | ? ? Hclash _ ]; subst.
    apply Hclash. repeat split; vm_compute; reflexivity.
Qed.

(* ================================================================== *)
(** * More on the reminder scheduler *)
(* ================================================================== *)

Lemma prefix_append (s r : string) : String.prefix s (s +:+ r) = true.
Proof.
  induction s as [ | c s IH ]; simpl; [ destruct r; reflexivity | ].
  destruct (ascii_dec c c) as [ _ | Hne ]; [ exact IH | contradiction Hne; reflexivity ].
Qed.

Lemma prefix_same_length (a b r : string) :
  String.prefix a (b +:+ r) = true -> String.length a = String.length b -> a = b.
Proof.
  revert b. induction a as [ | c a IH ]; intros [ | d b ] Hp Hlen; simpl in *;
    try reflexivity; try discriminate.
  destruct (ascii_dec c d) as [ -> | ]; [ | discriminate ].
  f_equal. apply IH; [ exact Hp | lia ].
Qed.

Lemma reminderKey_prefix (appointmentId : string) (sendTime : Z) :
  String.prefix appointmentId (reminderKey appointmentId sendTime) = true.
Proof. apply prefix_append. Qed.

(** [cancelReminder] removes every timer whose key starts with the id,
    armed or not, and nothing else: the timers of another id of the same
    length, as all [ObjectId]s are, stay as they were. *)
Theorem cancelReminder_removes_own_timers
        (appointmentId : string) (timers : gmap string Timeout) :
  (forall key,
      cancelReminder appointmentId timers !! key
      = if String.prefix appointmentId key then None else timers !! key)
  /\ (forall sendTime,
         cancelReminder appointmentId timers !! reminderKey appointmentId sendTime = None)
  /\ (forall other sendTime,
         String.length other = String.length appointmentId ->
         other <> appointmentId ->
         cancelReminder appointmentId timers !! reminderKey other sendTime
         = timers !! reminderKey other sendTime).
Proof.
  assert (Hlook : forall key,
             cancelReminder appointmentId timers !! key
             = if String.prefix appointmentId key then None else timers !! key).
  { intros key. unfold cancelReminder.
    destruct (String.prefix appointmentId key) eqn:Hp.
    - apply map_lookup_filter_None. right. intros t _ Hkeep.
      cbn in Hkeep. rewrite Hp in Hkeep. apply Hkeep. exact I.
    - destruct (timers !! key) as [ t | ] eqn:Hk.
      + apply map_lookup_filter_Some. split; [ exact Hk | ].
        cbn. rewrite Hp. intros [].
      + apply map_lookup_filter_None. left. exact Hk. }
  split; [ exact Hlook | split ].
  - intros sendTime. rewrite Hlook, reminderKey_prefix. reflexivity.
  - intros other sendTime Hlen Hne. rewrite Hlook.
    destruct (String.prefix appointmentId (reminderKey other sendTime)) eqn:Hp;
      [ exfalso | reflexivity ].
    apply Hne. symmetry. eapply prefix_same_length; [ exact Hp | congruence ].
Qed.

(** The id of one appointment may be the beginning of another's when ids
    are plain strings: cancelling "legacy-1" drops the timer of
    "legacy-17". *)
Example cancelReminder_prefix_clash :
  cancelReminder "legacy-1"
    (scheduleReminder Clinic.monday "legacy-17" Clinic.thursdayReminder both ∅)
  = ∅.
Proof. vm_compute. reflexivity. Qed.



Import SchedulerSpec2.

(** Every run of [sendReminder]: nothing happens when the id is not an
    [ObjectId] or names no document; a failure is logged, and nothing
    written, when the service or provider reference is not an [ObjectId];
    otherwise the first document with the id is marked and "sent" is
    logged. *)
Lemma sendReminder_inv (now : Z) (appointmentId : string) (type : ReminderType)
      (db db' : Store.Collection) (logs logs' : list ReminderLog) :
  sendReminder now appointmentId type db logs = (db', logs') ->
  (db' = db /\ logs' = logs
   /\ (newObjectId appointmentId = None
       \/ exists oid, newObjectId appointmentId = Some oid
                      /\ Store.findOne (Store.byObjectId oid) db = None))
  \/ (exists oid X,
         newObjectId appointmentId = Some oid
         /\ Store.findOne (Store.byObjectId oid) db = Some X
         /\ ~ sendable X
         /\ db' = db
         /\ logs' = logs ++ [mkReminderLog oid type now failed])
  \/ (exists oid X,
         newObjectId appointmentId = Some oid
         /\ Store.findOne (Store.byObjectId oid) db = Some X
         /\ sendable X
         /\ replacesFirst oid X (markReminderSent now X) db db'
         /\ logs' = logs ++ [mkReminderLog oid type now sent]).
Proof.
  unfold sendReminder. intros Hrun.
  destruct (newObjectId appointmentId) as [ oid | ];
    [ | inversion Hrun; subst; left;
        split; [ reflexivity | split; [ reflexivity | left; reflexivity ] ] ].
  destruct (Store.findOne (Store.byObjectId oid) db) as [ X | ] eqn:Hfind;
    [ | inversion Hrun; subst; left;
        split; [ reflexivity | split; [ reflexivity | right; exists oid; split;
                                                      [ reflexivity | exact Hfind ] ] ] ].
  right.
  destruct (newObjectId (apt_serviceId X)) eqn:Hs;
    [ destruct (newObjectId (apt_providerId X)) eqn:Hp | ].
  - right. exists oid, X.
    destruct (updateOne_replaces oid (markReminderSent now) db X Hfind) as [Hu Hrep].
    rewrite Hu in Hrun. inversion Hrun; subst db' logs'.
    split; [ reflexivity | split; [ exact Hfind | split; [ | split ] ] ];
      [ split; congruence | exact Hrep | reflexivity ].
  - left. exists oid, X. inversion Hrun; subst db' logs'.
    split; [ reflexivity | split; [ exact Hfind | split; [ | split; reflexivity ] ] ].
    intros [_ H]. contradiction H.
  - left. exists oid, X. inversion Hrun; subst db' logs'.
    split; [ reflexivity | split; [ exact Hfind | split; [ | split; reflexivity ] ] ].
    intros [H _]. contradiction H.
Qed.

Lemma markReminderSent_reminded (now : Z) (a : Appointment) :
  reminded now a (markReminderSent now a).
Proof. unfold reminded. cbn. repeat split. Qed.

Lemma Forall2_same {A : Type} (R : A -> A -> Prop) (l : list A) :
  (forall a, R a a) -> Forall2 R l l.
Proof. intros Hrefl. induction l; constructor; auto. Qed.

Lemma replacesFirst_Forall2 (R : Appointment -> Appointment -> Prop)
      (oid : ObjectId) (X X' : Appointment) (db db' : Store.Collection) :
  replacesFirst oid X X' db db' ->
  (forall a, R a a) -> R X X' ->
  Forall2 R db db'.
Proof.
  intros (l1 & l2 & -> & -> & _ & _) Hrefl HX.
  apply Forall2_app; [ | constructor; [ exact HX | ] ].
  - induction l1; constructor; auto.
  - induction l2; constructor; auto.
Qed.

(** [sendReminder] writes two fields of one document and at most one log
    entry: every document keeps its id, its status, its times and the rest;
    the document it marks gets [reminderSent] and [reminderSentAt]; "sent"
    is logged exactly when a document is marked, and a failure is logged
    without anything being marked. *)
Theorem sendReminder_effect
        (now : Z) (appointmentId : string) (type : ReminderType)
        (db db' : Store.Collection) (logs logs' : list ReminderLog) :
  sendReminder now appointmentId type db logs = (db', logs') ->
  Forall2 (fun a a' => a' = a \/ reminded now a a') db db'
  /\ (logs' = logs
      \/ exists entry, logs' = logs ++ [entry]
                       /\ log_sentAt entry = now /\ log_type entry = type
                       /\ newObjectId appointmentId = Some (log_appointmentId entry)
                       /\ (log_status entry = failed -> db' = db)
                       /\ (log_status entry = sent ->
                           exists X,
                             Store.findOne (Store.byObjectId (log_appointmentId entry)) db
                             = Some X
                             /\ Store.findOne (Store.byObjectId (log_appointmentId entry))
                                              db'
                                = Some (markReminderSent now X)))
  /\ (logs' = logs -> db' = db).
Proof.
  intros Hrun.
  destruct (sendReminder_inv now appointmentId type db db' logs logs' Hrun)
    as [ (-> & -> & _)
       | [ (oid & X & Hid & Hfind & Hbad & -> & ->)
         | (oid & X & Hid & Hfind & Hok & Hrep & ->) ] ].
  - split; [ | split; [ left; reflexivity | intros _; reflexivity ] ].
    apply Forall2_same. intros a. left. reflexivity.
  - split; [ apply Forall2_same; intros a; left; reflexivity | split ].
    + right. eexists. split; [ reflexivity | ]. cbn.
      repeat split; try assumption; try reflexivity. discriminate.
    + intros _. reflexivity.
  - split; [ | split ].
    + eapply replacesFirst_Forall2; [ exact Hrep | auto | ].
      right. apply markReminderSent_reminded.
    + right. eexists. split; [ reflexivity | ]. cbn.
      repeat split; try assumption; try reflexivity; [ discriminate | ].
      intros _. exists X. split; [ exact Hfind | ].
      eapply replacesFirst_findOne; [ exact Hrep | reflexivity ].
    + intros Habs. exfalso.
      apply (f_equal (@length ReminderLog)) in Habs.
      rewrite List.length_app in Habs. cbn in Habs. lia.
Qed.

Lemma sendReminder_effect_witness :
  Forall2 (fun a a' => a' = a \/ reminded Clinic.thursdayReminder a a')
          [Clinic.tenOClock; Clinic.thursdayVisit]
          (fst (sendReminder Clinic.thursdayReminder Clinic.thursdayId both
                             [Clinic.tenOClock; Clinic.thursdayVisit] []))
  /\ List.map apt_reminderSent
              (fst (sendReminder Clinic.thursdayReminder Clinic.thursdayId both
                                 [Clinic.tenOClock; Clinic.thursdayVisit] []))
     = [false; true].
Proof.
  split; [ | vm_compute; reflexivity ].
  apply (proj1 (sendReminder_effect Clinic.thursdayReminder Clinic.thursdayId both
                  [Clinic.tenOClock; Clinic.thursdayVisit] _ [] _
                  (surjective_pairing _))).
Defined.

Section TimerFacts.

Variable now : Z.








End TimerFacts.

Lemma needsReminder_true_iff (from to : Z) (a : Appointment) :
  needsReminder from to a = true
  <-> from <= apt_startTime a <= to
      /\ isActive (apt_status a) = true
      /\ apt_reminderSent a = false.
Proof.
  unfold needsReminder. rewrite !andb_true_iff, !Z.leb_le, negb_true_iff. tauto.
Qed.


Import Ward.

(** Started on Monday with Thursday's pending visit, Monday's confirmed
    10:00 and a cancelled appointment: one timer, for Thursday's visit. *)
Example startup_arms_thursday_only :
  map_to_list
    (scheduledReminders
       (scheduleExistingAppointments Clinic.monday
          (mkServer [Clinic.tenOClock; Clinic.thursdayVisit; cancelledNoon] [] ∅)))
  = [(reminderKey Clinic.thursdayId Clinic.thursdayReminder,
      mkTimeout Clinic.thursdayId both Clinic.thursdayReminder true)].
Proof. vm_compute. reflexivity. Qed.



Section SweepFacts.
Import Store.

Variable now : Z.
Variable type : ReminderType.

Lemma swept_id (a a' : Appointment) : (leftBySweep now) a a' -> apt_id a' = apt_id a.
Proof using Type. intros [ -> | -> ]; reflexivity. Qed.

Lemma swept_trans (a b c : Appointment) : (leftBySweep now) a b -> (leftBySweep now) b c -> (leftBySweep now) a c.
Proof using Type.
  intros [ -> | -> ] [ -> | -> ]; [ left | right | right | right ]; reflexivity.
Qed.

Lemma Forall2_swept_trans (l1 l2 l3 : list Appointment) :
  Forall2 (leftBySweep now) l1 l2 -> Forall2 (leftBySweep now) l2 l3 -> Forall2 (leftBySweep now) l1 l3.
Proof using Type.
  intros H12. revert l3. induction H12 as [ | a b l1 l2 Hab _ IH ]; intros l3 H23.
  - inversion H23. constructor.
  - inversion H23 as [ | ? c ? l3' Hbc Hrest ]; subst.
    constructor; [ eapply swept_trans; eassumption | apply IH, Hrest ].
Qed.

Lemma Forall2_swept_ids (l1 l2 : list Appointment) :
  Forall2 (leftBySweep now) l1 l2 -> List.map apt_id l2 = List.map apt_id l1.
Proof using Type.
  induction 1 as [ | a b l1 l2 Hab _ IH ]; [ reflexivity | ].
  cbn. rewrite IH, (swept_id a b Hab). reflexivity.
Qed.

Lemma Forall2_swept_In_r (l1 l2 : list Appointment) (b : Appointment) :
  Forall2 (leftBySweep now) l1 l2 -> In b l2 -> exists a, In a l1 /\ (leftBySweep now) a b.
Proof using Type.
  induction 1 as [ | a b' l1 l2 Hab _ IH ]; intros Hin; [ destruct Hin | ].
  destruct Hin as [ <- | Hin ].
  - exists a. split; [ left; reflexivity | exact Hab ].
  - destruct (IH Hin) as (a0 & Ha0 & Hs). exists a0. split; [ right | ]; assumption.
Qed.

Lemma Forall2_swept_In_l (l1 l2 : list Appointment) (a : Appointment) :
  Forall2 (leftBySweep now) l1 l2 -> In a l1 -> exists b, In b l2 /\ (leftBySweep now) a b.
Proof using Type.
  induction 1 as [ | a' b l1 l2 Hab _ IH ]; intros Hin; [ destruct Hin | ].
  destruct Hin as [ <- | Hin ].
  - exists b. split; [ left; reflexivity | exact Hab ].
  - destruct (IH Hin) as (b0 & Hb0 & Hs). exists b0. split; [ right | ]; assumption.
Qed.

Lemma uniqueIds_same (db : Collection) (a b : Appointment) :
  uniqueIds db -> In a db -> In b db -> apt_id a = apt_id b -> a = b.
Proof using Type.
  unfold uniqueIds. induction db as [ | x db IH ]; intros Hnd Ha Hb Hid; [ destruct Ha | ].
  cbn in Hnd. inversion Hnd as [ | ? ? Hx Hrest ]; subst.
  destruct Ha as [ <- | Ha ], Hb as [ <- | Hb ].
  - reflexivity.
  - exfalso. apply Hx. rewrite Hid. apply List.in_map, Hb.
  - exfalso. apply Hx. rewrite <- Hid. apply List.in_map, Ha.
  - apply IH; assumption.
Qed.

(** One reminder of the sweep, for a selected appointment [x] of the
    collection [db0] the sweep started from. *)
Lemma sweep_step (db0 db db' : Collection) (logs logs' : list ReminderLog)
      (x : Appointment) :
  uniqueIds db0 ->
  Forall2 (leftBySweep now) db0 db ->
  In x db0 -> properId x -> sendable x ->
  sendReminder now (idToString (apt_id x)) type db logs = (db', logs') ->
  Forall2 (leftBySweep now) db db'
  /\ (forall a', In a' db' -> apt_id a' = apt_id x -> apt_reminderSent a' = true)
  /\ exists entry, logs' = logs ++ [entry] /\ log_status entry = sent.
Proof using Type.
  intros Huniq Hrel Hx (oid & Hxid & Hwf) Hsend Hrun.
  rewrite Hxid in Hrun. cbn [idToString] in Hrun.
  assert (Huniq' : uniqueIds db)
    by (unfold uniqueIds; rewrite (Forall2_swept_ids db0 db Hrel); exact Huniq).
  destruct (Forall2_swept_In_l db0 db x Hrel Hx) as (xk & Hxk & Hsw).
  assert (Hxkid : apt_id xk = IdObject oid)
    by (rewrite (swept_id x xk Hsw); exact Hxid).
  destruct (sendReminder_inv now (ObjectId_toString oid) type db db' logs logs' Hrun)
    as [ (_ & _ & [ Hbad | (oid' & Hid' & Hnone) ])
       | [ (oid' & X & Hid' & Hfind & Hbad & _ & _)
         | (oid' & X & Hid' & Hfind & _ & Hrep & Hlogs) ] ].
  - congruence.
  - exfalso. rewrite Hwf in Hid'. inversion Hid'; subst oid'.
    pose proof (List.find_none _ _ Hnone xk Hxk) as Hn.
    apply byObjectId_false_iff in Hn. contradiction.
  - exfalso. rewrite Hwf in Hid'. inversion Hid'; subst oid'.
    apply List.find_some in Hfind. destruct Hfind as [HX HXid].
    apply byObjectId_true_iff in HXid.
    assert (X = xk) by (apply (uniqueIds_same db); congruence). subst X.
    apply Hbad. destruct Hsw as [ -> | -> ]; exact Hsend.
  - rewrite Hwf in Hid'. inversion Hid'; subst oid'.
    split; [ | split ].
    + eapply replacesFirst_Forall2; [ exact Hrep | left; reflexivity | right; reflexivity ].
    + intros a' Ha' Hid.
      destruct Hrep as (l1 & l2 & Hdb & -> & HX & Hl1).
      apply List.in_app_or in Ha'. destruct Ha' as [ Ha' | [ <- | Ha' ] ].
      * exfalso. apply (Hl1 a' Ha'). congruence.
      * reflexivity.
      * exfalso. unfold uniqueIds in Huniq'. rewrite Hdb, List.map_app in Huniq'.
        cbn in Huniq'. apply List.NoDup_remove_2 in Huniq'. apply Huniq'.
        apply List.in_or_app. right. rewrite HX, <- Hxid, <- Hid.
        apply List.in_map, Ha'.
    + eexists. split; [ exact Hlogs | reflexivity ].
Qed.

(** The loop of the sweep over the appointments [l] it selected. *)
Lemma sweep_fold (db0 : Collection) (l : list Appointment) :
  uniqueIds db0 ->
  (forall x, In x l -> In x db0 /\ properId x /\ sendable x) ->
  forall db logs,
    Forall2 (leftBySweep now) db0 db ->
    Forall2 (leftBySweep now) db0
            (fst (fold_left
                    (fun st apt =>
                       sendReminder now (idToString (apt_id apt)) type (fst st) (snd st))
                    l (db, logs)))
    /\ (forall x a',
           In x l ->
           In a' (fst (fold_left
                         (fun st apt =>
                            sendReminder now (idToString (apt_id apt)) type
                                         (fst st) (snd st))
                         l (db, logs))) ->
           apt_id a' = apt_id x -> apt_reminderSent a' = true)
    /\ exists entries,
        snd (fold_left
               (fun st apt =>
                  sendReminder now (idToString (apt_id apt)) type (fst st) (snd st))
               l (db, logs))
        = logs ++ entries
        /\ length entries = length l
        /\ List.Forall (fun entry => log_status entry = sent) entries.
Proof using Type.
  intros Huniq. induction l as [ | x l IH ]; intros Hl db logs Hrel.
  - cbn. split; [ exact Hrel | split; [ intros x a' [] | ] ].
    exists []. rewrite List.app_nil_r. repeat split. constructor.
  - cbn [fold_left fst snd].
    destruct (sendReminder now (idToString (apt_id x)) type db logs) as [db1 logs1] eqn:Hrun.
    destruct (Hl x (or_introl eq_refl)) as (Hx & Hproper & Hsendable).
    destruct (sweep_step db0 db db1 logs logs1 x Huniq Hrel Hx Hproper Hsendable Hrun)
      as (Hstep & Hmarked & entry & Hlogs & Hsent).
    assert (Hrel1 : Forall2 (leftBySweep now) db0 db1)
      by (eapply Forall2_swept_trans; eassumption).
    destruct (IH (fun y Hy => Hl y (or_intror Hy)) db1 logs1 Hrel1)
      as (Hfinal & Hrest & entries & Hlogsf & Hlen & Hall).
    split; [ exact Hfinal | split ].
    + intros y a' [ <- | Hy ] Ha' Hid; [ | eapply Hrest; eassumption ].
      assert (Hstep' : Forall2 (leftBySweep now) db1
                         (fst (fold_left
                                 (fun st apt =>
                                    sendReminder now (idToString (apt_id apt)) type
                                                 (fst st) (snd st))
                                 l (db1, logs1)))).
      { clear - l db1 logs1. revert db1 logs1.
        induction l as [ | z l IHl ]; intros db1 logs1; cbn.
        - apply Forall2_same. intros a. left. reflexivity.
        - destruct (sendReminder now (idToString (apt_id z)) type db1 logs1)
            as [db2 logs2] eqn:Hz.
          eapply Forall2_swept_trans; [ | apply IHl ].
          destruct (sendReminder_inv now _ type db1 db2 logs1 logs2 Hz)
            as [ (-> & _) | [ (? & ? & _ & _ & _ & -> & _)
                            | (oid & X & _ & _ & _ & Hrep & _) ] ];
            try (apply Forall2_same; intros a; left; reflexivity).
          eapply replacesFirst_Forall2;
            [ exact Hrep | left; reflexivity | right; reflexivity ]. }
      destruct (Forall2_swept_In_r _ _ a' Hstep' Ha') as (b & Hb & Hsw).
      assert (Hbsent : apt_reminderSent b = true).
      { apply Hmarked; [ exact Hb | ]. rewrite <- (swept_id b a' Hsw). exact Hid. }
      destruct Hsw as [ -> | -> ]; [ exact Hbsent | reflexivity ].
    + exists (entry :: entries).
      split; [ | split; [ cbn; lia | constructor; assumption ] ].
      transitivity (logs1 ++ entries); [ exact Hlogsf | ].
      rewrite Hlogs, <- List.app_assoc. reflexivity.
Qed.

End SweepFacts.

(** The last scenario of §8.  When document ids are unique and every
    appointment the sweep selects has a proper id and service and provider
    references that are [ObjectId]s, the sweep reminds each of them once:
    it logs one "sent" entry per selected appointment, marks them and
    changes nothing else in the store; a second sweep at the same time
    selects nothing, and no later sweep selects any of them again.  The
    timer map is not touched: a timer armed for one of them stays armed. *)
Theorem second_sweep_sends_nothing
        (now : Z) (settings : option Settings) (s : Server) :
  uniqueIds (appointments s) ->
  (forall x, In x (appointmentsNeedingReminders now settings (appointments s)) ->
             properId x /\ sendable x) ->
  appointmentsNeedingReminders now settings
    (appointments (checkDueReminders now settings s)) = []
  /\ (forall later settings' a',
         In a' (appointmentsNeedingReminders later settings'
                  (appointments (checkDueReminders now settings s))) ->
         forall x, In x (appointmentsNeedingReminders now settings (appointments s)) ->
                   apt_id x <> apt_id a')
  /\ (exists entries,
         reminderLogs (checkDueReminders now settings s) = reminderLogs s ++ entries
         /\ length entries
            = length (appointmentsNeedingReminders now settings (appointments s))
         /\ List.Forall (fun entry => log_status entry = sent) entries)
  /\ Forall2 (fun a a' => a' = a \/ reminded now a a')
             (appointments s) (appointments (checkDueReminders now settings s))
  /\ scheduledReminders (checkDueReminders now settings s) = scheduledReminders s.
Proof.
  intros Huniq Hsel.
  pose proof (sweep_fold now (reminderTypeOf settings) (appointments s)
                (appointmentsNeedingReminders now settings (appointments s)) Huniq) as Hfold.
  specialize (Hfold (fun x Hx =>
                       conj (proj1 (proj1 (List.filter_In _ _ _) Hx)) (Hsel x Hx))
                    (appointments s) (reminderLogs s)
                    (Forall2_same _ _ (fun a => or_introl eq_refl))).
  unfold checkDueReminders.
  destruct (fold_left _ _ _) as [db' logs'] eqn:Hrun.
  cbn [fst snd appointments reminderLogs scheduledReminders] in *.
  destruct Hfold as (Hrel & Hmarked & Hlogs).
  assert (Hnever : forall later settings' a',
             In a' (appointmentsNeedingReminders later settings' db') ->
             forall x, In x (appointmentsNeedingReminders now settings (appointments s)) ->
                       apt_id x <> apt_id a').
  { intros later settings' a' Ha' x Hx Hid.
    apply List.filter_In in Ha'. destruct Ha' as [Ha' Hneeds].
    apply needsReminder_true_iff in Hneeds. destruct Hneeds as (_ & _ & Hunsent).
    rewrite (Hmarked x a' Hx Ha' (eq_sym Hid)) in Hunsent. discriminate. }
  split; [ | split; [ exact Hnever | split; [ exact Hlogs | split; [ | reflexivity ] ] ] ].
  - destruct (appointmentsNeedingReminders now settings db') as [ | a' rest ] eqn:Hagain;
      [ reflexivity | exfalso ].
    assert (Ha' : In a' (appointmentsNeedingReminders now settings db'))
      by (rewrite Hagain; left; reflexivity).
    pose proof Ha' as Hin. apply List.filter_In in Hin. destruct Hin as [Hin Hneeds].
    destruct (Forall2_swept_In_r now _ _ a' Hrel Hin) as (a & Ha & [ -> | -> ]).
    + apply (Hnever now settings a Ha' a); [ | reflexivity ].
      apply List.filter_In. split; assumption.
    + apply needsReminder_true_iff in Hneeds. destruct Hneeds as (_ & _ & Hunsent).
      discriminate Hunsent.
  - eapply Forall2_impl; [ exact Hrel | ].
    intros a a' [ -> | -> ]; [ left; reflexivity | right; apply markReminderSent_reminded ].
Qed.

(** On Wednesday noon, with Thursday's visit in the store and its timer
    armed: one reminder is logged, and a second sweep finds nothing. *)
Lemma second_sweep_sends_nothing_witness :
  appointmentsNeedingReminders (Clinic.clock (2 * 24 + 12) 0) None
    (appointments
       (checkDueReminders (Clinic.clock (2 * 24 + 12) 0) None
          (scheduleExistingAppointments Clinic.monday
             (mkServer [Clinic.tenOClock; Clinic.thursdayVisit] [] ∅)))) = []
  /\ length (reminderLogs
               (checkDueReminders (Clinic.clock (2 * 24 + 12) 0) None
                  (scheduleExistingAppointments Clinic.monday
                     (mkServer [Clinic.tenOClock; Clinic.thursdayVisit] [] ∅)))) = 1%nat.
Proof.
  split; [ | vm_compute; reflexivity ].
  apply (second_sweep_sends_nothing (Clinic.clock (2 * 24 + 12) 0) None
           (scheduleExistingAppointments Clinic.monday
              (mkServer [Clinic.tenOClock; Clinic.thursdayVisit] [] ∅))).
  - unfold uniqueIds. cbn.
    constructor; [ intros [ H | [] ]; discriminate H | ].
    constructor; [ intros [] | constructor ].
  - intros x Hx. vm_compute in Hx. destruct Hx as [ <- | [] ].
    split; [ eexists; split; reflexivity | split; vm_compute; discriminate ].
Defined.

(* ================================================================== *)
(** * The email check *)
(* ================================================================== *)

Section EmailFacts.
Import Validation EmailSpec.

Lemma append_cons (c : ascii) (a b : string) : String c a +:+ b = String c (a +:+ b).
Proof using Type. reflexivity. Qed.

Lemma append_nil (b : string) : "" +:+ b = b.
Proof using Type. reflexivity. Qed.

Lemma string_forallb_app (p : ascii -> bool) (a b : string) :
  string_forallb p (a +:+ b) = string_forallb p a && string_forallb p b.
Proof using Type.
  induction a as [ | c a IH ]; rewrite ?append_cons, ?append_nil; cbn [string_forallb];
    [ reflexivity | ].
  rewrite IH, andb_assoc. reflexivity.
Qed.

Lemma splitAt_spec (s : string) :
  forall localPart domain,
    splitAt s = Some (localPart, domain) ->
    s = localPart +:+ "@" +:+ domain.
Proof using Type.
  induction s as [ | c s IH ]; intros localPart domain; cbn [splitAt]; [ discriminate | ].
  destruct (Ascii.eqb_spec c "@") as [ -> | Hne ].
  - intros [= <- <-]. reflexivity.
  - destruct (splitAt s) as [ [a b] | ]; [ | discriminate ].
    intros [= <- <-]. rewrite append_cons. f_equal. apply IH. reflexivity.
Qed.

Lemma splitAt_app (a rest : string) :
  string_forallb isEmailChar a = true ->
  splitAt (a +:+ "@" +:+ rest) = Some (a, rest).
Proof using Type.
  induction a as [ | c a IH ]; rewrite ?append_cons, ?append_nil; cbn [string_forallb].
  - intros _. reflexivity.
  - intros Hall. apply andb_true_iff in Hall. destruct Hall as [Hc Ha].
    unfold isEmailChar in Hc. apply andb_true_iff in Hc. destruct Hc as [_ Hat].
    apply negb_true_iff in Hat. specialize (IH Ha).
    change ("@" +:+ rest) with (String "@" rest) in *.
    cbn [splitAt]. rewrite Hat, IH. reflexivity.
Qed.

Lemma hasInnerDotFrom_spec (s : string) :
  hasInnerDotFrom s = true ->
  exists b c, s = b +:+ "." +:+ c /\ c <> ""%string.
Proof using Type.
  induction s as [ | x s IH ]; cbn [hasInnerDotFrom]; [ discriminate | ].
  destruct s as [ | y s ]; [ discriminate | ].
  intros H. apply orb_true_iff in H. destruct H as [ Hdot | Hrest ].
  - apply Ascii.eqb_eq in Hdot. subst x. exists ""%string, (String y s).
    split; [ reflexivity | discriminate ].
  - destruct (IH Hrest) as (b & c & Heq & Hc).
    exists (String x b), c. split; [ rewrite append_cons, Heq; reflexivity | exact Hc ].
Qed.

Lemma hasInnerDotFrom_app (b c : string) :
  c <> ""%string -> hasInnerDotFrom (b +:+ String "." c) = true.
Proof using Type.
  intros Hc. induction b as [ | x b IH ]; rewrite ?append_cons, ?append_nil.
  - destruct c; [ contradiction Hc; reflexivity | reflexivity ].
  - cbn [hasInnerDotFrom].
    destruct (b +:+ String "." c) eqn:Heq; [ destruct b; discriminate | ].
    rewrite IH. apply orb_true_r.
Qed.

End EmailFacts.

Import EmailSpec.

(** [validateEmail] accepts exactly the strings of the pattern
    [^[^\s@]+@[^\s@]+\.[^\s@]+$]: a non-empty word, ["@"], a non-empty word,
    ["."], a non-empty word, the words being free of white space and of
    ["@"]. *)
Theorem validateEmail_matches_pattern (email : string) :
  Validation.validateEmail email = true <-> matchesEmailPattern email.
Proof.
  unfold Validation.validateEmail, matchesEmailPattern, emailWord. split.
  - destruct (Validation.splitAt email) as [ [localPart domain] | ] eqn:Hsplit;
      [ | discriminate ].
    rewrite !andb_true_iff, negb_true_iff. intros (((Hne & Hlocal) & Hdomain) & Hdot).
    apply splitAt_spec in Hsplit.
    destruct domain as [ | d domain ]; [ discriminate | ].
    cbn [Validation.hasInnerDot] in Hdot.
    destruct (hasInnerDotFrom_spec domain Hdot) as (b & c & Heq & Hc).
    exists localPart, (String d b), c.
    split; [ rewrite Hsplit, Heq; reflexivity | ].
    rewrite Heq in Hdomain. cbn [string_forallb] in Hdomain.
    rewrite !string_forallb_app in Hdomain. cbn [string_forallb] in Hdomain.
    rewrite !andb_true_iff in Hdomain.
    destruct Hdomain as (Hd & Hb & _ & Hcs).
    split; [ split; [ apply String.eqb_neq, Hne | exact Hlocal ] | ].
    split; [ split; [ discriminate | cbn [string_forallb]; rewrite Hd, Hb; reflexivity ] | ].
    split; assumption.
  - intros (localPart & host & suffix & -> & (Hl & Hlall) & (Hh & Hhall) & (Hs & Hsall)).
    rewrite (splitAt_app localPart _ Hlall).
    rewrite !andb_true_iff, negb_true_iff. repeat split.
    + apply String.eqb_neq, Hl.
    + exact Hlall.
    + rewrite !string_forallb_app, Hhall, Hsall. reflexivity.
    + destruct host as [ | h host ]; [ contradiction Hh; reflexivity | ].
      rewrite append_cons. cbn [Validation.hasInnerDot]. apply hasInnerDotFrom_app, Hs.
Qed.

Example validateEmail_examples :
  Validation.validateEmail "ada@example.org" = true
  /\ Validation.validateEmail "ada.park@clinic.example.org" = true
  /\ Validation.validateEmail "ada@example" = false
  /\ Validation.validateEmail "ada@.org" = false
  /\ Validation.validateEmail "ada@example." = false
  /\ Validation.validateEmail "ada park@example.org" = false
  /\ Validation.validateEmail "ada@park@example.org" = false
  /\ Validation.validateEmail "@example.org" = false.
Proof. repeat split; reflexivity. Qed.

(* ================================================================== *)
(** * Listing and counting *)
(* ================================================================== *)

Section ReportFacts.
Import Store Reports.

Lemma filter_filter_implied {A : Type} (p q : A -> bool) (l : list A) :
  (forall a, p a = true -> q a = true) ->
  List.filter p (List.filter q l) = List.filter p l.
Proof using Type.
  intros Himp. induction l as [ | a l IH ]; [ reflexivity | ].
  cbn [List.filter]. destruct (q a) eqn:Hq.
  - cbn [List.filter]. rewrite IH. reflexivity.
  - rewrite IH. destruct (p a) eqn:Hp; [ | reflexivity ].
    rewrite (Himp a Hp) in Hq. discriminate.
Qed.

Lemma filter_disjoint_length {A : Type} (f g h : A -> bool) (l : list A) :
  (forall a, g a = true -> h a = true -> False) ->
  (length (List.filter (fun a => f a && g a) l)
   + length (List.filter (fun a => f a && h a) l)
   <= length (List.filter f l))%nat.
Proof using Type.
  intros Hdis. induction l as [ | a l IH ]; [ cbn; lia | ].
  cbn [List.filter]. destruct (f a); cbn [andb]; [ | exact IH ].
  destruct (g a) eqn:Hg, (h a) eqn:Hh; cbn [length]; try lia.
  exfalso. eapply Hdis; eassumption.
Qed.

Lemma nodup_length_le (l : list string) :
  (length (nodup string_dec l) <= length l)%nat.
Proof using Type.
  induction l as [ | x l IH ]; [ cbn; lia | ].
  cbn [nodup]. destruct (in_dec string_dec x l); cbn [length]; lia.
Qed.

End ReportFacts.

Import Reports.

(** The figures of [getAppointmentStats] hang together: pending and
    confirmed appointments together are at most the total, there are at
    most as many patients as appointments, no patient is counted without an
    appointment and no appointment without a patient. *)
Theorem stats_are_consistent (db : Store.Collection) (user : option User) :
  (pendingAppointments (getAppointmentStats db user)
   + confirmedAppointments (getAppointmentStats db user)
   <= totalAppointments (getAppointmentStats db user))%nat
  /\ (totalPatients (getAppointmentStats db user)
      <= totalAppointments (getAppointmentStats db user))%nat
  /\ (totalPatients (getAppointmentStats db user) = 0%nat
      <-> totalAppointments (getAppointmentStats db user) = 0%nat).
Proof.
  unfold getAppointmentStats, Store.findAll, distinctEmails. cbn.
  split; [ | split ].
  - apply filter_disjoint_length. intros a H1 H2.
    destruct (apt_status a); discriminate.
  - etransitivity; [ apply nodup_length_le | ]. rewrite List.length_map. lia.
  - destruct (List.filter (statsFilter user) db) as [ | a l ]; [ split; reflexivity | ].
    split; [ | discriminate ].
    intros H. exfalso.
    assert (Hin : In (apt_patientEmail a)
                     (nodup string_dec (List.map apt_patientEmail (a :: l))))
      by (apply List.nodup_In; left; reflexivity).
    destruct (nodup string_dec (List.map apt_patientEmail (a :: l)));
      [ destruct Hin | discriminate ].
Qed.

(** A user bound to a provider reads that provider's appointments only:
    every document the list query accepts is the provider's, whatever
    [providerId] the request names, and the statistics are those of the
    provider's own documents. *)
Theorem bound_provider_reads_only_own (user : option User) (p : string) :
  boundProvider user = Some p ->
  (forall q query a,
      buildQuery user q = inr query -> query a = true -> apt_providerId a = p)
  /\ (forall db,
         getAppointmentStats db user
         = getAppointmentStats
             (List.filter (fun a => String.eqb (apt_providerId a) p) db) user).
Proof.
  intros Hbound. split.
  - intros q query a Hq Ha. unfold buildQuery, bind, ret in Hq.
    destruct (timeBound (lq_startDate q)) as [ | from ]; [ discriminate | ].
    destruct (timeBound (lq_endDate q)) as [ | to ]; [ discriminate | ].
    inversion Hq; subst query. clear Hq.
    rewrite !andb_true_iff in Ha. destruct Ha as (((Hp & _) & _) & _).
    unfold providerClause in Hp. rewrite Hbound in Hp. apply String.eqb_eq, Hp.
  - intros db. unfold getAppointmentStats, Store.findAll, distinctEmails, statsFilter.
    rewrite Hbound.
    rewrite !(filter_filter_implied _ (fun a => String.eqb (apt_providerId a) p));
      [ reflexivity | | | ];
      intros a Ha; rewrite ?andb_true_iff in Ha; tauto.
Qed.

Lemma bound_provider_reads_only_own_witness :
  getAppointmentStats
    [Clinic.tenOClock;
     Ward.withId (IdString "kim-1")
       (Clinic.appointmentOf "" (Clinic.clock 9 0) (Clinic.clock 9 30) pending)]
    (Some Ward.drLeeUser)
  = getAppointmentStats
      (List.filter (fun a => String.eqb (apt_providerId a) Clinic.drLee)
         [Clinic.tenOClock;
          Ward.withId (IdString "kim-1")
            (Clinic.appointmentOf "" (Clinic.clock 9 0) (Clinic.clock 9 30) pending)])
      (Some Ward.drLeeUser).
Proof.
  apply (proj2 (bound_provider_reads_only_own (Some Ward.drLeeUser) Clinic.drLee eq_refl)).
Defined.

(** A provider account without a [providerId] is not bound: its list
    query takes the [providerId] of the request, and its statistics are
    those of the whole collection. *)
Example unbound_provider_reads_all :
  boundProvider (Some (mkUser provider None)) = None
  /\ totalAppointments
       (getAppointmentStats [Clinic.tenOClock; Clinic.thursdayVisit]
                            (Some (mkUser provider None))) = 2%nat.
Proof. split; reflexivity. Qed.

(* ================================================================== *)
(** * Which accepted candidates are answered *)
(* ================================================================== *)

(** On an open, unblocked day the slots of the answer are accepted
    candidates, and when at most eight candidates are accepted the answer
    holds every one of them: the cut to eight is the only way a free
    candidate is left out. *)
Theorem few_candidates_all_returned
        (E : SortEngine) (fuel : nat) (tz : Z)
        (availabilities : list ProviderAvailability) (appointments : Store.Collection)
        (q : Slots.SlotsQuery) (availability : ProviderAvailability)
        (selectedDate durationMinutes : Z) (bh : BusinessHours) :
  q_providerId q <> ""%string ->
  q_date q = TimeAt selectedDate ->
  q_duration q = NumInt durationMinutes ->
  0 < durationMinutes ->
  List.find (fun av => String.eqb (av_providerId av) (q_providerId q)) availabilities
  = Some availability ->
  Slots.findBusinessHours availability (Time.getDay tz selectedDate) = Some bh ->
  bh_isOpen bh = true ->
  Slots.isBlocked availability selectedDate = false ->
  (SlotSpec.walkFuel (Slots.startDateTimeOf tz selectedDate bh)
                     (Slots.endDateTimeOf tz selectedDate bh)
                     (durationMinutes * Time.msPerMinute) <= fuel)%nat ->
  exists slots,
    Slots.getAvailableSlots fuel tz availabilities appointments q
    = Some (mkResponse 200 (BSlots slots))
    /\ (forall s, In s slots ->
                  In s (SlotSpec.acceptedCandidates
                          (SlotSpec.fetched tz appointments (q_providerId q) selectedDate)
                          (Slots.startDateTimeOf tz selectedDate bh)
                          (Slots.endDateTimeOf tz selectedDate bh)
                          (durationMinutes * Time.msPerMinute)))
    /\ ((length (SlotSpec.acceptedCandidates
                   (SlotSpec.fetched tz appointments (q_providerId q) selectedDate)
                   (Slots.startDateTimeOf tz selectedDate bh)
                   (Slots.endDateTimeOf tz selectedDate bh)
                   (durationMinutes * Time.msPerMinute)) <= 8)%nat ->
        Permutation
          (SlotSpec.acceptedCandidates
             (SlotSpec.fetched tz appointments (q_providerId q) selectedDate)
             (Slots.startDateTimeOf tz selectedDate bh)
             (Slots.endDateTimeOf tz selectedDate bh)
             (durationMinutes * Time.msPerMinute))
          slots).
Proof.
  intros Hp Hd Hn Hpos Hav Hbh Hopen Hblocked Hfuel.
  eexists. split; [ | split ].
  - eapply getAvailableSlots_open_day; eassumption.
  - intros s Hin. apply In_firstn in Hin.
    eapply Permutation_in; [ apply Permutation_sym, shuffle_perm | exact Hin ].
  - intros Hfew. rewrite firstn_all2; [ apply shuffle_perm | ].
    rewrite <- (Permutation_length (shuffle_perm _)). exact Hfew.
Qed.

(** A morning of six half hours with 10:00-10:30 taken: the five free
    half hours are all answered. *)
Lemma few_candidates_all_returned_witness :
  exists slots,
    Slots.getAvailableSlots 20 Clinic.utc [Clinic.morning] [Clinic.tenOClock]
                            Clinic.halfHours
    = Some (mkResponse 200 (BSlots slots))
    /\ Permutation
         [ mkTimeSlot (Clinic.clock 9 0) (Clinic.clock 9 30) true;
           mkTimeSlot (Clinic.clock 9 30) (Clinic.clock 10 0) true;
           mkTimeSlot (Clinic.clock 10 30) (Clinic.clock 11 0) true;
           mkTimeSlot (Clinic.clock 11 0) (Clinic.clock 11 30) true;
           mkTimeSlot (Clinic.clock 11 30) (Clinic.clock 12 0) true ]
         slots.
Proof.
  destruct (few_candidates_all_returned reverseEngine 20 Clinic.utc [Clinic.morning]
              [Clinic.tenOClock] Clinic.halfHours Clinic.morning Clinic.monday 30
              (mkBusinessHours 1 (mkTimeOfDay 9 0) (mkTimeOfDay 12 0) true))
    as (slots & Hrun & _ & Hall).
  - discriminate.
  - reflexivity.
  - reflexivity.
  - lia.
  - reflexivity.
  - reflexivity.
  - reflexivity.
  - reflexivity.
  - vm_compute. lia.
  - exists slots. split; [ exact Hrun | ].
    apply Hall. vm_compute. lia.
Defined.
